(** * Storage miner actor: monies and request handlers

    A shallow embedding of [actors/builtin/miner/monies.go] and of the
    request handlers of [actors/builtin/miner/miner_actor.go] that compute
    penalties, deposits and cron enrollments, together with the properties
    the specification states about them.

    Conventions.
    - [abi.TokenAmount], [abi.StoragePower] and [big.Int] are arbitrary
      precision integers: [Z].
    - [abi.ChainEpoch] is an [int64]: [Z] with the wrap-around of run-time
      arithmetic written out ([wrap64]).
    - A handler runs in the monad [Rt] (persisted state, balance, messages
      sent); the closure given to [rt.State().Transaction] runs in [Tx] and
      is committed only when it returns. *)

From Stdlib Require Import ZArith List Lia Bool.
From Stdlib.Strings Require Byte.
From stdpp Require Import gmap.
Import ListNotations.
Local Open Scope Z_scope.

(** ** Machine integers *)

Definition min_int64 : Z := - 2 ^ 63.
Definition max_int64 : Z := 2 ^ 63 - 1.

(** Two's complement wrap-around of an [int64] result. *)
Definition wrap64 (z : Z) : Z := (z + 2 ^ 63) mod 2 ^ 64 - 2 ^ 63.

Definition in_int64 (z : Z) : Prop := min_int64 <= z <= max_int64.

(** ** Arbitrary-precision integers ([actors/abi/big])

    Modelled from the spec: the shared arbitrary-precision integer library
    with explicit precision shifts.  The package wraps Go's [math/big]:
    [Div] is Euclidean division (run-time panic on a zero divisor, which
    callers with a divisor that may vanish model explicitly) and [Rsh] is
    an arithmetic shift. *)
Module big.

Definition Zero : Z := 0.
Definition NewInt (i : Z) : Z := i.
Definition Add (a b : Z) : Z := a + b.
Definition Sub (a b : Z) : Z := a - b.
Definition Mul (a b : Z) : Z := a * b.
Definition Neg (a : Z) : Z := - a.
Definition Div (a b : Z) : Z := Z.sgn b * (a / Z.abs b).
Definition Rsh (a : Z) (n : Z) : Z := Z.shiftr a n.
Definition Max (a b : Z) : Z := if a >? b then a else b.
Definition Min (a b : Z) : Z := if a <? b then a else b.
Definition IsZero (a : Z) : bool := a =? 0.
Definition LessThan (a b : Z) : bool := a <? b.
Definition GreaterThan (a b : Z) : bool := a >? b.
Definition GreaterThanEqual (a b : Z) : bool := a >=? b.
Definition LessThanEqual (a b : Z) : bool := a <=? b.

End big.

(** ** Smoothed estimates ([actors/util/smoothing], [actors/util/math])

    The filter estimates are maintained by the reward and power actors;
    the miner treats them as opaque.  Their operations are an interface. *)
Class Smoothing := {
  FilterEstimate : Type;
  (** [fe.Estimate()]: the smoothed value, Q.0. *)
  Estimate : FilterEstimate -> Z;
  (** [smoothing.ExtrapolatedCumSumOfRatio(delta, relativeStart, num, denom)],
      Q.128. *)
  ExtrapolatedCumSumOfRatio : Z -> Z -> FilterEstimate -> FilterEstimate -> Z
}.

(** Modelled from the spec: [math.Precision], the 128-bit fractional
    representation of the fixed-point projections. *)
Definition Precision : Z := 128.

(** ** Network parameters ([actors/builtin])

    Constants of the network that the miner package imports. *)
Class Network := {
  (** [builtin.EpochsInDay], an untyped constant. *)
  EpochsInDay : Z;
  (** [builtin.ExpectedLeadersPerEpoch]. *)
  ExpectedLeadersPerEpoch : Z;
  (** [builtin.BurntFundsActorAddr]. *)
  BurntFundsActorAddr : N
}.

(** ** Monies ([monies.go]) *)
Section Monies.

Context {SM : Smoothing} {NW : Network}.

Definition PreCommitDepositFactor : Z := 20.
Definition PreCommitDepositProjectionPeriod : Z :=
  wrap64 (PreCommitDepositFactor * EpochsInDay).

Definition InitialPledgeFactor : Z := 20.
Definition InitialPledgeProjectionPeriod : Z :=
  wrap64 (InitialPledgeFactor * EpochsInDay).

Record BigFrac := { numerator : Z; denominator : Z }.

Definition InitialPledgeLockTarget : BigFrac :=
  {| numerator := big.NewInt 3; denominator := big.NewInt 10 |}.

Definition DeclaredFaultFactorNum : Z := 214.
Definition DeclaredFaultFactorDenom : Z := 100.
(** Go [int] arithmetic: the quotient truncates toward zero. *)
Definition DeclaredFaultProjectionPeriod : Z :=
  wrap64 (Z.quot (wrap64 (EpochsInDay * DeclaredFaultFactorNum))
                 DeclaredFaultFactorDenom).

(** A constant expression: evaluated exactly by the compiler. *)
Definition UndeclaredFaultProjectionPeriod : Z := 5 * EpochsInDay.

Definition TerminationLifetimeCap : Z := 70.

Definition minEpoch (a b : Z) : Z := if a <? b then a else b.
Definition maxEpoch (a b : Z) : Z := if a >? b then a else b.

Definition ExpectedRewardForPower
    (rewardEstimate networkQAPowerEstimate : FilterEstimate)
    (qaSectorPower : Z) (projectionDuration : Z) : Z :=
  let networkQAPowerSmoothed := Estimate networkQAPowerEstimate in
  if big.IsZero networkQAPowerSmoothed then
    Estimate rewardEstimate
  else
    let expectedRewardForProvingPeriod :=
      ExtrapolatedCumSumOfRatio projectionDuration 0
        rewardEstimate networkQAPowerEstimate in
    let br128 := big.Mul qaSectorPower expectedRewardForProvingPeriod in
    let br := big.Rsh br128 Precision in
    big.Max br big.Zero.

Definition PledgePenaltyForDeclaredFault
    (rewardEstimate networkQAPowerEstimate : FilterEstimate)
    (qaSectorPower : Z) : Z :=
  ExpectedRewardForPower rewardEstimate networkQAPowerEstimate
    qaSectorPower DeclaredFaultProjectionPeriod.

Definition PledgePenaltyForUndeclaredFault
    (rewardEstimate networkQAPowerEstimate : FilterEstimate)
    (qaSectorPower : Z) : Z :=
  ExpectedRewardForPower rewardEstimate networkQAPowerEstimate
    qaSectorPower UndeclaredFaultProjectionPeriod.

Definition PledgePenaltyForTermination
    (dayReward : Z) (sectorAge : Z) (twentyDayRewardAtActivation : Z)
    (networkQAPowerEstimate : FilterEstimate) (qaSectorPower : Z)
    (rewardEstimate : FilterEstimate) (replacedDayReward : Z)
    (replacedSectorAge : Z) : Z :=
  let lifetimeCap := TerminationLifetimeCap * EpochsInDay in
  let cappedSectorAge := minEpoch sectorAge lifetimeCap in
  let expectedReward := big.Mul dayReward (big.NewInt cappedSectorAge) in
  let relevantReplacedAge :=
    minEpoch replacedSectorAge (wrap64 (lifetimeCap - cappedSectorAge)) in
  let expectedReward :=
    big.Add expectedReward
      (big.Mul replacedDayReward (big.NewInt relevantReplacedAge)) in
  big.Max
    (PledgePenaltyForUndeclaredFault rewardEstimate networkQAPowerEstimate
       qaSectorPower)
    (big.Add twentyDayRewardAtActivation
       (big.Div expectedReward (big.NewInt EpochsInDay))).

Definition PreCommitDepositForPower
    (rewardEstimate networkQAPowerEstimate : FilterEstimate)
    (qaSectorPower : Z) : Z :=
  ExpectedRewardForPower rewardEstimate networkQAPowerEstimate
    qaSectorPower PreCommitDepositProjectionPeriod.

(** [big.Div] panics on a zero divisor: [None]. *)
Definition InitialPledgeForPower
    (qaPower baselinePower : Z)
    (rewardEstimate networkQAPowerEstimate : FilterEstimate)
    (circulatingSupply : Z) : option Z :=
  let ipBase :=
    ExpectedRewardForPower rewardEstimate networkQAPowerEstimate qaPower
      InitialPledgeProjectionPeriod in
  let lockTargetNum :=
    big.Mul (numerator InitialPledgeLockTarget) circulatingSupply in
  let lockTargetDenom := denominator InitialPledgeLockTarget in
  let pledgeShareNum := qaPower in
  let networkQAPower := Estimate networkQAPowerEstimate in
  let pledgeShareDenom :=
    big.Max (big.Max networkQAPower baselinePower) qaPower in
  let additionalIPNum := big.Mul lockTargetNum pledgeShareNum in
  let additionalIPDenom := big.Mul lockTargetDenom pledgeShareDenom in
  if big.IsZero additionalIPDenom then None
  else
    let additionalIP := big.Div additionalIPNum additionalIPDenom in
    Some (big.Add ipBase additionalIP).

End Monies.

(** ** Exit codes ([actors/runtime/exitcode])

    [SysErrPanic] stands for a Go run-time panic that is not an
    [rt.Abortf] (a failed [Assert]); [SysErrForbidden] is a code of the
    runtime, not of the actors. *)
Inductive ExitCode :=
| Ok
| ErrIllegalArgument
| ErrNotFound
| ErrForbidden
| ErrInsufficientFunds
| ErrIllegalState
| ErrSerialization
| SysErrForbidden
| SysErrPanic.

Global Instance ExitCode_eq_dec : EqDecision ExitCode.
Proof. solve_decision. Defined.

Definition IsSuccess (c : ExitCode) : bool :=
  match c with Ok => true | _ => false end.

(** ** Go errors

    A Go [error] value is opaque.  [exitcode.Unwrap] and
    [builtin.RequireNoErr] are not part of the miner package: the exit code
    they produce from an error and a default code is an interface. *)
Class Errors := {
  GoError : Type;
  (** [exitcode.Unwrap(err, defaultCode)]. *)
  exitcode_Unwrap : GoError -> ExitCode -> ExitCode;
  (** The code [builtin.RequireNoErr(rt, err, defaultCode, ...)] aborts
      with when [err] is not nil. *)
  RequireNoErr_code : GoError -> ExitCode -> ExitCode
}.

(** The result [(value, err)] of a fallible call. *)
Inductive Err `{Errors} (A : Type) :=
| Success (a : A)
| Failure (e : GoError).
Arguments Success {_ _} a.
Arguments Failure {_ _} e.

(** ** Plain data *)

Definition Address := N.
Definition SectorNumber := Z.
Definition DealID := Z.
Definition SectorSize := Z.
Definition RegisteredSealProof := Z.
Definition RegisteredPoStProof := Z.
Definition Randomness := list Byte.byte.

(** [go-bitfield]: a set of unsigned integers. *)
Abbreviation BitField := (gset N).

(** [bytes.Equal]. *)
Fixpoint bytes_Equal (a b : list Byte.byte) : bool :=
  match a, b with
  | [], [] => true
  | x :: a', y :: b' => Byte.eqb x y && bytes_Equal a' b'
  | _, _ => false
  end.

Inductive CronEventType :=
| CronEventWorkerKeyChange
| CronEventProvingDeadline
| CronEventProcessEarlyTerminations.

Record CronEventPayload := { EventType : CronEventType }.

Inductive DomainSeparationTag :=
| DomainSeparationTag_PoStChainCommit
| DomainSeparationTag_WindowedPoStChallengeSeed
| DomainSeparationTag_SealRandomness
| DomainSeparationTag_InteractiveSealChallengeSeed.

(** Modelled from the spec: [PowerPair], the Raw+QA pairs of power
    accounting, with componentwise sum and difference. *)
Record PowerPair := { Raw : Z; QA : Z }.

Definition NewPowerPairZero : PowerPair := {| Raw := 0; QA := 0 |}.
Definition PowerPair_Add (a b : PowerPair) : PowerPair :=
  {| Raw := big.Add (Raw a) (Raw b); QA := big.Add (QA a) (QA b) |}.
Definition PowerPair_Sub (a b : PowerPair) : PowerPair :=
  {| Raw := big.Sub (Raw a) (Raw b); QA := big.Sub (QA a) (QA b) |}.
Definition PowerPair_IsZero (a : PowerPair) : bool :=
  big.IsZero (Raw a) && big.IsZero (QA a).

Record PoStPartition := {
  Index : Z;
  Skipped : BitField
}.

Record PoStProof := {
  PoStProof_type : RegisteredPoStProof;
  ProofBytes : list Byte.byte
}.

Record SubmitWindowedPoStParams := {
  Deadline : Z;
  Partitions : list PoStPartition;
  Proofs : list PoStProof;
  ChainCommitRand : Randomness
}.

Record TerminationDeclaration := {
  td_Deadline : Z;
  td_Partition : Z;
  td_Sectors : BitField
}.

Record TerminateSectorsParams := { Terminations : list TerminationDeclaration }.
Record TerminateSectorsReturn := { Done : bool }.
Record WithdrawBalanceParams := { AmountRequested : Z }.

(** Modelled from the spec: the result of [record_proven_sectors],
    [{sectors, ignored_sectors, power_delta, new_fault_power,
    retracted_recovery_power, recovered_power}]. *)
Record PoStResult := {
  PowerDelta : PowerPair;
  NewFaultyPower : PowerPair;
  RetractedRecoveryPower : PowerPair;
  RecoveredPower : PowerPair;
  pr_Sectors : BitField;
  IgnoredSectors : BitField
}.

(** Modelled from the spec: [PenaltyPower], the power the immediate
    undeclared-fault fee is charged on,
    [new_fault_power + retracted_recovery_power]. *)
Definition PenaltyPower (p : PoStResult) : PowerPair :=
  PowerPair_Add (NewFaultyPower p) (RetractedRecoveryPower p).

(** The fields of the result of [st.AdvanceDeadline] the cron reads. *)
Record AdvanceDeadlineResult := {
  adr_PledgeDelta : Z;
  adr_PowerDelta : PowerPair;
  DetectedFaultyPower : PowerPair;
  TotalFaultyPower : PowerPair
}.

Record VerifyDealsForActivationReturn := {
  vd_DealWeight : Z;
  vd_VerifiedDealWeight : Z
}.

(** Modelled from the spec: a deadline [d] has
    [open = period_start + d * window], [close = open + window],
    [challenge = open - challenge_lookback] and
    [fault_cutoff = open - fault_declaration_cutoff]. *)
Record DeadlineInfo := {
  di_CurrentEpoch : Z;
  PeriodStart : Z;
  di_Index : Z;
  Open : Z;
  Close : Z;
  Challenge : Z;
  FaultCutoff : Z
}.

(** The deadline is open from [open] up to, not including, [close]. *)
Definition IsOpen (d : DeadlineInfo) : bool :=
  (Open d <=? di_CurrentEpoch d) && (di_CurrentEpoch d <? Close d).

(** The cron of a deadline runs at [close - 1]. *)
Definition Last (d : DeadlineInfo) : Z := Close d - 1.

(** ** Proving policy (build tag [testground]) *)

Definition WPoStProvingPeriod : Z := 240.
Definition WPoStChallengeWindow : Z := 5.
Definition WPoStPeriodDeadlines : Z := WPoStProvingPeriod / WPoStChallengeWindow.
Definition FaultMaxAge : Z := WPoStProvingPeriod * 3 - 1.
Definition PreCommitChallengeDelay : Z := 10.

(** [cbg.MaxLength] of [cbor-gen]. *)
Definition cbg_MaxLength : Z := 8192.

(** ** Sector records

    Modelled from the spec (sector record, pre-commit record, miner info)
    with the field names the handlers use. *)

(** [cid.Cid] of [go-cid]; only definedness and the prefix are inspected. *)
Record Cid := {
  cid_Defined : bool;
  cid_Prefix : Z;
  cid_Hash : list Byte.byte
}.

Record SectorOnChainInfo := {
  so_SectorNumber : SectorNumber;
  so_SealProof : RegisteredSealProof;
  so_SealedCID : Cid;
  so_DealIDs : list DealID;
  Activation : Z;
  so_Expiration : Z;
  so_DealWeight : Z;
  so_VerifiedDealWeight : Z;
  InitialPledge : Z;
  ExpectedDayReward : Z;
  ExpectedStoragePledge : Z;
  ReplacedSectorAge : Z;
  ReplacedDayReward : Z
}.

Record SectorPreCommitInfo := {
  SealProof : RegisteredSealProof;
  SectorNumber_of : SectorNumber;
  SealedCID : Cid;
  SealRandEpoch : Z;
  DealIDs : list DealID;
  Expiration : Z;
  ReplaceCapacity : bool;
  ReplaceSectorDeadline : Z;
  ReplaceSectorPartition : Z;
  ReplaceSectorNumber : SectorNumber
}.

Record SectorPreCommitOnChainInfo := {
  pc_Info : SectorPreCommitInfo;
  PreCommitDeposit : Z;
  PreCommitEpoch : Z;
  pc_DealWeight : Z;
  pc_VerifiedDealWeight : Z
}.

Record MinerInfo := {
  Owner : Address;
  Worker : Address;
  ControlAddresses : list Address;
  SealProofType : RegisteredSealProof;
  mi_SectorSize : SectorSize;
  WindowPoStPartitionSectors : Z;
  ConsensusFaultElapsed : Z
}.

Record SectorInfo := {
  si_SealProof : RegisteredSealProof;
  si_SectorNumber : SectorNumber;
  si_SealedCID : Cid
}.

Record WindowPoStVerifyInfo := {
  pv_Randomness : Randomness;
  pv_Proofs : list PoStProof;
  ChallengedSectors : list SectorInfo;
  Prover : Z
}.

(** ** Policy ([policy.go], [actors/abi])

    Limits and tables the handlers consult.  The default policy file is not
    among the sources at hand; these are an interface. *)
Class Policy `{Errors} := {
  SupportedProofTypes : RegisteredSealProof -> bool;
  MaxSectorNumber : Z;
  SealedCIDPrefix : Z;
  MaxPreCommitRandomnessLookback : Z;
  (** The table [MaxProveCommitDuration]; a missing key reads as zero. *)
  MaxProveCommitDuration : RegisteredSealProof -> option Z;
  MinSectorExpiration : Z;
  MaxSectorExpirationExtension : Z;
  SectorMaximumLifetime : RegisteredSealProof -> Z;
  WPoStChallengeLookback : Z;
  FaultDeclarationCutoff : Z;
  AddressedPartitionsMax : Z;
  AddressedSectorsMax : Z;
  loadPartitionsSectorsMax : Z -> Z;
  SectorDealsMax : SectorSize -> Z;
  RegisteredWindowPoStProof : RegisteredSealProof -> Err RegisteredPoStProof;
  QAPowerForWeight : SectorSize -> Z -> Z -> Z -> Z;
  QAPowerForSector : SectorSize -> SectorOnChainInfo -> Z;
  ConsensusFaultActive : MinerInfo -> Z -> bool
}.

(** Modelled from the spec: the deadline [index] of the proving period
    starting at [periodStart], seen from [currEpoch]. *)
Definition NewDeadlineInfo `{Policy} (periodStart : Z) (index : Z)
    (currEpoch : Z) : DeadlineInfo :=
  let open := periodStart + index * WPoStChallengeWindow in
  {| di_CurrentEpoch := currEpoch;
     PeriodStart := periodStart;
     di_Index := index;
     Open := open;
     Close := open + WPoStChallengeWindow;
     Challenge := open - WPoStChallengeLookback;
     FaultCutoff := open - FaultDeclarationCutoff |}.

(** ** Miner state ([miner_state.go], [deadline_state.go], [sectors.go])

    The nested structures of the state are opaque to the handlers; the
    content-addressed store is folded into their values. *)
Class Structures := {
  InfoT : Type;
  VestingFundsT : Type;
  PreCommitMapT : Type;
  ExpiryQueueT : Type;
  AllocatedSectorsT : Type;
  SectorsRootT : Type;
  DeadlinesRootT : Type;
  (** The loaded [Sectors] array, [Deadlines] and one [Deadline]. *)
  SectorsT : Type;
  DeadlinesT : Type;
  DeadlineT : Type;
  QuantSpec : Type;
  PartitionSectorMap : Type;
  DeadlineSectorMap : Type;
  TerminationResult : Type
}.

(** Modelled from the spec: the top-level miner state. *)
Record State `{Structures} := {
  st_Info : InfoT;
  PreCommitDeposits : Z;
  LockedFunds : Z;
  VestingFunds : VestingFundsT;
  FeeDebt : Z;
  InitialPledgeRequirement : Z;
  PreCommittedSectors : PreCommitMapT;
  PreCommittedSectorsExpiry : ExpiryQueueT;
  AllocatedSectors : AllocatedSectorsT;
  Sectors : SectorsRootT;
  ProvingPeriodStart : Z;
  CurrentDeadline : Z;
  Deadlines : DeadlinesRootT;
  EarlyTerminations : BitField
}.

(** [st.EarlyTerminations.Set(dlIdx)]. *)
Definition EarlyTerminations_Set `{Structures} (st : State) (dlIdx : Z) : State :=
  {| st_Info := st_Info st;
     PreCommitDeposits := PreCommitDeposits st;
     LockedFunds := LockedFunds st;
     VestingFunds := VestingFunds st;
     FeeDebt := FeeDebt st;
     InitialPledgeRequirement := InitialPledgeRequirement st;
     PreCommittedSectors := PreCommittedSectors st;
     PreCommittedSectorsExpiry := PreCommittedSectorsExpiry st;
     AllocatedSectors := AllocatedSectors st;
     Sectors := Sectors st;
     ProvingPeriodStart := ProvingPeriodStart st;
     CurrentDeadline := CurrentDeadline st;
     Deadlines := Deadlines st;
     EarlyTerminations := {[ Z.to_N dlIdx ]} ∪ EarlyTerminations st |}.

(** The methods of the state and of its nested structures. *)
Class StateOps `{Errors} `{Structures} := {
  GetInfo : State -> Err MinerInfo;
  QuantSpecForDeadline : State -> Z -> QuantSpec;
  di_QuantSpec : DeadlineInfo -> QuantSpec;
  (* balances *)
  GetUnlockedBalance : State -> Z -> Z;
  GetAvailableBalance : State -> Z -> Z;
  UnlockVestedFunds : State -> Z -> Err (State * Z);
  RepayDebt : State -> Z -> Err (State * Z);
  MeetsInitialPledgeCondition : State -> Z -> bool;
  PenalizeFundsInPriorityOrder : State -> Z -> Z -> Z -> Err (State * (Z * Z));
  AddPreCommitDeposit : State -> Z -> State;
  AddInitialPledgeRequirement : State -> Z -> State;
  AssertBalanceInvariants : State -> Z -> bool;
  (* pre-commitments and sectors *)
  AllocateSectorNumber : State -> SectorNumber -> Err State;
  GetPrecommittedSector :
    State -> SectorNumber -> Err (option SectorPreCommitOnChainInfo);
  HasSectorNo : State -> SectorNumber -> Err bool;
  GetSector : State -> SectorNumber -> Err (option SectorOnChainInfo);
  CheckSectorHealth : State -> Z -> Z -> SectorNumber -> Err unit;
  PutPrecommittedSector : State -> SectorPreCommitOnChainInfo -> Err State;
  AddPreCommitExpiry : State -> Z -> SectorNumber -> Err State;
  ExpirePreCommits : State -> Z -> Err (State * Z);
  LoadSectors : SectorsRootT -> Err SectorsT;
  Sectors_LoadForProof :
    SectorsT -> BitField -> BitField -> Err (list SectorOnChainInfo);
  Sectors_LoadInfos : SectorsT -> BitField -> Err (list SectorOnChainInfo);
  (* deadlines *)
  LoadDeadlines : State -> Err DeadlinesT;
  SaveDeadlines : State -> DeadlinesT -> Err State;
  LoadDeadline : DeadlinesT -> Z -> Err DeadlineT;
  UpdateDeadline : DeadlinesT -> Z -> DeadlineT -> Err DeadlinesT;
  RecordProvenSectors :
    DeadlineT -> SectorsT -> SectorSize -> QuantSpec -> Z ->
    list PoStPartition -> Err (DeadlineT * PoStResult);
  Deadline_TerminateSectors :
    DeadlineT -> SectorsT -> Z -> PartitionSectorMap -> SectorSize ->
    QuantSpec -> Err (DeadlineT * PowerPair);
  AdvanceDeadline : State -> Z -> Err (State * AdvanceDeadlineResult);
  (* early terminations *)
  PopEarlyTerminations :
    State -> Z -> Z -> Err (State * (TerminationResult * bool));
  TerminationResult_IsEmpty : TerminationResult -> bool;
  (** The pairs [result.ForEach] visits, in its order. *)
  TerminationResult_entries : TerminationResult -> list (Z * BitField);
  (* the map of a termination request *)
  DeadlineSectorMap_empty : DeadlineSectorMap;
  DeadlineSectorMap_Add :
    DeadlineSectorMap -> Z -> Z -> BitField -> Err DeadlineSectorMap;
  DeadlineSectorMap_Check : DeadlineSectorMap -> Z -> Z -> Err unit;
  (** The pairs [toProcess.ForEach] visits, in its order. *)
  DeadlineSectorMap_entries :
    DeadlineSectorMap -> list (Z * PartitionSectorMap)
}.

(** ** Runtime ([actors/runtime]) *)

(** The messages a handler sends with [rt.Send]. *)
Inductive Message :=
| MethodSend (to : Address) (value : Z)
| Reward_ThisEpochReward
| Power_CurrentTotalPower
| Power_UpdateClaimedPower (RawByteDelta QualityAdjustedDelta : Z)
| Power_UpdatePledgeTotal (pledgeDelta : Z)
| Power_EnrollCronEvent (EventEpoch : Z) (payload : CronEventPayload)
| Market_VerifyDealsForActivation (deals : list DealID)
    (SectorStart SectorExpiry : Z)
| Market_OnMinerSectorsTerminate (epoch : Z) (deals : list DealID).

(** The value a message carries. *)
Definition Message_value (m : Message) : Z :=
  match m with
  | MethodSend _ value => value
  | _ => 0
  end.

(** The enrollment of the early-termination cron event. *)
Definition is_EarlyTerminationEnrollment (m : Message) : bool :=
  match m with
  | Power_EnrollCronEvent _
      {| EventType := CronEventProcessEarlyTerminations |} => true
  | _ => false
  end.

(** The early-termination enrollments among the messages sent. *)
Definition enrollments (ms : list Message) : list Message :=
  List.filter is_EarlyTerminationEnrollment ms.

Section Actor.

Context {SM : Smoothing} {NW : Network} {ER : Errors} {PO : Policy}
        {SR : Structures} {SO : StateOps}.

Record ThisEpochRewardReturn := {
  ThisEpochBaselinePower : Z;
  ThisEpochRewardSmoothed : FilterEstimate
}.

Record CurrentTotalPowerReturn := {
  RawBytePower : Z;
  QualityAdjPower : Z;
  PledgeCollateral : Z;
  QualityAdjPowerSmoothed : FilterEstimate
}.

(** What the virtual machine and the other actors answer during one
    message.  Return values arrive typed. *)
Record Runtime := {
  CurrEpoch : Z;
  Caller : Address;
  (** The exit code with which [rt.ValidateImmediateCallerIs] refuses a
      caller; the runtime is not part of these sources. *)
  CallerRefused : ExitCode;
  Receiver : Address;
  (** [addr.IDFromAddress(rt.Message().Receiver())]. *)
  ReceiverID : option Z;
  (** [receiver.MarshalCBOR]. *)
  ReceiverCBOR : list Byte.byte;
  GetRandomnessFromTickets :
    DomainSeparationTag -> Z -> list Byte.byte -> Randomness;
  GetRandomnessFromBeacon :
    DomainSeparationTag -> Z -> list Byte.byte -> Randomness;
  (** [rt.Syscalls().VerifyPoSt(pvInfo) == nil]. *)
  VerifyPoSt : WindowPoStVerifyInfo -> bool;
  (** The exit code of a message sent to another actor. *)
  SendExit : Message -> ExitCode;
  RewardReturn : ThisEpochRewardReturn;
  PowerReturn : CurrentTotalPowerReturn;
  DealWeightReturn :
    list DealID -> Z -> Z -> VerifyDealsForActivationReturn
}.

(** *** The transaction monad *)

Inductive TxRes (A : Type) :=
| TxOk (a : A) (st : State)
| TxAbort (c : ExitCode).
Arguments TxOk {A} a st.
Arguments TxAbort {A} c.

Definition Tx (A : Type) : Type := State -> TxRes A.

Definition tx_ret {A} (a : A) : Tx A := fun st => TxOk a st.

Definition tx_bind {A B} (m : Tx A) (k : A -> Tx B) : Tx B :=
  fun st =>
    match m st with
    | TxOk a st' => k a st'
    | TxAbort c => TxAbort c
    end.

(** [rt.Abortf(code, ...)]. *)
Definition tx_Abortf {A} (c : ExitCode) : Tx A := fun _ => TxAbort c.

Definition tx_get : Tx State := fun st => TxOk st st.
Definition tx_put (st : State) : Tx unit := fun _ => TxOk tt st.

(** [if cond { rt.Abortf(code, ...) }]. *)
Definition tx_abort_if (cond : bool) (c : ExitCode) : Tx unit :=
  if cond then tx_Abortf c else tx_ret tt.

(** [builtin.RequireNoErr(rt, err, defaultExitCode, ...)]. *)
Definition tx_RequireNoErr {A} (r : Err A) (defaultExitCode : ExitCode)
    : Tx A :=
  match r with
  | Success a => tx_ret a
  | Failure e => tx_Abortf (RequireNoErr_code e defaultExitCode)
  end.

(** A state method that updates the state in place and returns a value,
    followed by [RequireNoErr]. *)
Definition tx_method {A} (f : State -> Err (State * A))
    (defaultExitCode : ExitCode) : Tx A :=
  fun st =>
    match f st with
    | Success (st', a) => TxOk a st'
    | Failure e => TxAbort (RequireNoErr_code e defaultExitCode)
    end.

(** A state method that updates the state in place, followed by
    [RequireNoErr]. *)
Definition tx_update (f : State -> Err State) (defaultExitCode : ExitCode)
    : Tx unit :=
  tx_method (fun st => match f st with
                       | Success st' => Success (st', tt)
                       | Failure e => Failure e
                       end) defaultExitCode.

(** A state method that only reads, followed by [RequireNoErr]. *)
Definition tx_read {A} (f : State -> Err A) (defaultExitCode : ExitCode)
    : Tx A :=
  fun st => tx_RequireNoErr (f st) defaultExitCode st.

(** *** The handler monad *)

Record RtState := {
  persisted : State;
  balance : Z;
  sent : list Message
}.

Inductive RtRes (A : Type) :=
| Returned (a : A) (s : RtState)
| Aborted (c : ExitCode) (s : RtState).
Arguments Returned {A} a s.
Arguments Aborted {A} c s.

Definition Rt (A : Type) : Type := RtState -> RtRes A.

Definition rt_ret {A} (a : A) : Rt A := fun s => Returned a s.

Definition rt_bind {A B} (m : Rt A) (k : A -> Rt B) : Rt B :=
  fun s =>
    match m s with
    | Returned a s' => k a s'
    | Aborted c s' => Aborted c s'
    end.

Definition rt_Abortf {A} (c : ExitCode) : Rt A := fun s => Aborted c s.

Definition rt_abort_if (cond : bool) (c : ExitCode) : Rt unit :=
  if cond then rt_Abortf c else rt_ret tt.

(** [Assert(cond)]. *)
Definition rt_Assert (cond : bool) : Rt unit :=
  if cond then rt_ret tt else rt_Abortf SysErrPanic.

(** [rt.CurrentBalance()]. *)
Definition CurrentBalance : Rt Z := fun s => Returned (balance s) s.

(** The local copy [st] a handler keeps after its transaction. *)
Definition rt_state : Rt State := fun s => Returned (persisted s) s.

(** [rt.State().Transaction(&st, f)]: the closure works on a copy of the
    state, which is written back when the closure returns; an abort
    inside the closure leaves the persisted state as it was. *)
Definition Transaction {A} (f : Tx A) : Rt A :=
  fun s =>
    match f (persisted s) with
    | TxOk a st' =>
        Returned a {| persisted := st'; balance := balance s;
                      sent := sent s |}
    | TxAbort c => Aborted c s
    end.

(** [rt.Send(...)]: the message is recorded; its value leaves the
    balance when the receiver accepts it. *)
Definition Send (rt : Runtime) (m : Message) : Rt ExitCode :=
  fun s =>
    let code := SendExit rt m in
    Returned code
      {| persisted := persisted s;
         balance := if IsSuccess code then balance s - Message_value m
                    else balance s;
         sent := sent s ++ [m] |}.

(** The handler state after more messages that carry no value. *)
Definition sent_more (s : RtState) (ms : list Message) : RtState :=
  {| persisted := persisted s; balance := balance s; sent := sent s ++ ms |}.

(** [builtin.RequireSuccess(rt, code, ...)]. *)
Definition RequireSuccess (code : ExitCode) : Rt unit :=
  if IsSuccess code then rt_ret tt else rt_Abortf code.

Declare Scope tx_scope.
Declare Scope rt_scope.
Delimit Scope tx_scope with tx.
Delimit Scope rt_scope with rt.

Notation "x <- m ;; k" := (tx_bind m (fun x => k))
  (at level 20, m at level 99, k at level 200, only parsing) : tx_scope.
Notation "' pat <- m ;; k" :=
  (tx_bind m (fun x => match x with pat => k end))
  (at level 20, pat pattern, m at level 99, k at level 200, only parsing)
  : tx_scope.
Notation "m ;; k" := (tx_bind m (fun _ => k))
  (at level 100, k at level 200, only parsing, right associativity)
  : tx_scope.

Notation "x <- m ;; k" := (rt_bind m (fun x => k))
  (at level 20, m at level 99, k at level 200, only parsing) : rt_scope.
Notation "' pat <- m ;; k" :=
  (rt_bind m (fun x => match x with pat => k end))
  (at level 20, pat pattern, m at level 99, k at level 200, only parsing)
  : rt_scope.
Notation "m ;; k" := (rt_bind m (fun _ => k))
  (at level 100, k at level 200, only parsing, right associativity)
  : rt_scope.

(** *** Utility functions and helpers ([miner_actor.go]) *)

(** Modelled from the spec: a caller that is not among the authorized
    addresses is refused, with the exit code of the runtime. *)
Definition ValidateImmediateCallerIs (rt : Runtime) (addrs : list Address)
    : Tx unit :=
  tx_abort_if (negb (existsb (N.eqb (Caller rt)) addrs)) (CallerRefused rt).

Definition getMinerInfo : Tx MinerInfo :=
  tx_read GetInfo ErrIllegalState.

(** [st.DeadlineInfo(currEpoch)]. *)
Definition State_DeadlineInfo (st : State) (currEpoch : Z) : DeadlineInfo :=
  NewDeadlineInfo (ProvingPeriodStart st) (CurrentDeadline st) currEpoch.

Definition enrollCronEvent (rt : Runtime) (eventEpoch : Z)
    (callbackPayload : CronEventPayload) : Rt unit :=
  (code <- Send rt (Power_EnrollCronEvent eventEpoch callbackPayload) ;;
   RequireSuccess code)%rt.

Definition requestUpdatePower (rt : Runtime) (delta : PowerPair) : Rt unit :=
  if PowerPair_IsZero delta then rt_ret tt
  else
    (code <- Send rt (Power_UpdateClaimedPower (Raw delta) (QA delta)) ;;
     RequireSuccess code)%rt.

Definition min64 (a b : Z) : Z := if a <? b then a else b.

(** The loop of [requestTerminateDeals]; every round sends at least one
    deal, so [length dealIDs] rounds are enough. *)
Fixpoint requestTerminateDeals_loop (rounds : nat) (rt : Runtime)
    (epoch : Z) (dealIDs : list DealID) : Rt unit :=
  match rounds with
  | O => rt_ret tt
  | S rounds' =>
      if (0 <? Z.of_nat (length dealIDs)) then
        let size := min64 cbg_MaxLength (Z.of_nat (length dealIDs)) in
        (code <- Send rt (Market_OnMinerSectorsTerminate epoch
                            (firstn (Z.to_nat size) dealIDs)) ;;
         RequireSuccess code ;;
         requestTerminateDeals_loop rounds' rt epoch
           (skipn (Z.to_nat size) dealIDs))%rt
      else rt_ret tt
  end.

Definition requestTerminateDeals (rt : Runtime) (epoch : Z)
    (dealIDs : list DealID) : Rt unit :=
  requestTerminateDeals_loop (length dealIDs) rt epoch dealIDs.

Definition scheduleEarlyTerminationWork (rt : Runtime) : Rt unit :=
  enrollCronEvent rt (wrap64 (CurrEpoch rt + 1))
    {| EventType := CronEventProcessEarlyTerminations |}.

(** [bitfield.IsEmpty] and [bitfield.Count] of a well-formed bit field. *)
Definition BitField_IsEmpty (b : BitField) : bool := bool_decide (b = ∅).
Definition BitField_Count (b : BitField) : Z := Z.of_nat (size b).

Definition havePendingEarlyTerminations (st : State) : bool :=
  let noEarlyTerminations := BitField_IsEmpty (EarlyTerminations st) in
  negb noEarlyTerminations.

Definition requestCurrentEpochBlockReward (rt : Runtime)
    : Rt ThisEpochRewardReturn :=
  (code <- Send rt Reward_ThisEpochReward ;;
   RequireSuccess code ;;
   rt_ret (RewardReturn rt))%rt.

Definition requestCurrentTotalPower (rt : Runtime)
    : Rt CurrentTotalPowerReturn :=
  (code <- Send rt Power_CurrentTotalPower ;;
   RequireSuccess code ;;
   rt_ret (PowerReturn rt))%rt.

Definition requestDealWeight (rt : Runtime) (dealIDs : list DealID)
    (sectorStart sectorExpiry : Z) : Rt VerifyDealsForActivationReturn :=
  (code <- Send rt (Market_VerifyDealsForActivation dealIDs
                      sectorStart sectorExpiry) ;;
   RequireSuccess code ;;
   rt_ret (DealWeightReturn rt dealIDs sectorStart sectorExpiry))%rt.

Definition burnFunds (rt : Runtime) (amt : Z) : Rt unit :=
  if big.GreaterThan amt big.Zero then
    (code <- Send rt (MethodSend BurntFundsActorAddr amt) ;;
     RequireSuccess code)%rt
  else rt_ret tt.

Definition notifyPledgeChanged (rt : Runtime) (pledgeDelta : Z) : Rt unit :=
  if negb (big.IsZero pledgeDelta) then
    (code <- Send rt (Power_UpdatePledgeTotal pledgeDelta) ;;
     RequireSuccess code)%rt
  else rt_ret tt.

Definition terminationPenalty (sectorSize : SectorSize) (currEpoch : Z)
    (rewardEstimate networkQAPowerEstimate : FilterEstimate)
    (sectors : list SectorOnChainInfo) : Z :=
  fold_left
    (fun totalFee s =>
       let sectorPower := QAPowerForSector sectorSize s in
       let fee :=
         PledgePenaltyForTermination (ExpectedDayReward s)
           (wrap64 (currEpoch - Activation s)) (ExpectedStoragePledge s)
           networkQAPowerEstimate sectorPower rewardEstimate
           (ReplacedDayReward s) (ReplacedSectorAge s) in
       big.Add fee totalFee)
    sectors big.Zero.

(** [VerifyPledgeRequirementsAndRepayDebts] of [monies.go]. *)
Definition VerifyPledgeRequirementsAndRepayDebts (currBalance : Z) : Tx Z :=
  fun st =>
    match RepayDebt st currBalance with
    | Failure e =>
        TxAbort (RequireNoErr_code e (exitcode_Unwrap e ErrIllegalState))
    | Success (st', toBurn) =>
        let currBalance := big.Sub currBalance toBurn in
        if negb (MeetsInitialPledgeCondition st' currBalance) then
          TxAbort ErrInsufficientFunds
        else TxOk toBurn st'
    end.

Definition verifyWindowedPost (rt : Runtime) (challengeEpoch : Z)
    (sectors : list SectorOnChainInfo) (proofs : list PoStProof) : Tx unit :=
  match ReceiverID rt with
  | None => tx_Abortf SysErrPanic
  | Some minerActorID =>
      let postRandomness :=
        GetRandomnessFromBeacon rt
          DomainSeparationTag_WindowedPoStChallengeSeed challengeEpoch
          (ReceiverCBOR rt) in
      let sectorProofInfo :=
        map (fun s => {| si_SealProof := so_SealProof s;
                         si_SectorNumber := so_SectorNumber s;
                         si_SealedCID := so_SealedCID s |}) sectors in
      let pvInfo :=
        {| pv_Randomness := postRandomness;
           pv_Proofs := proofs;
           ChallengedSectors := sectorProofInfo;
           Prover := minerActorID |} in
      tx_abort_if (negb (VerifyPoSt rt pvInfo)) ErrIllegalArgument
  end.

(** *** SubmitWindowedPoSt

    The closure of the transaction is written in four parts, in the order
    of the source. *)

(** Validation of the caller and of the parameters. *)
Definition SubmitWindowedPoSt_validate (rt : Runtime)
    (params : SubmitWindowedPoStParams) : Tx (MinerInfo * DeadlineInfo) :=
  (info <- getMinerInfo ;;
   ValidateImmediateCallerIs rt
     (ControlAddresses info ++ [Owner info; Worker info]) ;;
   windowPoStProofType <-
     tx_RequireNoErr (RegisteredWindowPoStProof (SealProofType info))
       ErrIllegalState ;;
   match Proofs params with
   | [] => tx_ret tt
   | [proof] =>
       tx_abort_if
         (negb (PoStProof_type proof =? windowPoStProofType))
         ErrIllegalArgument
   | _ :: _ :: _ => tx_Abortf ErrIllegalArgument
   end ;;
   let submissionPartitionLimit :=
     loadPartitionsSectorsMax (WindowPoStPartitionSectors info) in
   tx_abort_if
     (Z.of_nat (length (Partitions params)) >? submissionPartitionLimit)
     ErrIllegalArgument ;;
   st <- tx_get ;;
   let currDeadline := State_DeadlineInfo st (CurrEpoch rt) in
   tx_abort_if (negb (IsOpen currDeadline)) ErrIllegalState ;;
   tx_abort_if (negb (Deadline params =? di_Index currDeadline))
     ErrIllegalArgument ;;
   let commRand :=
     GetRandomnessFromTickets rt DomainSeparationTag_PoStChainCommit
       (Challenge currDeadline) [] in
   tx_abort_if (negb (bytes_Equal commRand (ChainCommitRand params)))
     ErrIllegalArgument ;;
   tx_ret (info, currDeadline))%tx.

(** The parameters that the validation refuses as an illegal argument:
    more than one proof, a proof of another type than the miner's window
    PoSt proof type, more partitions than the submission limit and, when
    the current deadline is open, another deadline than the current one
    or another chain-commit randomness than the one drawn at the
    challenge epoch. *)
Definition validation_failure (rt : Runtime)
    (params : SubmitWindowedPoStParams) (info : MinerInfo)
    (windowPoStProofType : RegisteredPoStProof) (st : State) : Prop :=
  let currDeadline := State_DeadlineInfo st (CurrEpoch rt) in
  (1 < length (Proofs params))%nat
  \/ (exists proof, Proofs params = [proof]
                    /\ PoStProof_type proof <> windowPoStProofType)
  \/ loadPartitionsSectorsMax (WindowPoStPartitionSectors info)
     < Z.of_nat (length (Partitions params))
  \/ (IsOpen currDeadline = true
      /\ (Deadline params <> di_Index currDeadline
          \/ GetRandomnessFromTickets rt DomainSeparationTag_PoStChainCommit
               (Challenge currDeadline) [] <> ChainCommitRand params)).

(** Recording of the proven partitions and loading of the sectors to
    verify. *)
Definition SubmitWindowedPoSt_record (params : SubmitWindowedPoStParams)
    (info : MinerInfo) (currDeadline : DeadlineInfo)
    : Tx (DeadlinesT * DeadlineT * PoStResult * list SectorOnChainInfo) :=
  (sectors <- tx_read (fun st => LoadSectors (Sectors st)) ErrIllegalState ;;
   deadlines <- tx_read LoadDeadlines ErrIllegalState ;;
   deadline <-
     tx_RequireNoErr (LoadDeadline deadlines (Deadline params))
       ErrIllegalState ;;
   let faultExpiration := wrap64 (Last currDeadline + FaultMaxAge) in
   '(deadline, postResult) <-
     tx_RequireNoErr
       (RecordProvenSectors deadline sectors (mi_SectorSize info)
          (di_QuantSpec currDeadline) faultExpiration (Partitions params))
       ErrIllegalState ;;
   sectorInfos <-
     tx_RequireNoErr
       (Sectors_LoadForProof sectors (pr_Sectors postResult)
          (IgnoredSectors postResult))
       ErrIllegalState ;;
   tx_ret (deadlines, deadline, postResult, sectorInfos))%tx.

(** Verification of the proof; skipped when no sector is to be proven. *)
Definition SubmitWindowedPoSt_verify (rt : Runtime)
    (params : SubmitWindowedPoStParams) (currDeadline : DeadlineInfo)
    (sectorInfos : list SectorOnChainInfo) : Tx unit :=
  if (Z.of_nat (length sectorInfos) >? 0) then
    (tx_abort_if (Z.of_nat (length (Proofs params)) =? 0)
       ErrIllegalArgument ;;
     verifyWindowedPost rt (Challenge currDeadline) sectorInfos
       (Proofs params))%tx
  else tx_ret tt.

(** Penalties, and saving of the deadline.  Returns [penaltyTotal] and
    [pledgeDelta]. *)
Definition SubmitWindowedPoSt_penalize (rt : Runtime)
    (params : SubmitWindowedPoStParams)
    (rewardStats : ThisEpochRewardReturn)
    (pwrTotal : CurrentTotalPowerReturn) (currentBalance : Z)
    (deadlines : DeadlinesT) (deadline : DeadlineT)
    (postResult : PoStResult) : Tx (Z * Z) :=
  (let undeclaredPenaltyPower := PenaltyPower postResult in
   let undeclaredPenaltyTarget :=
     PledgePenaltyForUndeclaredFault (ThisEpochRewardSmoothed rewardStats)
       (QualityAdjPowerSmoothed pwrTotal) (QA undeclaredPenaltyPower) in
   let undeclaredPenaltyTarget :=
     big.Sub undeclaredPenaltyTarget
       (PledgePenaltyForDeclaredFault (ThisEpochRewardSmoothed rewardStats)
          (QualityAdjPowerSmoothed pwrTotal) (QA undeclaredPenaltyPower)) in
   let declaredPenaltyTarget :=
     PledgePenaltyForDeclaredFault (ThisEpochRewardSmoothed rewardStats)
       (QualityAdjPowerSmoothed pwrTotal) (QA (RecoveredPower postResult)) in
   let totalPenaltyTarget :=
     big.Add undeclaredPenaltyTarget declaredPenaltyTarget in
   st <- tx_get ;;
   let unlockedBalance := GetUnlockedBalance st currentBalance in
   '(vestingPenaltyTotal, balancePenaltyTotal) <-
     tx_method
       (fun st => PenalizeFundsInPriorityOrder st (CurrEpoch rt)
                    totalPenaltyTarget unlockedBalance)
       ErrIllegalState ;;
   let penaltyTotal := big.Add vestingPenaltyTotal balancePenaltyTotal in
   let pledgeDelta := big.Sub 0 vestingPenaltyTotal in
   deadlines <-
     tx_RequireNoErr (UpdateDeadline deadlines (Deadline params) deadline)
       ErrIllegalState ;;
   tx_update (fun st => SaveDeadlines st deadlines) ErrIllegalState ;;
   tx_ret (penaltyTotal, pledgeDelta))%tx.

(** The closure of the transaction.  Returns [postResult],
    [penaltyTotal] and [pledgeDelta]. *)
Definition SubmitWindowedPoSt_tx (rt : Runtime)
    (params : SubmitWindowedPoStParams)
    (rewardStats : ThisEpochRewardReturn)
    (pwrTotal : CurrentTotalPowerReturn) (currentBalance : Z)
    : Tx (PoStResult * (Z * Z)) :=
  ('(info, currDeadline) <- SubmitWindowedPoSt_validate rt params ;;
   '(deadlines, deadline, postResult, sectorInfos) <-
     SubmitWindowedPoSt_record params info currDeadline ;;
   SubmitWindowedPoSt_verify rt params currDeadline sectorInfos ;;
   penalties <-
     SubmitWindowedPoSt_penalize rt params rewardStats pwrTotal
       currentBalance deadlines deadline postResult ;;
   tx_ret (postResult, penalties))%tx.

Definition SubmitWindowedPoSt (rt : Runtime)
    (params : SubmitWindowedPoStParams) : Rt unit :=
  (rt_abort_if (Deadline params >=? WPoStPeriodDeadlines)
     ErrIllegalArgument ;;
   rewardStats <- requestCurrentEpochBlockReward rt ;;
   pwrTotal <- requestCurrentTotalPower rt ;;
   currentBalance <- CurrentBalance ;;
   '(postResult, (penaltyTotal, pledgeDelta)) <-
     Transaction
       (SubmitWindowedPoSt_tx rt params rewardStats pwrTotal
          currentBalance) ;;
   requestUpdatePower rt (PowerDelta postResult) ;;
   burnFunds rt penaltyTotal ;;
   notifyPledgeChanged rt pledgeDelta)%rt.

(** *** PreCommitSector *)

Definition validateExpiration (rt : Runtime) (activation expiration : Z)
    (sealProof : RegisteredSealProof) : Rt unit :=
  (rt_abort_if (expiration <=? activation) ErrIllegalArgument ;;
   rt_abort_if (wrap64 (expiration - activation) <? MinSectorExpiration)
     ErrIllegalArgument ;;
   rt_abort_if
     (expiration >? wrap64 (CurrEpoch rt + MaxSectorExpirationExtension))
     ErrIllegalArgument ;;
   rt_abort_if
     (wrap64 (expiration - activation) >? SectorMaximumLifetime sealProof)
     ErrIllegalArgument)%rt.

Definition validateReplaceSector (params : SectorPreCommitInfo)
    : Tx SectorOnChainInfo :=
  (found <-
     tx_read (fun st => GetSector st (ReplaceSectorNumber params))
       ErrIllegalState ;;
   match found with
   | None => tx_Abortf ErrNotFound
   | Some replaceSector =>
       tx_abort_if (Z.of_nat (length (so_DealIDs replaceSector)) >? 0)
         ErrIllegalArgument ;;
       tx_abort_if (negb (SealProof params =? so_SealProof replaceSector))
         ErrIllegalArgument ;;
       tx_abort_if (Expiration params <? so_Expiration replaceSector)
         ErrIllegalArgument ;;
       tx_read
         (fun st => CheckSectorHealth st (ReplaceSectorDeadline params)
                      (ReplaceSectorPartition params)
                      (ReplaceSectorNumber params))
         ErrIllegalState ;;
       tx_ret replaceSector
   end)%tx.

(** The checks on the parameters that precede the transaction. *)
Definition PreCommitSector_checks (rt : Runtime)
    (params : SectorPreCommitInfo) : Rt unit :=
  (rt_abort_if (negb (SupportedProofTypes (SealProof params)))
     ErrIllegalArgument ;;
   rt_abort_if (SectorNumber_of params >? MaxSectorNumber)
     ErrIllegalArgument ;;
   rt_abort_if (negb (cid_Defined (SealedCID params))) ErrIllegalArgument ;;
   rt_abort_if (negb (cid_Prefix (SealedCID params) =? SealedCIDPrefix))
     ErrIllegalArgument ;;
   rt_abort_if (SealRandEpoch params >=? CurrEpoch rt) ErrIllegalArgument ;;
   let challengeEarliest :=
     wrap64 (CurrEpoch rt - MaxPreCommitRandomnessLookback) in
   rt_abort_if (SealRandEpoch params <? challengeEarliest)
     ErrIllegalArgument ;;
   let maxActivation :=
     wrap64 (CurrEpoch rt
             + default 0 (MaxProveCommitDuration (SealProof params))) in
   validateExpiration rt maxActivation (Expiration params)
     (SealProof params) ;;
   rt_abort_if
     (ReplaceCapacity params
      && (Z.of_nat (length (DealIDs params)) =? 0))
     ErrIllegalArgument ;;
   rt_abort_if (ReplaceSectorDeadline params >=? WPoStPeriodDeadlines)
     ErrIllegalArgument ;;
   rt_abort_if (ReplaceSectorNumber params >? MaxSectorNumber)
     ErrIllegalArgument)%rt.

(** The closure, up to the check that the sector number is new.  Returns
    [newlyVested], [availableBalance], [feeToBurn] and the miner info. *)
Definition PreCommitSector_admit (rt : Runtime)
    (params : SectorPreCommitInfo) (currentBalance : Z)
    : Tx (Z * Z * Z * MinerInfo) :=
  (newlyVested <-
     tx_method (fun st => UnlockVestedFunds st (CurrEpoch rt))
       ErrIllegalState ;;
   st <- tx_get ;;
   let availableBalance := GetAvailableBalance st currentBalance in
   feeToBurn <- VerifyPledgeRequirementsAndRepayDebts currentBalance ;;
   info <- getMinerInfo ;;
   ValidateImmediateCallerIs rt
     (ControlAddresses info ++ [Owner info; Worker info]) ;;
   tx_abort_if (ConsensusFaultActive info (CurrEpoch rt)) ErrForbidden ;;
   tx_abort_if (negb (SealProof params =? SealProofType info))
     ErrIllegalArgument ;;
   let dealCountMax := SectorDealsMax (mi_SectorSize info) in
   tx_abort_if (Z.of_nat (length (DealIDs params)) >? dealCountMax)
     ErrIllegalArgument ;;
   tx_update (fun st => AllocateSectorNumber st (SectorNumber_of params))
     ErrIllegalState ;;
   preCommit <-
     tx_read (fun st => GetPrecommittedSector st (SectorNumber_of params))
       ErrIllegalState ;;
   tx_abort_if (bool_decide (is_Some preCommit)) ErrIllegalState ;;
   sectorFound <-
     tx_read (fun st => HasSectorNo st (SectorNumber_of params))
       ErrIllegalState ;;
   tx_abort_if sectorFound ErrIllegalState ;;
   tx_ret (newlyVested, availableBalance, feeToBurn, info))%tx.

(** The deposit: its amount, the check against the available balance and
    its reservation.  Returns [depositReq]. *)
Definition PreCommitSector_deposit (rt : Runtime)
    (params : SectorPreCommitInfo)
    (rewardStats : ThisEpochRewardReturn)
    (pwrTotal : CurrentTotalPowerReturn)
    (dealWeight : VerifyDealsForActivationReturn)
    (currentBalance : Z) (availableBalance : Z) (info : MinerInfo) : Tx Z :=
  (depositMinimum <-
     (if ReplaceCapacity params then
        replaceSector <- validateReplaceSector params ;;
        tx_ret (InitialPledge replaceSector)
      else tx_ret big.Zero) ;;
   let duration := wrap64 (Expiration params - CurrEpoch rt) in
   let sectorWeight :=
     QAPowerForWeight (mi_SectorSize info) duration
       (vd_DealWeight dealWeight) (vd_VerifiedDealWeight dealWeight) in
   let depositReq :=
     big.Max
       (PreCommitDepositForPower (ThisEpochRewardSmoothed rewardStats)
          (QualityAdjPowerSmoothed pwrTotal) sectorWeight)
       depositMinimum in
   tx_abort_if (big.LessThan availableBalance depositReq)
     ErrInsufficientFunds ;;
   st <- tx_get ;;
   tx_put (AddPreCommitDeposit st depositReq) ;;
   st <- tx_get ;;
   tx_abort_if (negb (AssertBalanceInvariants st currentBalance))
     SysErrPanic ;;
   tx_ret depositReq)%tx.

(** The pre-commit record and its expiry. *)
Definition PreCommitSector_store (rt : Runtime)
    (params : SectorPreCommitInfo)
    (dealWeight : VerifyDealsForActivationReturn) (depositReq : Z)
    : Tx unit :=
  (st <- tx_get ;;
   match PutPrecommittedSector st
           {| pc_Info := params;
              PreCommitDeposit := depositReq;
              PreCommitEpoch := CurrEpoch rt;
              pc_DealWeight := vd_DealWeight dealWeight;
              pc_VerifiedDealWeight := vd_VerifiedDealWeight dealWeight |}
   with
   | Failure _ => tx_Abortf ErrIllegalState
   | Success st' => tx_put st'
   end ;;
   match MaxProveCommitDuration (SealProof params) with
   | None => tx_Abortf ErrIllegalArgument
   | Some msd =>
       let expiryBound := wrap64 (wrap64 (CurrEpoch rt + msd) + 1) in
       tx_update
         (fun st => AddPreCommitExpiry st expiryBound
                      (SectorNumber_of params))
         ErrIllegalState
   end)%tx.

(** The closure of the transaction.  Returns [newlyVested] and
    [feeToBurn]. *)
Definition PreCommitSector_tx (rt : Runtime) (params : SectorPreCommitInfo)
    (rewardStats : ThisEpochRewardReturn)
    (pwrTotal : CurrentTotalPowerReturn)
    (dealWeight : VerifyDealsForActivationReturn) (currentBalance : Z)
    : Tx (Z * Z) :=
  ('(newlyVested, availableBalance, feeToBurn, info) <-
     PreCommitSector_admit rt params currentBalance ;;
   depositReq <-
     PreCommitSector_deposit rt params rewardStats pwrTotal dealWeight
       currentBalance availableBalance info ;;
   PreCommitSector_store rt params dealWeight depositReq ;;
   tx_ret (newlyVested, feeToBurn))%tx.

Definition PreCommitSector (rt : Runtime) (params : SectorPreCommitInfo)
    : Rt unit :=
  (PreCommitSector_checks rt params ;;
   rewardStats <- requestCurrentEpochBlockReward rt ;;
   pwrTotal <- requestCurrentTotalPower rt ;;
   dealWeight <-
     requestDealWeight rt (DealIDs params) (CurrEpoch rt)
       (Expiration params) ;;
   currentBalance <- CurrentBalance ;;
   '(newlyVested, feeToBurn) <-
     Transaction
       (PreCommitSector_tx rt params rewardStats pwrTotal dealWeight
          currentBalance) ;;
   burnFunds rt feeToBurn ;;
   notifyPledgeChanged rt (big.Neg newlyVested))%rt.

(** *** WithdrawBalance *)

(** The closure of the transaction.  Returns [info], [newlyVested],
    [availableBalance] and [feeToBurn]. *)
Definition WithdrawBalance_tx (rt : Runtime) (currentBalance : Z)
    : Tx (MinerInfo * Z * Z * Z) :=
  (info <- getMinerInfo ;;
   ValidateImmediateCallerIs rt [Owner info] ;;
   st <- tx_get ;;
   let count := BitField_Count (EarlyTerminations st) in
   tx_abort_if (count >? 0) ErrForbidden ;;
   newlyVested <-
     (fun st =>
        match UnlockVestedFunds st (CurrEpoch rt) with
        | Failure _ => TxAbort ErrIllegalState
        | Success (st', newlyVested) => TxOk newlyVested st'
        end) ;;
   st <- tx_get ;;
   let availableBalance := GetAvailableBalance st currentBalance in
   feeToBurn <- VerifyPledgeRequirementsAndRepayDebts currentBalance ;;
   tx_ret (info, newlyVested, availableBalance, feeToBurn))%tx.

Definition WithdrawBalance (rt : Runtime) (params : WithdrawBalanceParams)
    : Rt unit :=
  (rt_abort_if (big.LessThan (AmountRequested params) big.Zero)
     ErrIllegalArgument ;;
   currentBalance <- CurrentBalance ;;
   '(info, newlyVested, availableBalance, feeToBurn) <-
     Transaction (WithdrawBalance_tx rt currentBalance) ;;
   let amountWithdrawn :=
     big.Min availableBalance (AmountRequested params) in
   rt_Assert (big.GreaterThanEqual amountWithdrawn big.Zero) ;;
   rt_Assert (big.LessThanEqual amountWithdrawn availableBalance) ;;
   (if big.GreaterThan amountWithdrawn 0 then
      code <- Send rt (MethodSend (Owner info) amountWithdrawn) ;;
      RequireSuccess code
    else rt_ret tt) ;;
   burnFunds rt feeToBurn ;;
   let pledgeDelta := big.Neg newlyVested in
   notifyPledgeChanged rt pledgeDelta ;;
   st <- rt_state ;;
   currentBalance <- CurrentBalance ;;
   rt_Assert (AssertBalanceInvariants st currentBalance))%rt.

(** *** Early terminations *)

(** The body of [result.ForEach] in [processEarlyTerminations]; the
    accumulator is [(totalInitialPledge, penalty, dealsToTerminate)]. *)
Fixpoint processEarlyTerminations_each (info : MinerInfo)
    (rewardStats : ThisEpochRewardReturn)
    (pwrTotal : CurrentTotalPowerReturn) (sectors : SectorsT)
    (entries : list (Z * BitField))
    (acc : Z * Z * list (Z * list DealID))
    : Tx (Z * Z * list (Z * list DealID)) :=
  match entries with
  | [] => tx_ret acc
  | (epoch, sectorNos) :: rest =>
      let '(totalInitialPledge, penalty, dealsToTerminate) := acc in
      (loaded <-
         tx_RequireNoErr (Sectors_LoadInfos sectors sectorNos)
           ErrIllegalState ;;
       let dealIDs := concat (map so_DealIDs loaded) in
       let totalInitialPledge :=
         fold_left (fun total sector => big.Add total (InitialPledge sector))
           loaded totalInitialPledge in
       let penalty :=
         big.Add penalty
           (terminationPenalty (mi_SectorSize info) epoch
              (ThisEpochRewardSmoothed rewardStats)
              (QualityAdjPowerSmoothed pwrTotal) loaded) in
       processEarlyTerminations_each info rewardStats pwrTotal sectors rest
         (totalInitialPledge, penalty,
          dealsToTerminate ++ [(epoch, dealIDs)]))%tx
  end.

Fixpoint requestTerminateDeals_all (rt : Runtime)
    (dealsToTerminate : list (Z * list DealID)) : Rt unit :=
  match dealsToTerminate with
  | [] => rt_ret tt
  | (epoch, dealIDs) :: rest =>
      (requestTerminateDeals rt epoch dealIDs ;;
       requestTerminateDeals_all rt rest)%rt
  end.

(** The closure of the transaction.  Returns [result], [more],
    [dealsToTerminate], [penalty] and [pledgeDelta]. *)
Definition processEarlyTerminations_tx (rt : Runtime)
    (rewardStats : ThisEpochRewardReturn)
    (pwrTotal : CurrentTotalPowerReturn) (currentBalance : Z)
    : Tx (TerminationResult * bool * list (Z * list DealID) * Z * Z) :=
  ('(result, more) <-
     tx_method
       (fun st => PopEarlyTerminations st AddressedPartitionsMax
                    AddressedSectorsMax)
       ErrIllegalState ;;
   if TerminationResult_IsEmpty result then
     tx_ret (result, more, [], big.Zero, big.Zero)
   else
     info <- getMinerInfo ;;
     sectors <-
       tx_read (fun st => LoadSectors (Sectors st)) ErrIllegalState ;;
     '(totalInitialPledge, penalty, dealsToTerminate) <-
       processEarlyTerminations_each info rewardStats pwrTotal sectors
         (TerminationResult_entries result)
         (big.Zero, big.Zero, []) ;;
     st <- tx_get ;;
     let unlockedBalance := GetUnlockedBalance st currentBalance in
     '(penaltyFromVesting, penaltyFromBalance) <-
       tx_method
         (fun st => PenalizeFundsInPriorityOrder st (CurrEpoch rt)
                      penalty unlockedBalance)
         ErrIllegalState ;;
     let penalty := big.Add penaltyFromVesting penaltyFromBalance in
     st <- tx_get ;;
     tx_put (AddInitialPledgeRequirement st
               (big.Neg totalInitialPledge)) ;;
     let pledgeDelta :=
       big.Neg (big.Add totalInitialPledge penaltyFromVesting) in
     tx_ret (result, more, dealsToTerminate, penalty, pledgeDelta))%tx.

Definition processEarlyTerminations (rt : Runtime) : Rt bool :=
  (rewardStats <- requestCurrentEpochBlockReward rt ;;
   pwrTotal <- requestCurrentTotalPower rt ;;
   currentBalance <- CurrentBalance ;;
   '(result, more, dealsToTerminate, penalty, pledgeDelta) <-
     Transaction
       (processEarlyTerminations_tx rt rewardStats pwrTotal
          currentBalance) ;;
   if TerminationResult_IsEmpty result then rt_ret more
   else
     burnFunds rt penalty ;;
     notifyPledgeChanged rt pledgeDelta ;;
     requestTerminateDeals_all rt dealsToTerminate ;;
     rt_ret more)%rt.

(** *** TerminateSectors *)

(** The loop that fills [toProcess]. *)
Fixpoint TerminateSectors_collect (terms : list TerminationDeclaration)
    (toProcess : DeadlineSectorMap) : Rt DeadlineSectorMap :=
  match terms with
  | [] => rt_ret toProcess
  | term :: rest =>
      match DeadlineSectorMap_Add toProcess (td_Deadline term)
              (td_Partition term) (td_Sectors term) with
      | Failure e => rt_Abortf (RequireNoErr_code e ErrIllegalArgument)
      | Success toProcess' => TerminateSectors_collect rest toProcess'
      end
  end.

(** The body of [toProcess.ForEach]; the accumulator is
    [(deadlines, powerDelta)]. *)
Fixpoint TerminateSectors_each (rt : Runtime) (info : MinerInfo)
    (sectors : SectorsT) (entries : list (Z * PartitionSectorMap))
    (acc : DeadlinesT * PowerPair) : Tx (DeadlinesT * PowerPair) :=
  match entries with
  | [] => tx_ret acc
  | (dlIdx, partitionSectors) :: rest =>
      let '(deadlines, powerDelta) := acc in
      (st <- tx_get ;;
       let quant := QuantSpecForDeadline st dlIdx in
       deadline <-
         tx_RequireNoErr (LoadDeadline deadlines dlIdx) ErrIllegalState ;;
       '(deadline, removedPower) <-
         tx_RequireNoErr
           (Deadline_TerminateSectors deadline sectors (CurrEpoch rt)
              partitionSectors (mi_SectorSize info) quant)
           ErrIllegalState ;;
       st <- tx_get ;;
       tx_put (EarlyTerminations_Set st dlIdx) ;;
       let powerDelta := PowerPair_Sub powerDelta removedPower in
       deadlines <-
         tx_RequireNoErr (UpdateDeadline deadlines dlIdx deadline)
           ErrIllegalState ;;
       TerminateSectors_each rt info sectors rest (deadlines, powerDelta))%tx
  end.

(** The closure of the transaction.  Returns [hadEarlyTerminations] and
    [powerDelta]. *)
Definition TerminateSectors_tx (rt : Runtime)
    (toProcess : DeadlineSectorMap) : Tx (bool * PowerPair) :=
  (st <- tx_get ;;
   let hadEarlyTerminations := havePendingEarlyTerminations st in
   info <- getMinerInfo ;;
   ValidateImmediateCallerIs rt
     (ControlAddresses info ++ [Owner info; Worker info]) ;;
   deadlines <- tx_read LoadDeadlines ErrIllegalState ;;
   sectors <-
     tx_read (fun st => LoadSectors (Sectors st)) ErrIllegalState ;;
   '(deadlines, powerDelta) <-
     TerminateSectors_each rt info sectors
       (DeadlineSectorMap_entries toProcess)
       (deadlines, NewPowerPairZero) ;;
   tx_update (fun st => SaveDeadlines st deadlines) ErrIllegalState ;;
   tx_ret (hadEarlyTerminations, powerDelta))%tx.

Definition TerminateSectors (rt : Runtime) (params : TerminateSectorsParams)
    : Rt TerminateSectorsReturn :=
  (toProcess <-
     TerminateSectors_collect (Terminations params)
       DeadlineSectorMap_empty ;;
   match DeadlineSectorMap_Check toProcess AddressedPartitionsMax
           AddressedSectorsMax with
   | Failure e => rt_Abortf (RequireNoErr_code e ErrIllegalArgument)
   | Success _ => rt_ret tt
   end ;;
   '(hadEarlyTerminations, powerDelta) <-
     Transaction (TerminateSectors_tx rt toProcess) ;;
   more <- processEarlyTerminations rt ;;
   (if more && negb hadEarlyTerminations then
      scheduleEarlyTerminationWork rt
    else rt_ret tt) ;;
   requestUpdatePower rt powerDelta ;;
   rt_ret {| Done := negb more |})%rt.

(** *** The end-of-deadline cron *)

(** The closure of the transaction.  Returns [hadEarlyTerminations],
    [powerDeltaTotal], [penaltyTotal] and [pledgeDeltaTotal]. *)
Definition handleProvingDeadline_tx (rt : Runtime)
    (epochReward : ThisEpochRewardReturn)
    (pwrTotal : CurrentTotalPowerReturn) (currentBalance : Z)
    : Tx (bool * PowerPair * Z * Z) :=
  (let currEpoch := CurrEpoch rt in
   newlyVested <-
     tx_method (fun st => UnlockVestedFunds st (CurrEpoch rt))
       ErrIllegalState ;;
   let pledgeDeltaTotal := big.Add 0 (big.Neg newlyVested) in
   depositToBurn <-
     tx_method (fun st => ExpirePreCommits st currEpoch) ErrIllegalState ;;
   let penaltyTotal := big.Add 0 depositToBurn in
   st <- tx_get ;;
   let hadEarlyTerminations := havePendingEarlyTerminations st in
   result <-
     tx_method (fun st => AdvanceDeadline st currEpoch) ErrIllegalState ;;
   let undeclaredPenalty :=
     PledgePenaltyForUndeclaredFault
       (ThisEpochRewardSmoothed epochReward)
       (QualityAdjPowerSmoothed pwrTotal)
       (QA (DetectedFaultyPower result)) in
   let declaredPenalty :=
     PledgePenaltyForDeclaredFault
       (ThisEpochRewardSmoothed epochReward)
       (QualityAdjPowerSmoothed pwrTotal)
       (big.Sub (QA (TotalFaultyPower result))
          (QA (DetectedFaultyPower result))) in
   let powerDeltaTotal :=
     PowerPair_Add NewPowerPairZero (adr_PowerDelta result) in
   let pledgeDeltaTotal :=
     big.Add pledgeDeltaTotal (adr_PledgeDelta result) in
   let penaltyTarget := big.Add declaredPenalty undeclaredPenalty in
   if negb (big.IsZero penaltyTarget) then
     st <- tx_get ;;
     let unlockedBalance := GetUnlockedBalance st currentBalance in
     '(penaltyFromVesting, penaltyFromBalance) <-
       tx_method
         (fun st => PenalizeFundsInPriorityOrder st currEpoch
                      penaltyTarget unlockedBalance)
         ErrIllegalState ;;
     let penaltyTotal :=
       big.Add (big.Add penaltyTotal penaltyFromVesting)
         penaltyFromBalance in
     let pledgeDeltaTotal :=
       big.Sub pledgeDeltaTotal penaltyFromVesting in
     tx_ret (hadEarlyTerminations, powerDeltaTotal, penaltyTotal,
             pledgeDeltaTotal)
   else
     tx_ret (hadEarlyTerminations, powerDeltaTotal, penaltyTotal,
             pledgeDeltaTotal))%tx.

Definition handleProvingDeadline (rt : Runtime) : Rt unit :=
  (let currEpoch := CurrEpoch rt in
   epochReward <- requestCurrentEpochBlockReward rt ;;
   pwrTotal <- requestCurrentTotalPower rt ;;
   currentBalance <- CurrentBalance ;;
   '(hadEarlyTerminations, powerDeltaTotal, penaltyTotal,
     pledgeDeltaTotal) <-
     Transaction
       (handleProvingDeadline_tx rt epochReward pwrTotal currentBalance) ;;
   requestUpdatePower rt powerDeltaTotal ;;
   burnFunds rt penaltyTotal ;;
   notifyPledgeChanged rt pledgeDeltaTotal ;;
   st <- rt_state ;;
   let newDlInfo := State_DeadlineInfo st currEpoch in
   enrollCronEvent rt (Last newDlInfo)
     {| EventType := CronEventProvingDeadline |} ;;
   let hasEarlyTerminations := havePendingEarlyTerminations st in
   if negb hadEarlyTerminations && hasEarlyTerminations then
     more <- processEarlyTerminations rt ;;
     if more then scheduleEarlyTerminationWork rt else rt_ret tt
   else rt_ret tt)%rt.

(** A handler step that enrolls no early-termination event and leaves
    the persisted state alone. *)
Definition quiet {A} (m : Rt A) : Prop :=
  forall s a s', m s = Returned a s' ->
    persisted s' = persisted s /\
    enrollments (sent s') = enrollments (sent s).

End Actor.

Arguments TxOk {SR A} a st.
Arguments TxAbort {SR A} c.
Arguments Returned {SR A} a s.
Arguments Aborted {SR A} c s.

(** ** A small miner to run the handlers on

    An executable instance of the interfaces: constant estimates, one
    partition per deadline, no vesting schedule.  It is used to evaluate the
    handlers on concrete calls. *)
Module Sim.

(** Constant estimates: the smoothed value is the constant, and the
    ratio of two constants accumulates linearly over the duration. *)
Definition ConstantEstimates : Smoothing :=
  {| FilterEstimate := Z;
     Estimate := fun v => v;
     ExtrapolatedCumSumOfRatio := fun delta _ num denom =>
       (delta * num * 2 ^ 128) / denom |}.

Definition network : Network :=
  {| EpochsInDay := 2880;
     ExpectedLeadersPerEpoch := 5;
     BurntFundsActorAddr := 99%N |}.

(** An error carries an exit code or none. *)
Definition errors : Errors :=
  {| GoError := option ExitCode;
     exitcode_Unwrap := fun e d => default d e;
     RequireNoErr_code := fun e d => default d e |}.

Definition policy : @Policy errors :=
  {| SupportedProofTypes := fun p => p =? 3;
     MaxSectorNumber := 2 ^ 63 - 1;
     SealedCIDPrefix := 1;
     MaxPreCommitRandomnessLookback := 2880 + 900;
     MaxProveCommitDuration := fun p => if p =? 3 then Some 10000 else None;
     MinSectorExpiration := 180 * 2880;
     MaxSectorExpirationExtension := 540 * 2880;
     SectorMaximumLifetime := fun _ => 1278 * 2880;
     WPoStChallengeLookback := 20;
     FaultDeclarationCutoff := 70;
     AddressedPartitionsMax := 1;
     AddressedSectorsMax := 2;
     loadPartitionsSectorsMax := fun _ => 1;
     SectorDealsMax := fun _ => 256;
     RegisteredWindowPoStProof := fun p =>
       if p =? 3 then @Success errors _ 8 else @Failure errors _ None;
     QAPowerForWeight := fun size _ _ _ => size;
     QAPowerForSector := fun size _ => size;
     ConsensusFaultActive := fun info e => e <=? ConsensusFaultElapsed info
  |}.

(** A deadline with a single partition, of index 0. *)
Record SimDeadline := {
  dl_Sectors : BitField;
  dl_Faults : BitField;
  dl_Recoveries : BitField;
  (** A proof was recorded for the partition in the open window. *)
  dl_Proven : bool;
  (** Epoch at which faults are terminated if still faulty. *)
  dl_FaultExpirations : list (Z * BitField);
  (** The early-termination queue. *)
  dl_EarlyTerminated : list (Z * BitField)
}.

Definition structures : Structures :=
  {| InfoT := option MinerInfo;
     VestingFundsT := unit;
     PreCommitMapT := list SectorPreCommitOnChainInfo;
     ExpiryQueueT := list (Z * SectorNumber);
     AllocatedSectorsT := BitField;
     SectorsRootT := list SectorOnChainInfo;
     DeadlinesRootT := list SimDeadline;
     SectorsT := list SectorOnChainInfo;
     DeadlinesT := list SimDeadline;
     DeadlineT := SimDeadline;
     QuantSpec := unit;
     PartitionSectorMap := list (Z * BitField);
     DeadlineSectorMap := list (Z * list (Z * BitField));
     TerminationResult := list (Z * BitField) |}.

Abbreviation St := (@State structures).
Abbreviation ok := (@Success errors _).
Abbreviation fail := (@Failure errors _).

Definition with_funds (st : St) (deposits locked debt pledge : Z) : St :=
  {| st_Info := st_Info st; PreCommitDeposits := deposits;
     LockedFunds := locked; VestingFunds := VestingFunds st;
     FeeDebt := debt; InitialPledgeRequirement := pledge;
     PreCommittedSectors := PreCommittedSectors st;
     PreCommittedSectorsExpiry := PreCommittedSectorsExpiry st;
     AllocatedSectors := AllocatedSectors st; Sectors := Sectors st;
     ProvingPeriodStart := ProvingPeriodStart st;
     CurrentDeadline := CurrentDeadline st; Deadlines := Deadlines st;
     EarlyTerminations := EarlyTerminations st |}.

Definition with_precommits (st : St)
    (precommits : list SectorPreCommitOnChainInfo)
    (expiry : list (Z * SectorNumber)) (allocated : BitField) : St :=
  {| st_Info := st_Info st; PreCommitDeposits := PreCommitDeposits st;
     LockedFunds := LockedFunds st; VestingFunds := VestingFunds st;
     FeeDebt := FeeDebt st;
     InitialPledgeRequirement := InitialPledgeRequirement st;
     PreCommittedSectors := precommits;
     PreCommittedSectorsExpiry := expiry;
     AllocatedSectors := allocated; Sectors := Sectors st;
     ProvingPeriodStart := ProvingPeriodStart st;
     CurrentDeadline := CurrentDeadline st; Deadlines := Deadlines st;
     EarlyTerminations := EarlyTerminations st |}.

Definition with_deadlines (st : St) (periodStart current : Z)
    (deadlines : list SimDeadline) (early : BitField) : St :=
  {| st_Info := st_Info st; PreCommitDeposits := PreCommitDeposits st;
     LockedFunds := LockedFunds st; VestingFunds := VestingFunds st;
     FeeDebt := FeeDebt st;
     InitialPledgeRequirement := InitialPledgeRequirement st;
     PreCommittedSectors := PreCommittedSectors st;
     PreCommittedSectorsExpiry := PreCommittedSectorsExpiry st;
     AllocatedSectors := AllocatedSectors st; Sectors := Sectors st;
     ProvingPeriodStart := periodStart;
     CurrentDeadline := current; Deadlines := deadlines;
     EarlyTerminations := early |}.

Definition in_bf (n : Z) (b : BitField) : bool :=
  bool_decide (Z.to_N n ∈ b).

Definition select (sectors : list SectorOnChainInfo) (b : BitField)
    : list SectorOnChainInfo :=
  List.filter (fun s => in_bf (so_SectorNumber s) b) sectors.

Definition power (ssize : Z) (sectors : list SectorOnChainInfo)
    (b : BitField) : PowerPair :=
  let chosen := select sectors b in
  {| Raw := ssize * Z.of_nat (length chosen);
     QA := fold_left
             (fun acc s => acc + @QAPowerForSector errors policy ssize s)
             chosen 0 |}.

Definition unlocked (st : St) (actorBalance : Z) : Z :=
  actorBalance - PreCommitDeposits st - LockedFunds st
  - InitialPledgeRequirement st.

(** One claimed partition of a proof submission. *)
Definition record_one (ssize : Z) (sectors : list SectorOnChainInfo)
    (faultExpiration : Z)
    (acc : @Err errors (SimDeadline * PoStResult)) (p : PoStPartition)
    : @Err errors (SimDeadline * PoStResult) :=
  match acc with
  | Failure e => fail e
  | Success (dl, res) =>
      if negb (Index p =? 0) then fail (Some ErrNotFound)
      else if dl_Proven dl then ok (dl, res)
      else if negb (bool_decide (Skipped p ⊆ dl_Sectors dl)) then
        fail (Some ErrIllegalArgument)
      else
        let newFaults := Skipped p ∖ dl_Faults dl in
        let retracted := Skipped p ∩ dl_Recoveries dl in
        let recovered := dl_Recoveries dl ∖ Skipped p in
        let faults := (dl_Faults dl ∪ newFaults) ∖ recovered in
        ok ({| dl_Sectors := dl_Sectors dl; dl_Faults := faults;
               dl_Recoveries := ∅; dl_Proven := true;
               dl_FaultExpirations :=
                 dl_FaultExpirations dl ++ [(faultExpiration, newFaults)];
               dl_EarlyTerminated := dl_EarlyTerminated dl |},
            {| PowerDelta :=
                 PowerPair_Add (PowerDelta res)
                   (PowerPair_Sub (power ssize sectors recovered)
                      (power ssize sectors newFaults));
               NewFaultyPower :=
                 PowerPair_Add (NewFaultyPower res)
                   (power ssize sectors newFaults);
               RetractedRecoveryPower :=
                 PowerPair_Add (RetractedRecoveryPower res)
                   (power ssize sectors retracted);
               RecoveredPower :=
                 PowerPair_Add (RecoveredPower res)
                   (power ssize sectors recovered);
               pr_Sectors := pr_Sectors res ∪ dl_Sectors dl;
               IgnoredSectors := IgnoredSectors res ∪ faults |})
  end.

Definition empty_result : PoStResult :=
  {| PowerDelta := NewPowerPairZero; NewFaultyPower := NewPowerPairZero;
     RetractedRecoveryPower := NewPowerPairZero;
     RecoveredPower := NewPowerPairZero;
     pr_Sectors := ∅; IgnoredSectors := ∅ |}.

(** One partition of a termination request. *)
Definition terminate_one (ssize : Z) (sectors : list SectorOnChainInfo)
    (epoch : Z) (acc : @Err errors (SimDeadline * PowerPair))
    (entry : Z * BitField) : @Err errors (SimDeadline * PowerPair) :=
  match acc with
  | Failure e => fail e
  | Success (dl, removed) =>
      let '(partition, b) := entry in
      if negb (partition =? 0) then fail (Some ErrNotFound)
      else if negb (bool_decide (b ⊆ dl_Sectors dl)) then
        fail (Some ErrIllegalArgument)
      else
        ok ({| dl_Sectors := dl_Sectors dl ∖ b;
               dl_Faults := dl_Faults dl ∖ b;
               dl_Recoveries := dl_Recoveries dl ∖ b;
               dl_Proven := dl_Proven dl;
               dl_FaultExpirations := dl_FaultExpirations dl;
               dl_EarlyTerminated := dl_EarlyTerminated dl ++ [(epoch, b)] |},
            PowerPair_Add removed (power ssize sectors (b ∖ dl_Faults dl)))
  end.

(** The union of the queued bit fields due at [epoch], and the rest of
    the queue. *)
Fixpoint pop_due (epoch : Z) (queue : list (Z * BitField))
    : BitField * list (Z * BitField) :=
  match queue with
  | [] => (∅, [])
  | (e, b) :: rest =>
      let '(due, remaining) := pop_due epoch rest in
      if e <=? epoch then (b ∪ due, remaining) else (due, (e, b) :: remaining)
  end.

Definition advance (st : St) (epoch : Z)
    : @Err errors (St * AdvanceDeadlineResult) :=
  match st_Info st, nth_error (Deadlines st) (Z.to_nat (CurrentDeadline st))
  with
  | Some info, Some dl =>
      let ssize := mi_SectorSize info in
      let detected :=
        if dl_Proven dl then ∅ else dl_Sectors dl ∖ dl_Faults dl in
      let '(due, remaining) := pop_due epoch (dl_FaultExpirations dl) in
      let expired := due ∩ dl_Faults dl in
      let faults := (dl_Faults dl ∪ detected) ∖ expired in
      let dl' :=
        {| dl_Sectors := dl_Sectors dl ∖ expired; dl_Faults := faults;
           dl_Recoveries := ∅; dl_Proven := false;
           dl_FaultExpirations :=
             if bool_decide (detected = ∅) then remaining
             else remaining ++ [(epoch + FaultMaxAge, detected)];
           dl_EarlyTerminated :=
             if bool_decide (expired = ∅) then dl_EarlyTerminated dl
             else dl_EarlyTerminated dl ++ [(epoch, expired)] |} in
      let early :=
        if bool_decide (expired = ∅) then EarlyTerminations st
        else {[ Z.to_N (CurrentDeadline st) ]} ∪ EarlyTerminations st in
      let next := CurrentDeadline st + 1 in
      let wraps := WPoStPeriodDeadlines <=? next in
      ok (with_deadlines st
            (if wraps then ProvingPeriodStart st + WPoStProvingPeriod
             else ProvingPeriodStart st)
            (if wraps then 0 else next)
            (<[ Z.to_nat (CurrentDeadline st) := dl' ]> (Deadlines st))
            early,
          {| adr_PledgeDelta := 0;
             adr_PowerDelta :=
               PowerPair_Sub NewPowerPairZero
                 (power ssize (Sectors st) detected);
             DetectedFaultyPower := power ssize (Sectors st) detected;
             TotalFaultyPower := power ssize (Sectors st) faults |})
  | _, _ => fail None
  end.

(** Takes up to [budget] sectors from the head of a queue: what was
    taken, what is remaining and the budget remaining. *)
Fixpoint pop_queue (budget : nat) (queue : list (Z * BitField))
    : list (Z * BitField) * list (Z * BitField) * nat :=
  match queue with
  | [] => ([], [], budget)
  | (e, b) :: rest =>
      let taken := take budget (elements b) in
      let b_taken : BitField := list_to_set taken in
      let b_left := b ∖ b_taken in
      if bool_decide (b_left = ∅) then
        let '(popped, remaining, budget') :=
          pop_queue (budget - length taken) rest in
        ((e, b_taken) :: popped, remaining, budget')
      else
        (if bool_decide (b_taken = ∅) then [] else [(e, b_taken)],
         (e, b_left) :: rest, O)
  end.

(** Drains the queues of the deadlines with pending work, in the order
    of the deadlines, within the budgets. *)
Fixpoint pop_deadlines (deadlines : list SimDeadline) (idx : N)
    (early : BitField) (partitions sectors : nat)
    : list SimDeadline * BitField * list (Z * BitField) :=
  match deadlines with
  | [] => ([], early, [])
  | dl :: rest =>
      if bool_decide (idx ∈ early) && negb (Nat.eqb partitions 0)
         && negb (Nat.eqb sectors 0) then
        let '(popped, remaining, sectors') :=
          pop_queue sectors (dl_EarlyTerminated dl) in
        let early' :=
          match remaining with [] => early ∖ {[ idx ]} | _ => early end in
        let '(rest', early'', result) :=
          pop_deadlines rest (N.succ idx) early' (partitions - 1) sectors' in
        ({| dl_Sectors := dl_Sectors dl; dl_Faults := dl_Faults dl;
            dl_Recoveries := dl_Recoveries dl; dl_Proven := dl_Proven dl;
            dl_FaultExpirations := dl_FaultExpirations dl;
            dl_EarlyTerminated := remaining |} :: rest',
         early'', popped ++ result)
      else
        let '(rest', early', result) :=
          pop_deadlines rest (N.succ idx) early partitions sectors in
        (dl :: rest', early', result)
  end.

Definition pop_early (st : St) (maxPartitions maxSectors : Z)
    : @Err errors (St * (list (Z * BitField) * bool)) :=
  let '(deadlines, early, result) :=
    pop_deadlines (Deadlines st) 0%N (EarlyTerminations st)
      (Z.to_nat maxPartitions) (Z.to_nat maxSectors) in
  ok (with_deadlines st (ProvingPeriodStart st) (CurrentDeadline st)
        deadlines early,
      (result, negb (bool_decide (early = ∅)))).

Fixpoint psm_add (psm : list (Z * BitField)) (partition : Z)
    (b : BitField) : list (Z * BitField) :=
  match psm with
  | [] => [(partition, b)]
  | (p, b') :: rest =>
      if p =? partition then (p, b' ∪ b) :: rest
      else (p, b') :: psm_add rest partition b
  end.

Fixpoint dsm_add (dsm : list (Z * list (Z * BitField)))
    (deadline partition : Z) (b : BitField)
    : list (Z * list (Z * BitField)) :=
  match dsm with
  | [] => [(deadline, [(partition, b)])]
  | (d, psm) :: rest =>
      if d =? deadline then (d, psm_add psm partition b) :: rest
      else if deadline <? d then (deadline, [(partition, b)]) :: dsm
      else (d, psm) :: dsm_add rest deadline partition b
  end.

Definition dsm_count (dsm : list (Z * list (Z * BitField))) : Z * Z :=
  fold_left
    (fun acc entry =>
       fold_left
         (fun acc' pb => (fst acc' + 1, snd acc' + Z.of_nat (size (snd pb))))
         (snd entry) acc)
    dsm (0, 0).

(** The pre-commitments whose expiry has come. *)
Definition expire (st : St) (epoch : Z) : @Err errors (St * Z) :=
  let due :=
    List.filter (fun en => fst en <=? epoch) (PreCommittedSectorsExpiry st) in
  let is_due (pc : SectorPreCommitOnChainInfo) :=
    existsb (fun en => snd en =? SectorNumber_of (pc_Info pc)) due in
  let expired := List.filter is_due (PreCommittedSectors st) in
  let deposit := fold_left (fun acc pc => acc + PreCommitDeposit pc) expired 0 in
  let st' :=
    with_precommits st
      (List.filter (fun pc => negb (is_due pc)) (PreCommittedSectors st))
      (List.filter (fun en => negb (fst en <=? epoch))
         (PreCommittedSectorsExpiry st))
      (AllocatedSectors st) in
  ok (with_funds st' (PreCommitDeposits st - deposit) (LockedFunds st)
        (FeeDebt st) (InitialPledgeRequirement st),
      deposit).

(** Penalties are taken from the locked funds first, then from the
    unlocked balance; the shortfall becomes fee debt. *)
Definition penalize (st : St) (epoch target unlockedBalance : Z)
    : @Err errors (St * (Z * Z)) :=
  let fromVesting := Z.min (LockedFunds st) target in
  let fromBalance := Z.min unlockedBalance (target - fromVesting) in
  ok (with_funds st (PreCommitDeposits st) (LockedFunds st - fromVesting)
        (FeeDebt st + (target - fromVesting - fromBalance))
        (InitialPledgeRequirement st),
      (fromVesting, fromBalance)).

Definition health (st : St) (deadline partition : Z) (n : SectorNumber)
    : @Err errors unit :=
  match nth_error (Deadlines st) (Z.to_nat deadline) with
  | Some dl =>
      if (partition =? 0) && in_bf n (dl_Sectors dl)
         && negb (in_bf n (dl_Faults dl))
      then ok tt else fail (Some ErrNotFound)
  | None => fail (Some ErrNotFound)
  end.

Definition ops : @StateOps errors structures :=
  {| GetInfo := fun st : St =>
       match st_Info st with
       | Some info => ok info
       | None => fail (Some ErrNotFound)
       end;
     QuantSpecForDeadline := fun _ _ => tt;
     di_QuantSpec := fun _ => tt;
     GetUnlockedBalance := unlocked;
     GetAvailableBalance := fun st actorBalance =>
       unlocked st actorBalance - FeeDebt st;
     UnlockVestedFunds := fun st _ => ok (st, 0);
     RepayDebt := fun st currBalance =>
       if unlocked st currBalance <? FeeDebt st then
         fail (Some ErrInsufficientFunds)
       else
         ok (with_funds st (PreCommitDeposits st) (LockedFunds st) 0
               (InitialPledgeRequirement st),
             FeeDebt st);
     MeetsInitialPledgeCondition := fun st actorBalance =>
       0 <=? unlocked st actorBalance;
     PenalizeFundsInPriorityOrder := penalize;
     AddPreCommitDeposit := fun st amount =>
       with_funds st (PreCommitDeposits st + amount) (LockedFunds st)
         (FeeDebt st) (InitialPledgeRequirement st);
     AddInitialPledgeRequirement := fun st amount =>
       with_funds st (PreCommitDeposits st) (LockedFunds st) (FeeDebt st)
         (InitialPledgeRequirement st + amount);
     AssertBalanceInvariants := fun st actorBalance =>
       (0 <=? FeeDebt st) && (0 <=? unlocked st actorBalance);
     AllocateSectorNumber := fun st n =>
       if in_bf n (AllocatedSectors st) then fail (Some ErrIllegalArgument)
       else
         ok (with_precommits st (PreCommittedSectors st)
               (PreCommittedSectorsExpiry st)
               ({[ Z.to_N n ]} ∪ AllocatedSectors st));
     GetPrecommittedSector := fun st n =>
       ok (List.find (fun pc => SectorNumber_of (pc_Info pc) =? n)
             (PreCommittedSectors st));
     HasSectorNo := fun st n =>
       ok (existsb (fun s => so_SectorNumber s =? n) (Sectors st));
     GetSector := fun st n =>
       ok (List.find (fun s => so_SectorNumber s =? n) (Sectors st));
     CheckSectorHealth := health;
     PutPrecommittedSector := fun st pc =>
       ok (with_precommits st (pc :: PreCommittedSectors st)
             (PreCommittedSectorsExpiry st) (AllocatedSectors st));
     AddPreCommitExpiry := fun st epoch n =>
       ok (with_precommits st (PreCommittedSectors st)
             (PreCommittedSectorsExpiry st ++ [(epoch, n)])
             (AllocatedSectors st));
     ExpirePreCommits := expire;
     LoadSectors := fun root => ok root;
     Sectors_LoadForProof := fun sectors proven ignored =>
       match select sectors (proven ∖ ignored) with
       | [] => ok []
       | good :: _ =>
           ok (map (fun s => if in_bf (so_SectorNumber s) ignored
                             then good else s)
                 (select sectors proven))
       end;
     Sectors_LoadInfos := fun sectors b => ok (select sectors b);
     LoadDeadlines := fun st => ok (Deadlines st);
     SaveDeadlines := fun st deadlines =>
       ok (with_deadlines st (ProvingPeriodStart st) (CurrentDeadline st)
             deadlines (EarlyTerminations st));
     LoadDeadline := fun deadlines idx =>
       match nth_error deadlines (Z.to_nat idx) with
       | Some dl => ok dl
       | None => fail (Some ErrNotFound)
       end;
     UpdateDeadline := fun deadlines idx dl =>
       if Nat.ltb (Z.to_nat idx) (length deadlines) then
         ok (<[ Z.to_nat idx := dl ]> deadlines)
       else fail (Some ErrNotFound);
     RecordProvenSectors := fun dl sectors ssize _ faultExpiration posts =>
       fold_left (record_one ssize sectors faultExpiration) posts
         (ok (dl, empty_result));
     Deadline_TerminateSectors := fun dl sectors epoch psm ssize _ =>
       fold_left (terminate_one ssize sectors epoch) psm
         (ok (dl, NewPowerPairZero));
     AdvanceDeadline := advance;
     PopEarlyTerminations := pop_early;
     TerminationResult_IsEmpty := fun r =>
       match r with [] => true | _ => false end;
     TerminationResult_entries := fun r => r;
     DeadlineSectorMap_empty := [];
     DeadlineSectorMap_Add := fun dsm deadline partition b =>
       if (deadline <? 0) || (WPoStPeriodDeadlines <=? deadline) then
         fail (Some ErrIllegalArgument)
       else ok (dsm_add dsm deadline partition b);
     DeadlineSectorMap_Check := fun dsm maxPartitions maxSectors =>
       let '(partitions, sectors) := dsm_count dsm in
       if (partitions <=? maxPartitions) && (sectors <=? maxSectors) then
         ok tt
       else fail (Some ErrIllegalArgument);
     DeadlineSectorMap_entries := fun dsm => dsm |}.

(** *** A miner and its runtime *)

Definition owner : Address := 1001%N.
Definition worker : Address := 1002%N.
Definition stranger : Address := 2000%N.
Definition sectorSize : Z := 2048.

Definition info : MinerInfo :=
  {| Owner := owner; Worker := worker; ControlAddresses := [];
     SealProofType := 3; mi_SectorSize := sectorSize;
     WindowPoStPartitionSectors := 2; ConsensusFaultElapsed := -1 |}.

Definition commitment : Cid :=
  {| cid_Defined := true; cid_Prefix := 1; cid_Hash := [] |}.

Definition sector (n : Z) (pledge : Z) : SectorOnChainInfo :=
  {| so_SectorNumber := n; so_SealProof := 3; so_SealedCID := commitment;
     so_DealIDs := []; Activation := 0; so_Expiration := 600000;
     so_DealWeight := 0; so_VerifiedDealWeight := 0;
     InitialPledge := pledge; ExpectedDayReward := 100;
     ExpectedStoragePledge := 2000; ReplacedSectorAge := 0;
     ReplacedDayReward := 0 |}.

Definition idle : SimDeadline :=
  {| dl_Sectors := ∅; dl_Faults := ∅; dl_Recoveries := ∅;
     dl_Proven := false; dl_FaultExpirations := [];
     dl_EarlyTerminated := [] |}.

(** A miner with sectors 1, 2 and 3 in deadline 0, of which [faults] are
    faulty and [recoveries] declared recovered; the proving period
    starts at epoch 100. *)
Definition miner (faults recoveries : BitField)
    (faultExpirations : list (Z * BitField)) (debt : Z) (early : BitField)
    : St :=
  @Build_State structures
    (Some info) 0 50000000 tt debt 3000 [] [] {[ 1%N; 2%N; 3%N ]}
    [sector 1 1000; sector 2 1000; sector 3 1000]
    100 0
    [ {| dl_Sectors := {[ 1%N; 2%N; 3%N ]}; dl_Faults := faults;
         dl_Recoveries := recoveries; dl_Proven := false;
         dl_FaultExpirations := faultExpirations;
         dl_EarlyTerminated := [] |};
      idle ]
    early.

Definition chainCommitment : Randomness := [Byte.x63; Byte.x63].

Definition runtime (epoch : Z) (caller : Address)
    : @Runtime ConstantEstimates :=
  {| CurrEpoch := epoch; Caller := caller;
     CallerRefused := SysErrForbidden; Receiver := 1000%N;
     ReceiverID := Some 1000; ReceiverCBOR := [Byte.x6d];
     GetRandomnessFromTickets := fun _ _ _ => chainCommitment;
     GetRandomnessFromBeacon := fun _ _ _ => [Byte.x73];
     VerifyPoSt := fun _ => true;
     SendExit := fun _ => Ok;
     RewardReturn :=
       {| ThisEpochBaselinePower := 2 ^ 50;
          ThisEpochRewardSmoothed := (2 ^ 50 : @FilterEstimate ConstantEstimates) |};
     PowerReturn :=
       {| RawBytePower := 2 ^ 50; QualityAdjPower := 2 ^ 50;
          PledgeCollateral := 0;
          QualityAdjPowerSmoothed := (2 ^ 50 : @FilterEstimate ConstantEstimates) |};
     DealWeightReturn := fun _ _ _ =>
       {| vd_DealWeight := 0; vd_VerifiedDealWeight := 0 |} |}.

Definition start (st : St) (actorBalance : Z) : @RtState structures :=
  {| persisted := st; balance := actorBalance; sent := [] |}.

Definition post (deadline : Z) (skipped : BitField)
    (proofs : list PoStProof) (rand : Randomness)
    : SubmitWindowedPoStParams :=
  {| Deadline := deadline;
     Partitions := [ {| Index := 0; Skipped := skipped |} ];
     Proofs := proofs; ChainCommitRand := rand |}.

Definition proof : PoStProof := {| PoStProof_type := 8; ProofBytes := [] |}.

End Sim.

(** ** Calls on the executable miner *)

Module Scenario.
Import Sim.
#[local] Existing Instances
  ConstantEstimates network errors policy structures ops.

(** The state a call leaves, returned or aborted. *)
Definition outcome {A} (r : RtRes A) : RtState :=
  match r with Returned _ s => s | Aborted _ s => s end.

Definition steady (z : Z) : @FilterEstimate ConstantEstimates := z.

(** *** Window PoSt *)

(** Epoch 102 lies in deadline 0, open over the epochs 100 to 104; at
    epoch 50 the proving period has not started. *)
Definition post_rt := runtime 102 worker.
Definition early_rt := runtime 50 worker.

Definition healthy_start := start (miner ∅ ∅ [] 0 ∅) 100000000.
Definition faulty_start := start (miner {[ 3%N ]} ∅ [] 0 ∅) 100000000.

(** Sectors 2 and 3 are faulty and declared recovered; the submission
    skips sector 1 and proves the other two. *)
Definition post_params := post 0 {[ 1%N ]} [proof] chainCommitment.
Definition post_start :=
  start (miner {[ 2%N; 3%N ]} {[ 2%N; 3%N ]} [] 0 ∅) 100000000.
Definition post_run := SubmitWindowedPoSt post_rt post_params post_start.

(** A submission whose randomness is not the chain's. *)
Definition stale_params := post 0 ∅ [proof] [Byte.x00].

(** Submissions without a proof. *)
Definition unproven_params (skipped : BitField) :=
  post 0 skipped [] chainCommitment.
Definition skipping_run :=
  SubmitWindowedPoSt post_rt (unproven_params {[ 1%N; 2%N ]}) faulty_start.

(** *** End of deadline *)

(** The last epoch of deadline 0.  No sector has been proven: sectors 1
    and 2 are detected faulty and sector 3 stays faulty. *)
Definition cron_rt := runtime 104 4%N.
Definition cron_start := faulty_start.
Definition cron_run := handleProvingDeadline cron_rt cron_start.

(** All three sectors are faulty and their faults expire at epoch 104:
    the cron terminates them early. *)
Definition expiring_start :=
  start (miner {[ 1%N; 2%N; 3%N ]} ∅ [(104, {[ 1%N; 2%N; 3%N ]})] 0 ∅)
    100000000.
Definition expiring_run := handleProvingDeadline cron_rt expiring_start.

Definition early_enrollment (epoch : Z) : Message :=
  Power_EnrollCronEvent epoch
    {| EventType := CronEventProcessEarlyTerminations |}.

(** *** Termination *)

Definition terminate_params : TerminateSectorsParams :=
  {| Terminations :=
       [ {| td_Deadline := 0; td_Partition := 0;
            td_Sectors := {[ 1%N ]} |} ] |}.
Definition terminate_run :=
  TerminateSectors post_rt terminate_params healthy_start.

(** *** Withdrawal *)

Definition withdraw_rt := runtime 50 owner.
Definition withdraw_params (amount : Z) : WithdrawBalanceParams :=
  {| AmountRequested := amount |}.
Definition indebted_start := start (miner ∅ ∅ [] 500 ∅) 100000000.
Definition terminating_start :=
  start (miner ∅ ∅ [] 500 {[ 0%N ]}) 100000000.
Definition withdraw_run :=
  WithdrawBalance withdraw_rt (withdraw_params 1000) indebted_start.

(** *** Pre-commitment *)

(** A capacity upgrade of sector 1 by the new sector 100. *)
Definition upgrade : SectorPreCommitInfo :=
  {| SealProof := 3; SectorNumber_of := 100; SealedCID := commitment;
     SealRandEpoch := 49; DealIDs := [7]; Expiration := 600000;
     ReplaceCapacity := true; ReplaceSectorDeadline := 0;
     ReplaceSectorPartition := 0; ReplaceSectorNumber := 1 |}.
Definition funded_start := start (miner ∅ ∅ [] 0 ∅) 200000000.
Definition precommit_run := PreCommitSector early_rt upgrade funded_start.
Definition short_run := PreCommitSector early_rt upgrade healthy_start.

(** The state after the first part of the closure. *)
Definition admitted (s : RtState) : St :=
  match PreCommitSector_admit early_rt upgrade (balance s) (persisted s)
  with
  | TxOk _ st => st
  | TxAbort _ => persisted s
  end.

End Scenario.

(** ** More of the miner actor

    The helpers and handlers of [miner_actor.go] and [monies.go] that the
    sections above leave out. *)

(** *** The proving period ([miner_actor.go]) *)

(** Go's [%] truncates toward zero: [Z.rem].  A failed [Assert] is
    [None]. *)
Definition nextProvingPeriodStart (currEpoch offset : Z) : option Z :=
  let currModulus := Z.rem currEpoch WPoStProvingPeriod in
  let periodProgress :=
    if currModulus >=? offset then wrap64 (currModulus - offset)
    else wrap64 (WPoStProvingPeriod - wrap64 (offset - currModulus)) in
  let periodStart :=
    wrap64 (wrap64 (currEpoch - periodProgress) + WPoStProvingPeriod) in
  if periodStart >? currEpoch then Some periodStart else None.

Definition byte_of_Z (z : Z) : Byte.byte :=
  default Byte.x00 (Byte.of_N (Z.to_N (z mod 256))).

(** [binary.Write(&buf, binary.BigEndian, v)] of an integer of [n]
    bytes: the bytes of its two's complement, most significant first. *)
Fixpoint BigEndian_bytes (n : nat) (z : Z) : list Byte.byte :=
  match n with
  | O => []
  | S n' => BigEndian_bytes n' (z / 256) ++ [byte_of_Z z]
  end.

(** [binary.BigEndian.Uint64] of eight bytes. *)
Definition BigEndian_Uint (bs : list Byte.byte) : Z :=
  fold_left (fun acc b => acc * 256 + Z.of_N (Byte.to_N b)) bs 0.

(** [myAddr.MarshalCBOR] is given by its result ([None]: an error) and
    [hash] by the bytes of its digest, of which [binary.Read] takes the
    first eight.  An error is [None]. *)
Definition assignProvingPeriodOffset
    (myAddr_MarshalCBOR : option (list Byte.byte)) (currEpoch : Z)
    (hash : list Byte.byte -> list Byte.byte) : option Z :=
  match myAddr_MarshalCBOR with
  | None => None
  | Some addrBytes =>
      let offsetSeed := addrBytes ++ BigEndian_bytes 8 currEpoch in
      let digest := hash offsetSeed in
      if Nat.ltb (length digest) 8 then None
      else
        let offset := BigEndian_Uint (firstn 8 digest) in
        let offset := offset mod WPoStProvingPeriod in
        Some offset
  end.

Definition max64 (a b : Z) : Z := if a >? b then a else b.

(** *** Power of sectors ([miner_actor.go]) *)

Section Power.

Context {ER : Errors} {PO : Policy}.

Definition PowerForSector (sectorSize : SectorSize)
    (sector : SectorOnChainInfo) : PowerPair :=
  {| Raw := sectorSize; QA := QAPowerForSector sectorSize sector |}.

Definition PowerForSectors (ssize : SectorSize)
    (sectors : list SectorOnChainInfo) : PowerPair :=
  let qa :=
    fold_left (fun qa s => big.Add qa (QAPowerForSector ssize s))
      sectors big.Zero in
  {| Raw := big.Mul ssize (Z.of_nat (length sectors)); QA := qa |}.

End Power.

(** *** Consensus faults ([monies.go]) *)

Definition ConsensusFaultFactor : Z := 5.

(** [big.Div] panics on a zero divisor: [None]. *)
Definition ConsensusFaultPenalty {NW : Network} (thisEpochReward : Z)
    : option Z :=
  if big.IsZero (big.NewInt ExpectedLeadersPerEpoch) then None
  else
    Some (big.Div (big.Mul thisEpochReward (big.NewInt ConsensusFaultFactor))
            (big.NewInt ExpectedLeadersPerEpoch)).

(** *** Interfaces of the remaining handlers *)

(** [WorkerKeyChange] and the fields of [MinerInfo] the handlers above do
    not read. *)
Record WorkerKeyChange := {
  NewWorker : Address;
  EffectiveAt : Z
}.

Record FullMinerInfo := {
  fi_Info : MinerInfo;
  PendingWorkerKey : option WorkerKeyChange;
  PeerId : list Byte.byte;
  Multiaddrs : list (list Byte.byte)
}.

(** Constants of [policy.go] and [actors/builtin]; the policy's
    [RewardForConsensusSlashReport(elapsedEpoch, collateral)]. *)
Class Limits := {
  MaxControlAddresses : Z;
  MaxPeerIDLength : Z;
  MaxMultiaddrData : Z;
  ConsensusFaultIneligibilityDuration : Z;
  RewardForConsensusSlashReport : Z -> Z -> Z;
  StoragePowerActorAddr : Address;
  RewardActorAddr : Address
}.

(** State methods of [miner_state.go]: the miner info with all its
    fields, and [st.AddLockedFunds(store, currEpoch, amount,
    &RewardVestingSpec)], which returns the funds newly vested. *)
Class InfoOps {ER : Errors} {SR : Structures} := {
  GetFullInfo : State -> Err FullMinerInfo;
  SaveInfo : State -> FullMinerInfo -> Err State;
  AddLockedFunds : State -> Z -> Z -> Err (State * Z)
}.

(** [runtime.ConsensusFault]: the epoch of the fault is all the handler
    reads. *)
Record ConsensusFault := { cf_Epoch : Z }.

(** The system calls of [ReportConsensusFault], and whether the type of
    the caller is among [builtin.CallerTypesSignable]. *)
Record FaultSyscalls := {
  CallerTypeSignable : bool;
  VerifyConsensusFault :
    list Byte.byte -> list Byte.byte -> list Byte.byte ->
    option ConsensusFault
}.

Record ReportConsensusFaultParams := {
  BlockHeader1 : list Byte.byte;
  BlockHeader2 : list Byte.byte;
  BlockHeaderExtra : list Byte.byte
}.

Record ChangePeerIDParams := { NewID : list Byte.byte }.
Record ChangeMultiaddrsParams := { NewMultiaddrs : list (list Byte.byte) }.
Record CheckSectorProvenParams := { csp_SectorNumber : SectorNumber }.

Section MoreActor.

Context {SM : Smoothing} {NW : Network} {ER : Errors} {PO : Policy}
        {SR : Structures} {SO : StateOps} {LI : Limits} {IO : InfoOps}.

Declare Scope tx_scope.
Declare Scope rt_scope.
Delimit Scope tx_scope with tx.
Delimit Scope rt_scope with rt.

Notation "x <- m ;; k" := (tx_bind m (fun x => k))
  (at level 20, m at level 99, k at level 200, only parsing) : tx_scope.
Notation "' pat <- m ;; k" :=
  (tx_bind m (fun x => match x with pat => k end))
  (at level 20, pat pattern, m at level 99, k at level 200, only parsing)
  : tx_scope.
Notation "m ;; k" := (tx_bind m (fun _ => k))
  (at level 100, k at level 200, only parsing, right associativity)
  : tx_scope.
Notation "x <- m ;; k" := (rt_bind m (fun x => k))
  (at level 20, m at level 99, k at level 200, only parsing) : rt_scope.
Notation "' pat <- m ;; k" :=
  (rt_bind m (fun x => match x with pat => k end))
  (at level 20, pat pattern, m at level 99, k at level 200, only parsing)
  : rt_scope.
Notation "m ;; k" := (rt_bind m (fun _ => k))
  (at level 100, k at level 200, only parsing, right associativity)
  : rt_scope.

(** Modelled from the spec: [rt.ValidateImmediateCallerIs] outside a
    transaction. *)
Definition rt_ValidateImmediateCallerIs (rt : Runtime)
    (addrs : list Address) : Rt unit :=
  rt_abort_if (negb (existsb (N.eqb (Caller rt)) addrs)) (CallerRefused rt).

(** *** Replaced sectors *)

Definition asMapBySectorNumber (sectors : list SectorOnChainInfo)
    : gmap Z SectorOnChainInfo :=
  fold_left (fun m s => <[ so_SectorNumber s := s ]> m) sectors ∅.

Definition replacedSectorParameters (rt : Runtime)
    (precommit : SectorPreCommitOnChainInfo)
    (replacedByNum : gmap Z SectorOnChainInfo) : Tx (Z * Z) :=
  if negb (ReplaceCapacity (pc_Info precommit)) then
    tx_ret (0, big.Zero)
  else
    match replacedByNum !! ReplaceSectorNumber (pc_Info precommit) with
    | None => tx_Abortf ErrNotFound
    | Some replaced =>
        tx_ret (maxEpoch 0 (wrap64 (CurrEpoch rt - Activation replaced)),
                ExpectedDayReward replaced)
    end.

(** *** Checks of the peer information *)

Definition checkControlAddresses (controlAddrs : list Address) : Rt unit :=
  rt_abort_if (Z.of_nat (length controlAddrs) >? MaxControlAddresses)
    ErrIllegalArgument.

(** The loop over the multiaddrs; the sizes of slices held in memory do
    not overflow an [int]. *)
Fixpoint checkPeerInfo_loop (multiaddrs : list (list Byte.byte))
    (totalSize : Z) : Rt Z :=
  match multiaddrs with
  | [] => rt_ret totalSize
  | ma :: rest =>
      (rt_abort_if (Z.of_nat (length ma) =? 0) ErrIllegalArgument ;;
       checkPeerInfo_loop rest (totalSize + Z.of_nat (length ma)))%rt
  end.

Definition checkPeerInfo (peerID : list Byte.byte)
    (multiaddrs : list (list Byte.byte)) : Rt unit :=
  (rt_abort_if (Z.of_nat (length peerID) >? MaxPeerIDLength)
     ErrIllegalArgument ;;
   totalSize <- checkPeerInfo_loop multiaddrs 0 ;;
   rt_abort_if (totalSize >? MaxMultiaddrData) ErrIllegalArgument)%rt.

Definition getFullMinerInfo : Tx FullMinerInfo :=
  tx_read GetFullInfo ErrIllegalState.

Definition ChangePeerID (rt : Runtime) (params : ChangePeerIDParams)
    : Rt unit :=
  (checkPeerInfo (NewID params) [] ;;
   Transaction
     (info <- getFullMinerInfo ;;
      ValidateImmediateCallerIs rt
        (ControlAddresses (fi_Info info)
         ++ [Owner (fi_Info info); Worker (fi_Info info)]) ;;
      let info :=
        {| fi_Info := fi_Info info;
           PendingWorkerKey := PendingWorkerKey info;
           PeerId := NewID params;
           Multiaddrs := Multiaddrs info |} in
      tx_update (fun st => SaveInfo st info) ErrIllegalState)%tx)%rt.

Definition ChangeMultiaddrs (rt : Runtime)
    (params : ChangeMultiaddrsParams) : Rt unit :=
  (checkPeerInfo [] (NewMultiaddrs params) ;;
   Transaction
     (info <- getFullMinerInfo ;;
      ValidateImmediateCallerIs rt
        (ControlAddresses (fi_Info info)
         ++ [Owner (fi_Info info); Worker (fi_Info info)]) ;;
      let info :=
        {| fi_Info := fi_Info info;
           PendingWorkerKey := PendingWorkerKey info;
           PeerId := PeerId info;
           Multiaddrs := NewMultiaddrs params |} in
      tx_update (fun st => SaveInfo st info) ErrIllegalState)%tx)%rt.

(** *** CheckSectorProven *)

(** [rt.State().Readonly(&st)] reads the persisted state. *)
Definition CheckSectorProven (rt : Runtime)
    (params : CheckSectorProvenParams) : Rt unit :=
  (rt_abort_if (csp_SectorNumber params >? MaxSectorNumber)
     ErrIllegalArgument ;;
   st <- rt_state ;;
   match GetSector st (csp_SectorNumber params) with
   | Failure _ => rt_Abortf ErrIllegalState
   | Success None => rt_Abortf ErrNotFound
   | Success (Some _) => rt_ret tt
   end)%rt.

(** *** AddLockedFund *)

Definition AddLockedFund_tx (rt : Runtime) (amountToLock : Z)
    (currentBalance : Z) : Tx Z :=
  (info <- getMinerInfo ;;
   ValidateImmediateCallerIs rt
     (ControlAddresses info
      ++ [Owner info; Worker info; RewardActorAddr]) ;;
   st <- tx_get ;;
   let unlockedBalance := GetUnlockedBalance st currentBalance in
   tx_abort_if (big.LessThan unlockedBalance amountToLock)
     ErrInsufficientFunds ;;
   tx_method (fun st => AddLockedFunds st (CurrEpoch rt) amountToLock)
     ErrIllegalState)%tx.

Definition AddLockedFund (rt : Runtime) (amountToLock : Z) : Rt unit :=
  (rt_abort_if (Z.sgn amountToLock <? 0) ErrIllegalArgument ;;
   currentBalance <- CurrentBalance ;;
   newlyVested <-
     Transaction (AddLockedFund_tx rt amountToLock currentBalance) ;;
   notifyPledgeChanged rt (big.Sub amountToLock newlyVested))%rt.

(** *** ReportConsensusFault *)

(** The closure of the transaction.  Returns [burnAmount],
    [rewardAmount] and [pledgeDelta]. *)
Definition ReportConsensusFault_tx (rt : Runtime)
    (faultPenalty slasherReward : Z) (currentBalance : Z)
    : Tx (Z * Z * Z) :=
  (st <- tx_get ;;
   let unlockedBalance := GetUnlockedBalance st currentBalance in
   '(penaltyFromVesting, penaltyFromBalance) <-
     tx_method
       (fun st => PenalizeFundsInPriorityOrder st (CurrEpoch rt)
                    faultPenalty unlockedBalance)
       ErrIllegalState ;;
   let burnAmount := big.Add penaltyFromVesting penaltyFromBalance in
   let pledgeDelta := big.Add big.Zero (big.Neg penaltyFromVesting) in
   let rewardAmount := big.Min burnAmount slasherReward in
   let burnAmount := big.Sub burnAmount rewardAmount in
   info <- getFullMinerInfo ;;
   let info :=
     {| fi_Info :=
          {| Owner := Owner (fi_Info info);
             Worker := Worker (fi_Info info);
             ControlAddresses := ControlAddresses (fi_Info info);
             SealProofType := SealProofType (fi_Info info);
             mi_SectorSize := mi_SectorSize (fi_Info info);
             WindowPoStPartitionSectors :=
               WindowPoStPartitionSectors (fi_Info info);
             ConsensusFaultElapsed :=
               wrap64 (CurrEpoch rt
                       + ConsensusFaultIneligibilityDuration) |};
        PendingWorkerKey := PendingWorkerKey info;
        PeerId := PeerId info;
        Multiaddrs := Multiaddrs info |} in
   tx_update (fun st => SaveInfo st info) ErrSerialization ;;
   tx_ret (burnAmount, rewardAmount, pledgeDelta))%tx.

(** A reward the reporter does not accept is only logged. *)
Definition ReportConsensusFault (rt : Runtime) (sys : FaultSyscalls)
    (params : ReportConsensusFaultParams) : Rt unit :=
  (rt_abort_if (negb (CallerTypeSignable sys)) (CallerRefused rt) ;;
   let reporter := Caller rt in
   match VerifyConsensusFault sys (BlockHeader1 params)
           (BlockHeader2 params) (BlockHeaderExtra params) with
   | None => rt_Abortf ErrIllegalArgument
   | Some fault =>
       let faultAge := wrap64 (CurrEpoch rt - cf_Epoch fault) in
       rt_abort_if (faultAge <=? 0) ErrIllegalArgument ;;
       rewardStats <- requestCurrentEpochBlockReward rt ;;
       match ConsensusFaultPenalty
               (Estimate (ThisEpochRewardSmoothed rewardStats)) with
       | None => rt_Abortf SysErrPanic
       | Some faultPenalty =>
           let slasherReward :=
             RewardForConsensusSlashReport faultAge faultPenalty in
           currentBalance <- CurrentBalance ;;
           '(burnAmount, rewardAmount, pledgeDelta) <-
             Transaction
               (ReportConsensusFault_tx rt faultPenalty slasherReward
                  currentBalance) ;;
           Send rt (MethodSend reporter rewardAmount) ;;
           burnFunds rt burnAmount ;;
           notifyPledgeChanged rt pledgeDelta
       end
   end)%rt.

(** *** Cron *)

Definition commitWorkerKeyChange (rt : Runtime) : Rt unit :=
  Transaction
    (info <- getFullMinerInfo ;;
     match PendingWorkerKey info with
     | None => tx_ret tt
     | Some key =>
         if EffectiveAt key >? CurrEpoch rt then tx_ret tt
         else
           let info :=
             {| fi_Info :=
                  {| Owner := Owner (fi_Info info);
                     Worker := NewWorker key;
                     ControlAddresses := ControlAddresses (fi_Info info);
                     SealProofType := SealProofType (fi_Info info);
                     mi_SectorSize := mi_SectorSize (fi_Info info);
                     WindowPoStPartitionSectors :=
                       WindowPoStPartitionSectors (fi_Info info);
                     ConsensusFaultElapsed :=
                       ConsensusFaultElapsed (fi_Info info) |};
                PendingWorkerKey := None;
                PeerId := PeerId info;
                Multiaddrs := Multiaddrs info |} in
           tx_update (fun st => SaveInfo st info) ErrSerialization
     end)%tx.

Definition OnDeferredCronEvent (rt : Runtime) (payload : CronEventPayload)
    : Rt unit :=
  (rt_ValidateImmediateCallerIs rt [StoragePowerActorAddr] ;;
   match EventType payload with
   | CronEventProvingDeadline => handleProvingDeadline rt
   | CronEventWorkerKeyChange => commitWorkerKeyChange rt
   | CronEventProcessEarlyTerminations =>
       more <- processEarlyTerminations rt ;;
       if more then scheduleEarlyTerminationWork rt else rt_ret tt
   end)%rt.

End MoreActor.

(** ** Predicates of the properties *)

(** The messages that enroll a cron event, and those that enroll the end
    of a proving deadline. *)
Definition is_Enrollment (m : Message) : bool :=
  match m with
  | Power_EnrollCronEvent _ _ => true
  | _ => false
  end.

Definition is_ProvingDeadlineEnrollment (m : Message) : bool :=
  match m with
  | Power_EnrollCronEvent _ {| EventType := CronEventProvingDeadline |} =>
      true
  | _ => false
  end.

Section Predicates.

Context {SM : Smoothing} {NW : Network} {ER : Errors} {PO : Policy}
        {SR : Structures} {SO : StateOps}.

(** A handler step that sends no message of the kind [P]. *)
Definition mute (P : Message -> bool) {A} (m : Rt A) : Prop :=
  forall s a s', m s = Returned a s' ->
    List.filter P (sent s') = List.filter P (sent s).

(** What [validateExpiration] asks of an expiration, in integers. *)
Definition expiration_valid (rt : Runtime) (activation expiration : Z)
    (sealProof : RegisteredSealProof) : Prop :=
  activation < expiration /\
  MinSectorExpiration <= expiration - activation /\
  expiration <= CurrEpoch rt + MaxSectorExpirationExtension /\
  expiration - activation <= SectorMaximumLifetime sealProof.

(** What [PreCommitSector] asks of its parameters before it sends a
    message, in integers. *)
Definition precommit_valid (rt : Runtime) (params : SectorPreCommitInfo)
    : Prop :=
  SupportedProofTypes (SealProof params) = true /\
  SectorNumber_of params <= MaxSectorNumber /\
  cid_Defined (SealedCID params) = true /\
  cid_Prefix (SealedCID params) = SealedCIDPrefix /\
  CurrEpoch rt - MaxPreCommitRandomnessLookback <= SealRandEpoch params
    < CurrEpoch rt /\
  expiration_valid rt
    (CurrEpoch rt + default 0 (MaxProveCommitDuration (SealProof params)))
    (Expiration params) (SealProof params) /\
  (ReplaceCapacity params = true -> DealIDs params <> []) /\
  ReplaceSectorDeadline params < WPoStPeriodDeadlines /\
  ReplaceSectorNumber params <= MaxSectorNumber.

End Predicates.

(** ** The executable miner, continued

    Sample limits, the miner info with a pending key and the system calls
    of a fault report, to run the remaining handlers. *)
Module Bench.
Import Sim Scenario.
#[local] Existing Instances
  ConstantEstimates network errors policy structures ops.

Definition limits : Limits :=
  {| MaxControlAddresses := 10;
     MaxPeerIDLength := 128;
     MaxMultiaddrData := 1024;
     ConsensusFaultIneligibilityDuration := 900;
     RewardForConsensusSlashReport := fun elapsedEpoch collateral =>
       Z.min collateral (collateral * elapsedEpoch / 1000);
     StoragePowerActorAddr := 4%N;
     RewardActorAddr := 2%N |}.

Definition with_info (st : St) (i : MinerInfo) : St :=
  {| st_Info := Some i; PreCommitDeposits := PreCommitDeposits st;
     LockedFunds := LockedFunds st; VestingFunds := VestingFunds st;
     FeeDebt := FeeDebt st;
     InitialPledgeRequirement := InitialPledgeRequirement st;
     PreCommittedSectors := PreCommittedSectors st;
     PreCommittedSectorsExpiry := PreCommittedSectorsExpiry st;
     AllocatedSectors := AllocatedSectors st; Sectors := Sectors st;
     ProvingPeriodStart := ProvingPeriodStart st;
     CurrentDeadline := CurrentDeadline st; Deadlines := Deadlines st;
     EarlyTerminations := EarlyTerminations st |}.

(** The state keeps the fields of [MinerInfo] the handlers read; the
    pending key is [pending] and there is no vesting schedule. *)
Definition info_ops (pending : option WorkerKeyChange)
    : @InfoOps errors structures :=
  {| GetFullInfo := fun st : St =>
       match st_Info st with
       | Some i =>
           ok {| fi_Info := i; PendingWorkerKey := pending;
                 PeerId := []; Multiaddrs := [] |}
       | None => fail (Some ErrNotFound)
       end;
     SaveInfo := fun st i => ok (with_info st (fi_Info i));
     AddLockedFunds := fun st _ amount =>
       ok (with_funds st (PreCommitDeposits st) (LockedFunds st + amount)
             (FeeDebt st) (InitialPledgeRequirement st), 0) |}.

(** Headers of different lengths are a fault of epoch 90; others are
    none. *)
Definition syscalls : FaultSyscalls :=
  {| CallerTypeSignable := true;
     VerifyConsensusFault := fun h1 h2 _ =>
       if Nat.eqb (length h1) (length h2) then None
       else Some {| cf_Epoch := 90 |} |}.

Definition headers (h1 h2 : list Byte.byte) : ReportConsensusFaultParams :=
  {| BlockHeader1 := h1; BlockHeader2 := h2; BlockHeaderExtra := [] |}.

(** *** The proving period *)

(** A digest that repeats its input four times. *)
Definition echo (data : list Byte.byte) : list Byte.byte :=
  data ++ data ++ data ++ data.

(** *** Cron events *)

Definition key : WorkerKeyChange :=
  {| NewWorker := 1003%N; EffectiveAt := 104 |}.
Definition payload (t : CronEventType) : CronEventPayload :=
  {| EventType := t |}.
Definition key_run (epoch : Z) :=
  OnDeferredCronEvent (LI := limits) (IO := info_ops (Some key))
    (runtime epoch 4%N) (payload CronEventWorkerKeyChange) healthy_start.

(** Early terminations are pending, of the sectors 1, 2 and 3 of
    deadline 0. *)
Definition pending_start :=
  start
    (with_deadlines (miner ∅ ∅ [] 0 ∅) 100 0
       [ {| dl_Sectors := ∅; dl_Faults := ∅; dl_Recoveries := ∅;
            dl_Proven := false; dl_FaultExpirations := [];
            dl_EarlyTerminated := [(100, {[ 1%N; 2%N; 3%N ]})] |};
         idle ]
       {[ 0%N ]})
    100000000.
Definition early_run :=
  OnDeferredCronEvent (LI := limits) (IO := info_ops None)
    cron_rt (payload CronEventProcessEarlyTerminations) pending_start.

(** *** A fault report, by a stranger at epoch 102 *)

(** The reward of the epoch is 1000000. *)
Definition report_rt : @Runtime ConstantEstimates :=
  {| CurrEpoch := 102; Caller := stranger;
     CallerRefused := SysErrForbidden; Receiver := 1000%N;
     ReceiverID := Some 1000; ReceiverCBOR := [Byte.x6d];
     GetRandomnessFromTickets := fun _ _ _ => chainCommitment;
     GetRandomnessFromBeacon := fun _ _ _ => [Byte.x73];
     VerifyPoSt := fun _ => true;
     SendExit := fun _ => Ok;
     RewardReturn :=
       {| ThisEpochBaselinePower := 2 ^ 50;
          ThisEpochRewardSmoothed := steady 1000000 |};
     PowerReturn := PowerReturn post_rt;
     DealWeightReturn := DealWeightReturn post_rt |}.
Definition report_run :=
  ReportConsensusFault (LI := limits) (IO := info_ops None)
    report_rt syscalls (headers [Byte.x01] []) healthy_start.

(** *** Locked funds *)

Definition lock_rt := runtime 102 owner.
Definition lock_run (amount : Z) :=
  AddLockedFund (LI := limits) (IO := info_ops None)
    lock_rt amount healthy_start.

(** *** A miner barred by a consensus fault until epoch 1000 *)

Definition barred_info : MinerInfo :=
  {| Owner := owner; Worker := worker; ControlAddresses := [];
     SealProofType := 3; mi_SectorSize := sectorSize;
     WindowPoStPartitionSectors := 2; ConsensusFaultElapsed := 1000 |}.
Definition barred_start :=
  start (with_info (miner ∅ ∅ [] 0 ∅) barred_info) 200000000.

(** *** A proof the verifier rejects *)

Definition doubting_rt : @Runtime ConstantEstimates :=
  {| CurrEpoch := 102; Caller := worker;
     CallerRefused := SysErrForbidden; Receiver := 1000%N;
     ReceiverID := Some 1000; ReceiverCBOR := [Byte.x6d];
     GetRandomnessFromTickets := fun _ _ _ => chainCommitment;
     GetRandomnessFromBeacon := fun _ _ _ => [Byte.x73];
     VerifyPoSt := fun _ => false;
     SendExit := fun _ => Ok;
     RewardReturn := RewardReturn post_rt;
     PowerReturn := PowerReturn post_rt;
     DealWeightReturn := DealWeightReturn post_rt |}.

(** *** Parameters a pre-commitment refuses: the seal randomness epoch
    is the current one *)

Definition late_seal : SectorPreCommitInfo :=
  {| SealProof := 3; SectorNumber_of := 100; SealedCID := commitment;
     SealRandEpoch := 50; DealIDs := [7]; Expiration := 600000;
     ReplaceCapacity := true; ReplaceSectorDeadline := 0;
     ReplaceSectorPartition := 0; ReplaceSectorNumber := 1 |}.

(** *** Peer information, changed by the worker *)

Definition peer_run :=
  ChangePeerID (LI := limits) (IO := info_ops None) post_rt
    {| NewID := [Byte.x01; Byte.x02] |} healthy_start.
Definition multiaddrs_run :=
  ChangeMultiaddrs (LI := limits) (IO := info_ops None) post_rt
    {| NewMultiaddrs := [[Byte.x01]; [Byte.x02; Byte.x03]] |} healthy_start.

End Bench.

(** * Properties *)

(** ** Integers *)

Lemma wrap64_id z : in_int64 z -> wrap64 z = z.
Proof.
  unfold in_int64, min_int64, max_int64, wrap64. intros Hz.
  rewrite Z.mod_small; lia.
Qed.

Lemma big_Max_spec a b : big.Max a b = Z.max a b.
Proof. unfold big.Max. destruct (Z.gtb_spec a b); lia. Qed.

Lemma big_Min_spec a b : big.Min a b = Z.min a b.
Proof. unfold big.Min. destruct (Z.ltb_spec a b); lia. Qed.

Lemma big_Div_pos a b : 0 < b -> big.Div a b = a / b.
Proof.
  intros Hb. unfold big.Div.
  rewrite Z.sgn_pos, Z.abs_eq by lia. lia.
Qed.

(** Clamping at zero commutes with the arithmetic right shift. *)
Lemma Rsh_clamp x n :
  0 <= n -> big.Max (big.Rsh x n) big.Zero = Z.shiftr (Z.max 0 x) n.
Proof.
  intros Hn. rewrite big_Max_spec. unfold big.Rsh, big.Zero.
  destruct (Z.le_gt_cases 0 x) as [Hx | Hx].
  - rewrite (Z.max_r 0 x) by lia.
    pose proof (proj2 (Z.shiftr_nonneg x n) Hx). lia.
  - rewrite (Z.max_l 0 x) by lia. rewrite Z.shiftr_0_l.
    pose proof (proj2 (Z.shiftr_neg x n) Hx). lia.
Qed.

Section MoniesProperties.

Context {SM : Smoothing} {NW : Network}.

Lemma minEpoch_spec a b : minEpoch a b = Z.min a b.
Proof. unfold minEpoch. destruct (Z.ltb_spec a b); lia. Qed.

(** The expected reward away from the guard on the network power. *)
Lemma ExpectedRewardForPower_nonzero r n qa d :
  Estimate n <> 0 ->
  ExpectedRewardForPower r n qa d =
    Z.shiftr (Z.max 0 (qa * ExtrapolatedCumSumOfRatio d 0 r n)) Precision.
Proof.
  intros Hn. unfold ExpectedRewardForPower, big.IsZero.
  destruct (Z.eqb_spec (Estimate n) 0) as [E | _]; [contradiction |].
  cbv zeta. rewrite Rsh_clamp by (unfold Precision; lia). reflexivity.
Qed.

Lemma ExpectedRewardForPower_zero r n qa d :
  Estimate n = 0 -> ExpectedRewardForPower r n qa d = Estimate r.
Proof.
  intros Hn. unfold ExpectedRewardForPower, big.IsZero.
  rewrite Hn. reflexivity.
Qed.

(** C4, amended.  [ExpectedRewardForPower] returns the reward estimate
    itself when the smoothed network power is zero; otherwise it returns
    [max(0, qa * cumsum)] shifted right by the 128 bits of precision,
    where [cumsum] is the extrapolated cumulative sum of the reward to
    power ratio over the projection duration. *)
Theorem ExpectedRewardForPower_cases r n qa d :
  ExpectedRewardForPower r n qa d =
    if Estimate n =? 0 then Estimate r
    else Z.shiftr (Z.max 0 (qa * ExtrapolatedCumSumOfRatio d 0 r n)) 128.
Proof.
  destruct (Z.eqb_spec (Estimate n) 0) as [E | E].
  - now apply ExpectedRewardForPower_zero.
  - now apply ExpectedRewardForPower_nonzero.
Qed.

(** C3.  The termination penalty is the maximum of the undeclared-fault
    fee and the twenty-day reward at activation plus the day reward over
    the sector's age capped at the 70-day lifetime plus the replaced
    sector's day reward over its age capped at what the new sector's
    capped age leaves of the lifetime; ages are in epochs and the sum is
    brought to days by one division by [EpochsInDay].  The sector age is
    such that the lifetime left under the cap fits an [int64] (every
    non-negative age is). *)
Theorem PledgePenaltyForTermination_max
    dayReward sectorAge twentyDayRewardAtActivation n qa r
    replacedDayReward replacedSectorAge :
  0 < EpochsInDay ->
  TerminationLifetimeCap * EpochsInDay - sectorAge <= max_int64 ->
  let cap := TerminationLifetimeCap * EpochsInDay in
  let cappedAge := Z.min sectorAge cap in
  PledgePenaltyForTermination dayReward sectorAge
    twentyDayRewardAtActivation n qa r replacedDayReward replacedSectorAge =
  Z.max (PledgePenaltyForUndeclaredFault r n qa)
    (twentyDayRewardAtActivation
     + (dayReward * cappedAge
        + replacedDayReward * Z.min replacedSectorAge (cap - cappedAge))
       / EpochsInDay).
Proof.
  intros HE Hage cap cappedAge. unfold PledgePenaltyForTermination.
  cbv zeta. rewrite !minEpoch_spec. fold cap. fold cappedAge.
  rewrite (wrap64_id (cap - cappedAge)).
  - rewrite big_Max_spec.
    unfold big.Add, big.Mul, big.NewInt.
    rewrite big_Div_pos by exact HE. reflexivity.
  - unfold in_int64, min_int64. subst cappedAge cap.
    unfold max_int64 in *. lia.
Qed.

(** With ages of whole days and no replaced sector the penalty reads in
    days. *)
Corollary PledgePenaltyForTermination_whole_days
    dayReward days twentyDayRewardAtActivation n qa r :
  0 < EpochsInDay ->
  TerminationLifetimeCap * EpochsInDay <= max_int64 ->
  0 <= days ->
  PledgePenaltyForTermination dayReward (days * EpochsInDay)
    twentyDayRewardAtActivation n qa r 0 0 =
  Z.max (PledgePenaltyForUndeclaredFault r n qa)
    (twentyDayRewardAtActivation
     + dayReward * Z.min days TerminationLifetimeCap).
Proof.
  intros HE Hcap Hd. unfold PledgePenaltyForTermination. cbv zeta.
  rewrite !minEpoch_spec, wrap64_id
    by (unfold in_int64, min_int64, max_int64 in *; nia).
  rewrite big_Max_spec. unfold big.Add, big.Mul, big.NewInt.
  rewrite big_Div_pos by exact HE. f_equal. f_equal.
  replace (Z.min (days * EpochsInDay) (TerminationLifetimeCap * EpochsInDay))
    with (Z.min days TerminationLifetimeCap * EpochsInDay) by nia.
  rewrite Z.mul_0_l, Z.add_0_r, Z.mul_assoc.
  apply Z.div_mul. lia.
Qed.

(** C5.  With a non-zero pledge-share denominator, the initial pledge is
    the expected reward of the power over the initial-pledge projection
    period plus the lock-target share of the circulating supply pro rata
    of the power: [(3 * supply * qa) / (10 * max(network, baseline, qa))]. *)
Theorem InitialPledgeForPower_sum qaPower baselinePower r n
    circulatingSupply :
  Z.max (Z.max (Estimate n) baselinePower) qaPower <> 0 ->
  InitialPledgeForPower qaPower baselinePower r n circulatingSupply =
  Some
    (ExpectedRewardForPower r n qaPower InitialPledgeProjectionPeriod
     + big.Div
         (numerator InitialPledgeLockTarget * circulatingSupply * qaPower)
         (denominator InitialPledgeLockTarget
          * Z.max (Z.max (Estimate n) baselinePower) qaPower)).
Proof.
  intros Hden. unfold InitialPledgeForPower. cbv zeta.
  rewrite !big_Max_spec. unfold big.IsZero, big.Mul, big.Add.
  destruct (Z.eqb_spec
              (denominator InitialPledgeLockTarget
               * Z.max (Z.max (Estimate n) baselinePower) qaPower) 0)
    as [E | _].
  - exfalso. unfold InitialPledgeLockTarget, big.NewInt in E.
    simpl in E. lia.
  - reflexivity.
Qed.

(** The division by a zero denominator panics. *)
Lemma InitialPledgeForPower_zero_denominator qaPower baselinePower r n
    circulatingSupply :
  Z.max (Z.max (Estimate n) baselinePower) qaPower = 0 ->
  InitialPledgeForPower qaPower baselinePower r n circulatingSupply = None.
Proof.
  intros Hden. unfold InitialPledgeForPower. cbv zeta.
  rewrite !big_Max_spec, Hden. reflexivity.
Qed.

End MoniesProperties.

(** ** The monads *)

Section MonadLemmas.

Context {SM : Smoothing} {NW : Network} {ER : Errors} {PO : Policy}
        {SR : Structures} {SO : StateOps}.

Lemma tx_bind_ok {A B} (m : Tx A) (k : A -> Tx B) st b st' :
  tx_bind m k st = TxOk b st' ->
  exists a st1, m st = TxOk a st1 /\ k a st1 = TxOk b st'.
Proof.
  unfold tx_bind. destruct (m st) as [a st1 | c]; [eauto | discriminate].
Qed.

Lemma tx_bind_abort {A B} (m : Tx A) (k : A -> Tx B) st c :
  tx_bind m k st = TxAbort c ->
  m st = TxAbort c \/ exists a st1, m st = TxOk a st1 /\ k a st1 = TxAbort c.
Proof.
  unfold tx_bind. destruct (m st) as [a st1 | c']; [eauto | ].
  intros [= <-]. now left.
Qed.

Lemma tx_bind_eq {A B} (m : Tx A) (k : A -> Tx B) st a st1 :
  m st = TxOk a st1 -> tx_bind m k st = k a st1.
Proof. unfold tx_bind. now intros ->. Qed.

Lemma tx_bind_eq_abort {A B} (m : Tx A) (k : A -> Tx B) st c :
  m st = TxAbort c -> tx_bind m k st = TxAbort c.
Proof. unfold tx_bind. now intros ->. Qed.

Lemma tx_abort_if_ok cond c st u st' :
  tx_abort_if cond c st = TxOk u st' -> cond = false /\ st' = st.
Proof.
  unfold tx_abort_if. destruct cond; [discriminate |].
  unfold tx_ret. now intros [= _ <-].
Qed.

Lemma tx_abort_if_false c st : tx_abort_if false c st = TxOk tt st.
Proof. reflexivity. Qed.

Lemma tx_abort_if_true c st : tx_abort_if true c st = TxAbort c.
Proof. reflexivity. Qed.

Lemma tx_RequireNoErr_ok {A} (r : Err A) d st a st' :
  tx_RequireNoErr r d st = TxOk a st' -> r = Success a /\ st' = st.
Proof.
  unfold tx_RequireNoErr. destruct r; [| discriminate].
  unfold tx_ret. now intros [= <- <-].
Qed.

Lemma tx_read_ok {A} (f : State -> Err A) d st a st' :
  tx_read f d st = TxOk a st' -> f st = Success a /\ st' = st.
Proof. unfold tx_read. apply tx_RequireNoErr_ok. Qed.

Lemma tx_method_ok {A} (f : State -> Err (State * A)) d st a st' :
  tx_method f d st = TxOk a st' -> f st = Success (st', a).
Proof.
  unfold tx_method. destruct (f st) as [[st1 a1] | e]; [| discriminate].
  now intros [= <- <-].
Qed.

Lemma tx_update_ok (f : State -> Err State) d st u st' :
  tx_update f d st = TxOk u st' -> f st = Success st'.
Proof.
  unfold tx_update. intros Hm. apply tx_method_ok in Hm.
  destruct (f st); now inversion Hm.
Qed.

Lemma rt_bind_returned {A B} (m : Rt A) (k : A -> Rt B) s b s' :
  rt_bind m k s = Returned b s' ->
  exists a s1, m s = Returned a s1 /\ k a s1 = Returned b s'.
Proof.
  unfold rt_bind. destruct (m s) as [a s1 | c s1]; [eauto | discriminate].
Qed.

Lemma rt_bind_eq {A B} (m : Rt A) (k : A -> Rt B) s a s1 :
  m s = Returned a s1 -> rt_bind m k s = k a s1.
Proof. unfold rt_bind. now intros ->. Qed.

Lemma rt_bind_eq_abort {A B} (m : Rt A) (k : A -> Rt B) s c s1 :
  m s = Aborted c s1 -> rt_bind m k s = Aborted c s1.
Proof. unfold rt_bind. now intros ->. Qed.

Lemma rt_abort_if_returned cond c s u s' :
  rt_abort_if cond c s = Returned u s' -> cond = false /\ s' = s.
Proof.
  unfold rt_abort_if. destruct cond; [discriminate |].
  unfold rt_ret. now intros [= _ <-].
Qed.

Lemma rt_Assert_returned cond s u s' :
  rt_Assert cond s = Returned u s' -> cond = true /\ s' = s.
Proof.
  unfold rt_Assert. destruct cond; [| discriminate].
  unfold rt_ret. now intros [= _ <-].
Qed.

Lemma Transaction_returned {A} (f : Tx A) s a s' :
  Transaction f s = Returned a s' ->
  exists st', f (persisted s) = TxOk a st' /\
    s' = {| persisted := st'; balance := balance s; sent := sent s |}.
Proof.
  unfold Transaction. destruct (f (persisted s)) as [a1 st1 | c];
    [| discriminate].
  intros [= <- <-]. eauto.
Qed.

Lemma Transaction_aborted {A} (f : Tx A) s c s' :
  Transaction f s = Aborted c s' ->
  f (persisted s) = TxAbort c /\ s' = s.
Proof.
  unfold Transaction. destruct (f (persisted s)) as [a1 st1 | c1];
    [discriminate |].
  now intros [= <- <-].
Qed.

Lemma Transaction_eq_abort {A} (f : Tx A) s c :
  f (persisted s) = TxAbort c -> Transaction f s = Aborted c s.
Proof. unfold Transaction. now intros ->. Qed.

Lemma sent_more_nil s : sent_more s [] = s.
Proof. destruct s. unfold sent_more. simpl. now rewrite app_nil_r. Qed.

Lemma sent_more_app s ms ms' :
  sent_more (sent_more s ms) ms' = sent_more s (ms ++ ms').
Proof. unfold sent_more. simpl. now rewrite app_assoc. Qed.

Lemma request_returned (rt : Runtime) (m : Message) {A} (a : A) s r s' :
  Message_value m = 0 ->
  rt_bind (Send rt m)
    (fun code => rt_bind (RequireSuccess code) (fun _ => rt_ret a)) s
  = Returned r s' ->
  SendExit rt m = Ok /\ r = a /\ s' = sent_more s [m].
Proof.
  intros Hv. unfold rt_bind, Send, RequireSuccess.
  destruct (SendExit rt m); simpl; try discriminate.
  unfold rt_ret. intros [= <- <-]. rewrite Hv, Z.sub_0_r. auto.
Qed.

Lemma requestCurrentEpochBlockReward_returned rt s r s' :
  requestCurrentEpochBlockReward rt s = Returned r s' ->
  SendExit rt Reward_ThisEpochReward = Ok /\ r = RewardReturn rt /\
  s' = sent_more s [Reward_ThisEpochReward].
Proof. apply request_returned. reflexivity. Qed.

Lemma requestCurrentTotalPower_returned rt s r s' :
  requestCurrentTotalPower rt s = Returned r s' ->
  SendExit rt Power_CurrentTotalPower = Ok /\ r = PowerReturn rt /\
  s' = sent_more s [Power_CurrentTotalPower].
Proof. apply request_returned. reflexivity. Qed.

End MonadLemmas.

Lemma bytes_Equal_eq a b : bytes_Equal a b = true <-> a = b.
Proof.
  revert b. induction a as [| x a IH]; intros [| y b]; simpl;
    try (split; [discriminate | discriminate]); [tauto | ].
  rewrite andb_true_iff, IH. split.
  - intros [Hx ->]. f_equal. now apply Stdlib.Strings.Byte.byte_dec_bl.
  - intros [= -> ->]. split; [| reflexivity].
    now apply Stdlib.Strings.Byte.byte_dec_lb.
Qed.

(** ** SubmitWindowedPoSt *)

Section SubmitWindowedPoStProperties.

Context {SM : Smoothing} {NW : Network} {ER : Errors} {PO : Policy}
        {SR : Structures} {SO : StateOps}.

Lemma getMinerInfo_eq st info :
  GetInfo st = Success info -> getMinerInfo st = TxOk info st.
Proof.
  intros Hinfo. unfold getMinerInfo, tx_read, tx_RequireNoErr.
  now rewrite Hinfo.
Qed.

Lemma ValidateImmediateCallerIs_eq rt addrs st :
  In (Caller rt) addrs -> ValidateImmediateCallerIs rt addrs st = TxOk tt st.
Proof.
  intros Hin. unfold ValidateImmediateCallerIs.
  replace (existsb (N.eqb (Caller rt)) addrs) with true; [reflexivity |].
  symmetry. apply existsb_exists. exists (Caller rt).
  split; [exact Hin | apply N.eqb_refl].
Qed.

Lemma ValidateImmediateCallerIs_ok rt addrs st u st' :
  ValidateImmediateCallerIs rt addrs st = TxOk u st' ->
  In (Caller rt) addrs /\ st' = st.
Proof.
  unfold ValidateImmediateCallerIs. intros Hok.
  apply tx_abort_if_ok in Hok as [Hex ->]. split; [| reflexivity].
  apply negb_false_iff, existsb_exists in Hex as (a & Hin & Heq).
  apply N.eqb_eq in Heq. now subst a.
Qed.

Lemma ValidateImmediateCallerIs_forbidden rt addrs st :
  ~ In (Caller rt) addrs ->
  ValidateImmediateCallerIs rt addrs st = TxAbort (CallerRefused rt).
Proof.
  intros Hnot. unfold ValidateImmediateCallerIs.
  replace (existsb (N.eqb (Caller rt)) addrs) with false; [reflexivity |].
  symmetry. apply not_true_is_false. intros Hex.
  apply existsb_exists in Hex as (a & Hin & Heq).
  apply N.eqb_eq in Heq. now subst a.
Qed.

(** The handler up to its transaction. *)
Lemma SubmitWindowedPoSt_enter rt params s :
  Deadline params < WPoStPeriodDeadlines ->
  SendExit rt Reward_ThisEpochReward = Ok ->
  SendExit rt Power_CurrentTotalPower = Ok ->
  forall c,
  SubmitWindowedPoSt_tx rt params (RewardReturn rt) (PowerReturn rt)
    (balance s) (persisted s) = TxAbort c ->
  SubmitWindowedPoSt rt params s =
    Aborted c (sent_more s [Reward_ThisEpochReward; Power_CurrentTotalPower]).
Proof.
  intros Hdl Hrew Hpow c Htx. unfold SubmitWindowedPoSt.
  destruct (Z.geb_spec (Deadline params) WPoStPeriodDeadlines) as [? | _];
    [lia |].
  unfold rt_abort_if, rt_ret, rt_bind at 1.
  unfold requestCurrentEpochBlockReward, requestCurrentTotalPower.
  unfold rt_bind, Send, RequireSuccess, rt_ret, CurrentBalance, Transaction.
  rewrite Hrew, Hpow. simpl. rewrite !Z.sub_0_r, Htx.
  unfold sent_more. simpl. now rewrite <- app_assoc.
Qed.

(** The checks of the validation that follow the check of the proofs. *)
Lemma validate_tail rt params st info :
  loadPartitionsSectorsMax (WindowPoStPartitionSectors info)
    < Z.of_nat (length (Partitions params))
  \/ (IsOpen (State_DeadlineInfo st (CurrEpoch rt)) = true
      /\ (Deadline params <> di_Index (State_DeadlineInfo st (CurrEpoch rt))
          \/ GetRandomnessFromTickets rt
               DomainSeparationTag_PoStChainCommit
               (Challenge (State_DeadlineInfo st (CurrEpoch rt))) []
             <> ChainCommitRand params)) ->
  tx_bind
    (tx_abort_if
       (Z.of_nat (length (Partitions params))
        >? loadPartitionsSectorsMax (WindowPoStPartitionSectors info))
       ErrIllegalArgument)
    (fun _ =>
       tx_bind tx_get
         (fun st0 =>
            tx_bind
              (tx_abort_if
                 (negb (IsOpen (State_DeadlineInfo st0 (CurrEpoch rt))))
                 ErrIllegalState)
              (fun _ =>
                 tx_bind
                   (tx_abort_if
                      (negb
                         (Deadline params
                          =? di_Index
                               (State_DeadlineInfo st0 (CurrEpoch rt))))
                      ErrIllegalArgument)
                   (fun _ =>
                      tx_bind
                        (tx_abort_if
                           (negb
                              (bytes_Equal
                                 (GetRandomnessFromTickets rt
                                    DomainSeparationTag_PoStChainCommit
                                    (Challenge
                                       (State_DeadlineInfo st0
                                          (CurrEpoch rt))) [])
                                 (ChainCommitRand params)))
                           ErrIllegalArgument)
                        (fun _ =>
                           tx_ret
                             (info, State_DeadlineInfo st0 (CurrEpoch rt)))))))
    st
  = TxAbort ErrIllegalArgument.
Proof.
  intros [Hparts | (Hopen & Hrest)].
  - apply tx_bind_eq_abort.
    destruct (Z.gtb_spec (Z.of_nat (length (Partitions params)))
                (loadPartitionsSectorsMax (WindowPoStPartitionSectors info)));
      [reflexivity | lia].
  - destruct (Z.of_nat (length (Partitions params))
              >? loadPartitionsSectorsMax (WindowPoStPartitionSectors info));
      [reflexivity |].
    rewrite (tx_bind_eq _ _ _ _ _ (tx_abort_if_false _ _)).
    unfold tx_get at 1. unfold tx_bind at 1.
    rewrite Hopen. cbn [negb].
    rewrite (tx_bind_eq _ _ _ _ _ (tx_abort_if_false _ _)).
    destruct (Z.eqb_spec (Deadline params)
                (di_Index (State_DeadlineInfo st (CurrEpoch rt))))
      as [Hidx | Hidx]; [| reflexivity].
    cbn [negb].
    rewrite (tx_bind_eq _ _ _ _ _ (tx_abort_if_false _ _)).
    destruct Hrest as [Hne | Hrand]; [contradiction |].
    apply tx_bind_eq_abort.
    destruct (bytes_Equal _ _) eqn:Heq; [| reflexivity].
    apply bytes_Equal_eq in Heq. contradiction.
Qed.

Lemma SubmitWindowedPoSt_validate_abort rt params st info ty :
  GetInfo st = Success info ->
  In (Caller rt) (ControlAddresses info ++ [Owner info; Worker info]) ->
  RegisteredWindowPoStProof (SealProofType info) = Success ty ->
  validation_failure rt params info ty st ->
  SubmitWindowedPoSt_validate rt params st = TxAbort ErrIllegalArgument.
Proof.
  intros Hinfo Hcaller Hty Hfail. unfold SubmitWindowedPoSt_validate.
  rewrite (tx_bind_eq _ _ _ _ _ (getMinerInfo_eq _ _ Hinfo)).
  rewrite (tx_bind_eq _ _ _ _ _ (ValidateImmediateCallerIs_eq _ _ _ Hcaller)).
  rewrite Hty. unfold tx_RequireNoErr at 1. unfold tx_ret at 1.
  unfold tx_bind at 1.
  assert (Htail :
    Proofs params = [] \/
    (exists p, Proofs params = [p] /\ PoStProof_type p = ty) ->
    loadPartitionsSectorsMax (WindowPoStPartitionSectors info)
      < Z.of_nat (length (Partitions params))
    \/ (IsOpen (State_DeadlineInfo st (CurrEpoch rt)) = true
        /\ (Deadline params <> di_Index (State_DeadlineInfo st (CurrEpoch rt))
            \/ GetRandomnessFromTickets rt
                 DomainSeparationTag_PoStChainCommit
                 (Challenge (State_DeadlineInfo st (CurrEpoch rt))) []
               <> ChainCommitRand params))).
  { intros Hgood.
    destruct Hfail as [Hmany | [(proof & Hone & Hne) | Hrest]];
      [| | exact Hrest].
    - destruct Hgood as [E | (p & E & _)]; rewrite E in Hmany;
        simpl in Hmany; lia.
    - destruct Hgood as [E | (p & E & Hp)]; rewrite E in Hone;
        [discriminate |].
      injection Hone as ->. contradiction. }
  destruct (Proofs params) as [| p [| q l]]; [ | | reflexivity].
  - specialize (Htail (or_introl eq_refl)).
    unfold tx_ret at 1. unfold tx_bind at 1. cbv zeta.
    apply validate_tail; assumption.
  - destruct (Z.eqb_spec (PoStProof_type p) ty) as [Hp | Hp].
    + specialize (Htail (or_intror (ex_intro _ p (conj eq_refl Hp)))).
      cbn [negb]. rewrite (tx_bind_eq _ _ _ _ _ (tx_abort_if_false _ _)).
      apply validate_tail; assumption.
    + reflexivity.
Qed.

(** C7, amended.  When the reward and power actors answer, the miner info
    loads, the caller is the owner, the worker or a control address and
    the window PoSt proof type of the miner is known, [SubmitWindowedPoSt]
    aborts with [ErrIllegalArgument] and persists nothing as soon as one of
    these holds: the deadline of the parameters is not below
    [WPoStPeriodDeadlines]; more than one proof is supplied; the one proof
    supplied is not of the miner's window PoSt type; the partitions
    outnumber the submission limit; or, the current deadline being open,
    the deadline of the parameters is not its index or the randomness of
    the parameters is not the one drawn at its challenge epoch. *)
Theorem SubmitWindowedPoSt_illegal_argument rt params s info ty :
  SendExit rt Reward_ThisEpochReward = Ok ->
  SendExit rt Power_CurrentTotalPower = Ok ->
  GetInfo (persisted s) = Success info ->
  In (Caller rt) (ControlAddresses info ++ [Owner info; Worker info]) ->
  RegisteredWindowPoStProof (SealProofType info) = Success ty ->
  WPoStPeriodDeadlines <= Deadline params
  \/ validation_failure rt params info ty (persisted s) ->
  exists s',
    SubmitWindowedPoSt rt params s = Aborted ErrIllegalArgument s' /\
    persisted s' = persisted s.
Proof.
  intros Hrew Hpow Hinfo Hcaller Hty [Hdl | Hfail].
  - exists s. split; [| reflexivity]. unfold SubmitWindowedPoSt.
    destruct (Z.geb_spec (Deadline params) WPoStPeriodDeadlines) as [_ | ?];
      [reflexivity | lia].
  - destruct (Z.lt_ge_cases (Deadline params) WPoStPeriodDeadlines)
      as [Hlt | Hge].
    + eexists. split.
      * apply SubmitWindowedPoSt_enter; try assumption.
        unfold SubmitWindowedPoSt_tx. apply tx_bind_eq_abort.
        eapply SubmitWindowedPoSt_validate_abort; eassumption.
      * reflexivity.
    + exists s. split; [| reflexivity]. unfold SubmitWindowedPoSt.
      destruct (Z.geb_spec (Deadline params) WPoStPeriodDeadlines)
        as [_ | ?]; [reflexivity | lia].
Qed.
Lemma verifyWindowedPost_ok rt e sectors proofs st u st' :
  verifyWindowedPost rt e sectors proofs st = TxOk u st' -> st' = st.
Proof.
  unfold verifyWindowedPost. destruct (ReceiverID rt); [| discriminate].
  intros Hok. now apply tx_abort_if_ok in Hok as [_ ->].
Qed.

Lemma SubmitWindowedPoSt_verify_ok rt params dl infos st u st' :
  SubmitWindowedPoSt_verify rt params dl infos st = TxOk u st' ->
  st' = st /\ (infos = [] \/ Proofs params <> []).
Proof.
  unfold SubmitWindowedPoSt_verify.
  destruct infos as [| i infos].
  - simpl. unfold tx_ret. intros [= _ <-]. auto.
  - destruct (Z.gtb_spec (Z.of_nat (length (i :: infos))) 0) as [_ | Hle];
      [| simpl in Hle; lia].
    intros Hok. apply tx_bind_ok in Hok as (? & st1 & Hif & Hver).
    apply tx_abort_if_ok in Hif as [Hlen ->].
    apply verifyWindowedPost_ok in Hver as ->.
    split; [reflexivity | right].
    intros E. rewrite E in Hlen. discriminate.
Qed.

(** Inversion of a successful penalty step. *)
Lemma SubmitWindowedPoSt_penalize_ok rt params rewardStats pwrTotal bal
    deadlines deadline postResult st pen st' :
  SubmitWindowedPoSt_penalize rt params rewardStats pwrTotal bal deadlines
    deadline postResult st = TxOk pen st' ->
  exists st1 fromVesting fromBalance,
    let reward := ThisEpochRewardSmoothed rewardStats in
    let power := QualityAdjPowerSmoothed pwrTotal in
    let penaltyPower :=
      QA (NewFaultyPower postResult)
      + QA (RetractedRecoveryPower postResult) in
    PenalizeFundsInPriorityOrder st (CurrEpoch rt)
      (PledgePenaltyForUndeclaredFault reward power penaltyPower
       - PledgePenaltyForDeclaredFault reward power penaltyPower
       + PledgePenaltyForDeclaredFault reward power
           (QA (RecoveredPower postResult)))
      (GetUnlockedBalance st bal)
    = Success (st1, (fromVesting, fromBalance)) /\
    pen = (fromVesting + fromBalance, - fromVesting).
Proof.
  unfold SubmitWindowedPoSt_penalize. cbv zeta. intros Hok.
  apply tx_bind_ok in Hok as (st0 & ? & Hget & Hok).
  unfold tx_get in Hget. injection Hget as <- <-.
  apply tx_bind_ok in Hok as ([fv fb] & st1 & Hpen & Hok).
  apply tx_method_ok in Hpen.
  apply tx_bind_ok in Hok as (dls & ? & Hupd & Hok).
  apply tx_RequireNoErr_ok in Hupd as [_ ->].
  apply tx_bind_ok in Hok as (? & st2 & Hsave & Hok).
  unfold tx_ret in Hok. injection Hok as <- <-.
  exists st1, fv, fb. split; [exact Hpen | ].
  unfold big.Add, big.Sub. f_equal.
Qed.

(** C1.  A call of [SubmitWindowedPoSt] that returns has passed the
    validation and recorded the proven partitions, and has then charged
    the miner, by [PenalizeFundsInPriorityOrder], the target made of the
    undeclared-fault fee on the QA power of the new faults plus the
    retracted recoveries, minus the declared-fault fee on that same power,
    plus the declared-fault fee on the QA power of the recovered sectors. *)
Theorem SubmitWindowedPoSt_penalty_target rt params s u s' :
  SubmitWindowedPoSt rt params s = Returned u s' ->
  exists info currDeadline st1 deadlines deadline postResult sectorInfos
         st2 st3 fromVesting fromBalance,
    SubmitWindowedPoSt_validate rt params (persisted s)
      = TxOk (info, currDeadline) st1 /\
    SubmitWindowedPoSt_record params info currDeadline st1
      = TxOk (deadlines, deadline, postResult, sectorInfos) st2 /\
    let reward := ThisEpochRewardSmoothed (RewardReturn rt) in
    let power := QualityAdjPowerSmoothed (PowerReturn rt) in
    let penaltyPower :=
      QA (NewFaultyPower postResult) + QA (RetractedRecoveryPower postResult) in
    PenalizeFundsInPriorityOrder st2 (CurrEpoch rt)
      (PledgePenaltyForUndeclaredFault reward power penaltyPower
       - PledgePenaltyForDeclaredFault reward power penaltyPower
       + PledgePenaltyForDeclaredFault reward power
           (QA (RecoveredPower postResult)))
      (GetUnlockedBalance st2 (balance s))
    = Success (st3, (fromVesting, fromBalance)).
Proof.
  unfold SubmitWindowedPoSt. intros Hrun.
  apply rt_bind_returned in Hrun as (? & s0 & Hchk & Hrun).
  apply rt_abort_if_returned in Hchk as [_ ->].
  apply rt_bind_returned in Hrun as (rewardStats & s1 & Hrew & Hrun).
  apply requestCurrentEpochBlockReward_returned in Hrew as (_ & -> & ->).
  apply rt_bind_returned in Hrun as (pwrTotal & s2 & Hpow & Hrun).
  apply requestCurrentTotalPower_returned in Hpow as (_ & -> & ->).
  apply rt_bind_returned in Hrun as (bal & s3 & Hbal & Hrun).
  unfold CurrentBalance in Hbal. injection Hbal as <- <-.
  apply rt_bind_returned in Hrun as ([postResult [pt pd]] & s4 & Htx & _).
  apply Transaction_returned in Htx as (st' & Htx & _).
  simpl in Htx. unfold SubmitWindowedPoSt_tx in Htx.
  apply tx_bind_ok in Htx as ([info currDeadline] & st1 & Hval & Htx).
  apply tx_bind_ok in Htx
    as ([[[deadlines deadline] postResult'] sectorInfos] & st2 & Hrec & Htx).
  apply tx_bind_ok in Htx as (? & st2' & Hver & Htx).
  apply SubmitWindowedPoSt_verify_ok in Hver as [-> _].
  apply tx_bind_ok in Htx as (pen & st3' & Hpen & Htx).
  apply SubmitWindowedPoSt_penalize_ok in Hpen
    as (st3 & fv & fb & Hpen & _).
  exists info, currDeadline, st1, deadlines, deadline, postResult',
    sectorInfos, st2, st3, fv, fb.
  auto.
Qed.
Lemma SubmitWindowedPoSt_verify_no_proof rt params dl infos st :
  Proofs params = [] -> infos <> [] ->
  SubmitWindowedPoSt_verify rt params dl infos st
  = TxAbort ErrIllegalArgument.
Proof.
  intros Hnone Hsome. unfold SubmitWindowedPoSt_verify.
  destruct infos as [| i infos]; [contradiction |].
  destruct (Z.gtb_spec (Z.of_nat (length (i :: infos))) 0) as [_ | Hle];
    [| simpl in Hle; lia].
  rewrite Hnone. reflexivity.
Qed.

(** C10.  A call of [SubmitWindowedPoSt] without a proof that has passed
    the validation and recorded its partitions aborts with
    [ErrIllegalArgument], past the two requests to the reward and power
    actors, when a sector is left to prove; so such a call returns only
    when the recording leaves no sector to prove. *)
Theorem SubmitWindowedPoSt_zero_proofs rt params s info currDeadline st1
    deadlines deadline postResult sectorInfos st2 :
  Proofs params = [] ->
  Deadline params < WPoStPeriodDeadlines ->
  SendExit rt Reward_ThisEpochReward = Ok ->
  SendExit rt Power_CurrentTotalPower = Ok ->
  SubmitWindowedPoSt_validate rt params (persisted s)
    = TxOk (info, currDeadline) st1 ->
  SubmitWindowedPoSt_record params info currDeadline st1
    = TxOk (deadlines, deadline, postResult, sectorInfos) st2 ->
  (sectorInfos <> [] ->
   SubmitWindowedPoSt rt params s
   = Aborted ErrIllegalArgument
       (sent_more s [Reward_ThisEpochReward; Power_CurrentTotalPower]))
  /\ (forall u s', SubmitWindowedPoSt rt params s = Returned u s' ->
                   sectorInfos = []).
Proof.
  intros Hnone Hdl Hrew Hpow Hval Hrec.
  assert (Habort : sectorInfos <> [] ->
    SubmitWindowedPoSt rt params s
    = Aborted ErrIllegalArgument
        (sent_more s [Reward_ThisEpochReward; Power_CurrentTotalPower])).
  { intros Hsome. apply SubmitWindowedPoSt_enter; try assumption.
    unfold SubmitWindowedPoSt_tx.
    rewrite (tx_bind_eq _ _ _ _ _ Hval).
    rewrite (tx_bind_eq _ _ _ _ _ Hrec).
    apply tx_bind_eq_abort.
    now apply SubmitWindowedPoSt_verify_no_proof. }
  split; [exact Habort |].
  intros u s' Hrun. destruct sectorInfos as [| i l]; [reflexivity |].
  rewrite Habort in Hrun by discriminate. discriminate.
Qed.

End SubmitWindowedPoStProperties.

(** ** Messages *)

Lemma enrollments_app ms ms' :
  enrollments (ms ++ ms') = enrollments ms ++ enrollments ms'.
Proof. unfold enrollments. apply List.filter_app. Qed.

Section MessageProperties.

Context {SM : Smoothing} {NW : Network} {ER : Errors} {PO : Policy}
        {SR : Structures} {SO : StateOps}.

Lemma Send_accepted rt m s :
  SendExit rt m = Ok ->
  Send rt m s = Returned Ok
    {| persisted := persisted s; balance := balance s - Message_value m;
       sent := sent s ++ [m] |}.
Proof. intros Hok. unfold Send. now rewrite Hok. Qed.

Lemma send_returned rt m s u s' :
  rt_bind (Send rt m) RequireSuccess s = Returned u s' ->
  s' = {| persisted := persisted s; balance := balance s - Message_value m;
          sent := sent s ++ [m] |}.
Proof.
  unfold rt_bind, Send, RequireSuccess.
  destruct (SendExit rt m); simpl; try discriminate.
  unfold rt_ret. now intros [= <-].
Qed.

Lemma burnFunds_returned rt amt s u s' :
  burnFunds rt amt s = Returned u s' ->
  persisted s' = persisted s /\
  sent s' = sent s ++ (if 0 <? amt then [MethodSend BurntFundsActorAddr amt]
                       else []).
Proof.
  unfold burnFunds, big.GreaterThan, big.Zero. rewrite Z.gtb_ltb.
  destruct (0 <? amt).
  - intros Hs. apply send_returned in Hs as ->. split; reflexivity.
  - unfold rt_ret. intros Heq. inversion Heq; subst.
    rewrite app_nil_r. split; reflexivity.
Qed.

Lemma notifyPledgeChanged_returned rt delta s u s' :
  notifyPledgeChanged rt delta s = Returned u s' ->
  persisted s' = persisted s /\
  sent s' = sent s ++ (if delta =? 0 then []
                       else [Power_UpdatePledgeTotal delta]).
Proof.
  unfold notifyPledgeChanged, big.IsZero.
  destruct (delta =? 0); cbn [negb].
  - unfold rt_ret. intros Heq. inversion Heq; subst.
    rewrite app_nil_r. split; reflexivity.
  - intros Hs. apply send_returned in Hs as ->. split; reflexivity.
Qed.

Lemma quiet_ret {A} (a : A) : quiet (rt_ret a).
Proof. intros s a' s'. unfold rt_ret. intros [= _ <-]. auto. Qed.

Lemma quiet_bind {A B} (m : Rt A) (k : A -> Rt B) :
  quiet m -> (forall a, quiet (k a)) -> quiet (rt_bind m k).
Proof.
  intros Hm Hk s b s' Hrun.
  apply rt_bind_returned in Hrun as (a & s1 & H1 & H2).
  apply Hm in H1 as [Hp1 He1]. apply Hk in H2 as [Hp2 He2].
  split; congruence.
Qed.

Lemma quiet_Send rt m :
  is_EarlyTerminationEnrollment m = false -> quiet (Send rt m).
Proof.
  intros Hm s c s'. unfold Send. intros [= _ <-]. simpl.
  split; [reflexivity |].
  rewrite enrollments_app. simpl. rewrite Hm. apply app_nil_r.
Qed.

Lemma quiet_RequireSuccess code : quiet (RequireSuccess code).
Proof.
  unfold RequireSuccess. destruct (IsSuccess code); [apply quiet_ret |].
  intros s a s'. discriminate.
Qed.

Lemma quiet_message rt m :
  is_EarlyTerminationEnrollment m = false ->
  quiet (rt_bind (Send rt m) RequireSuccess).
Proof.
  intros Hm. apply quiet_bind; [now apply quiet_Send |].
  intros code. apply quiet_RequireSuccess.
Qed.

Lemma quiet_requestUpdatePower rt delta : quiet (requestUpdatePower rt delta).
Proof.
  unfold requestUpdatePower. destruct (PowerPair_IsZero delta);
    [apply quiet_ret | now apply quiet_message].
Qed.

Lemma quiet_burnFunds rt amt : quiet (burnFunds rt amt).
Proof.
  unfold burnFunds. destruct (big.GreaterThan amt big.Zero);
    [now apply quiet_message | apply quiet_ret].
Qed.

Lemma quiet_notifyPledgeChanged rt delta :
  quiet (notifyPledgeChanged rt delta).
Proof.
  unfold notifyPledgeChanged. destruct (negb (big.IsZero delta));
    [now apply quiet_message | apply quiet_ret].
Qed.

Lemma quiet_requestTerminateDeals_loop rounds rt epoch dealIDs :
  quiet (requestTerminateDeals_loop rounds rt epoch dealIDs).
Proof.
  revert dealIDs. induction rounds as [| rounds IH]; intros dealIDs; simpl.
  - apply quiet_ret.
  - destruct (0 <? Z.of_nat (length dealIDs)); [| apply quiet_ret].
    apply quiet_bind; [now apply quiet_Send |]. intros code.
    apply quiet_bind; [apply quiet_RequireSuccess |]. intros _.
    apply IH.
Qed.

Lemma quiet_requestTerminateDeals_all rt deals :
  quiet (requestTerminateDeals_all rt deals).
Proof.
  induction deals as [| [epoch dealIDs] rest IH]; simpl.
  - apply quiet_ret.
  - apply quiet_bind; [apply quiet_requestTerminateDeals_loop |].
    intros _. exact IH.
Qed.

Lemma quiet_request rt m {A} (a : A) :
  is_EarlyTerminationEnrollment m = false ->
  quiet (rt_bind (Send rt m)
           (fun code => rt_bind (RequireSuccess code) (fun _ => rt_ret a))).
Proof.
  intros Hm. apply quiet_bind; [now apply quiet_Send |]. intros code.
  apply quiet_bind; [apply quiet_RequireSuccess |]. intros _.
  apply quiet_ret.
Qed.

End MessageProperties.

(** ** The end-of-deadline cron *)

Lemma PowerPair_Add_zero_l p : PowerPair_Add NewPowerPairZero p = p.
Proof. destruct p. reflexivity. Qed.

Section CronProperties.

Context {SM : Smoothing} {NW : Network} {ER : Errors} {PO : Policy}
        {SR : Structures} {SO : StateOps}.

Lemma handleProvingDeadline_tx_ok rt epochReward pwrTotal bal st r st' :
  handleProvingDeadline_tx rt epochReward pwrTotal bal st = TxOk r st' ->
  exists st1 newlyVested st2 depositToBurn st3 result fromVesting fromBalance,
    UnlockVestedFunds st (CurrEpoch rt) = Success (st1, newlyVested) /\
    ExpirePreCommits st1 (CurrEpoch rt) = Success (st2, depositToBurn) /\
    AdvanceDeadline st2 (CurrEpoch rt) = Success (st3, result) /\
    let reward := ThisEpochRewardSmoothed epochReward in
    let power := QualityAdjPowerSmoothed pwrTotal in
    let penaltyTarget :=
      PledgePenaltyForUndeclaredFault reward power
        (QA (DetectedFaultyPower result))
      + PledgePenaltyForDeclaredFault reward power
          (QA (TotalFaultyPower result) - QA (DetectedFaultyPower result)) in
    (if penaltyTarget =? 0 then
       st' = st3 /\ fromVesting = 0 /\ fromBalance = 0
     else
       PenalizeFundsInPriorityOrder st3 (CurrEpoch rt) penaltyTarget
         (GetUnlockedBalance st3 bal)
       = Success (st', (fromVesting, fromBalance))) /\
    r = (havePendingEarlyTerminations st2, adr_PowerDelta result,
         depositToBurn + fromVesting + fromBalance,
         - newlyVested + adr_PledgeDelta result - fromVesting).
Proof.
  unfold handleProvingDeadline_tx. cbv zeta. intros Hok.
  apply tx_bind_ok in Hok as (newlyVested & st1 & Hvest & Hok).
  apply tx_method_ok in Hvest.
  apply tx_bind_ok in Hok as (depositToBurn & st2 & Hexp & Hok).
  apply tx_method_ok in Hexp.
  apply tx_bind_ok in Hok as (st2' & ? & Hget & Hok).
  unfold tx_get in Hget. injection Hget as <- <-.
  apply tx_bind_ok in Hok as (result & st3 & Hadv & Hok).
  apply tx_method_ok in Hadv.
  exists st1, newlyVested, st2, depositToBurn, st3, result.
  unfold big.Add, big.Sub, big.Neg, big.IsZero in *.
  rewrite (Z.add_comm (PledgePenaltyForUndeclaredFault _ _ _)).
  destruct (_ + _ =? 0) eqn:Hzero; cbn [negb] in Hok.
  - unfold tx_ret in Hok. injection Hok as <- <-.
    exists 0, 0. repeat split; try assumption.
    rewrite PowerPair_Add_zero_l, !Z.add_0_l, !Z.add_0_r, Z.sub_0_r.
    reflexivity.
  - apply tx_bind_ok in Hok as (st3' & ? & Hget & Hok).
    unfold tx_get in Hget. injection Hget as <- <-.
    apply tx_bind_ok in Hok as ([fv fb] & st4 & Hpen & Hok).
    apply tx_method_ok in Hpen.
    unfold tx_ret in Hok. injection Hok as <- <-.
    exists fv, fb. repeat split; try assumption.
    rewrite PowerPair_Add_zero_l, !Z.add_0_l. reflexivity.
Qed.

(** C2.  In a call of [handleProvingDeadline] that returns, the deadline
    is advanced after vested funds are unlocked and pre-commitments
    expired, and the penalty target is the undeclared-fault fee on the
    detected faulty QA power plus the declared-fault fee on the total
    faulty QA power less the detected one; a non-zero target is charged by
    [PenalizeFundsInPriorityOrder], and what is taken enters the burnt
    total and the pledge delta of the call. *)
Theorem handleProvingDeadline_penalty_target rt s u s' :
  handleProvingDeadline rt s = Returned u s' ->
  exists st1 newlyVested st2 depositToBurn st3 result st4
         fromVesting fromBalance,
    UnlockVestedFunds (persisted s) (CurrEpoch rt)
      = Success (st1, newlyVested) /\
    ExpirePreCommits st1 (CurrEpoch rt) = Success (st2, depositToBurn) /\
    AdvanceDeadline st2 (CurrEpoch rt) = Success (st3, result) /\
    let reward := ThisEpochRewardSmoothed (RewardReturn rt) in
    let power := QualityAdjPowerSmoothed (PowerReturn rt) in
    let penaltyTarget :=
      PledgePenaltyForUndeclaredFault reward power
        (QA (DetectedFaultyPower result))
      + PledgePenaltyForDeclaredFault reward power
          (QA (TotalFaultyPower result) - QA (DetectedFaultyPower result)) in
    (if penaltyTarget =? 0 then
       st4 = st3 /\ fromVesting = 0 /\ fromBalance = 0
     else
       PenalizeFundsInPriorityOrder st3 (CurrEpoch rt) penaltyTarget
         (GetUnlockedBalance st3 (balance s))
       = Success (st4, (fromVesting, fromBalance))) /\
    handleProvingDeadline_tx rt (RewardReturn rt) (PowerReturn rt)
      (balance s) (persisted s)
    = TxOk (havePendingEarlyTerminations st2, adr_PowerDelta result,
            depositToBurn + fromVesting + fromBalance,
            - newlyVested + adr_PledgeDelta result - fromVesting) st4.
Proof.
  unfold handleProvingDeadline. cbv zeta. intros Hrun.
  apply rt_bind_returned in Hrun as (rewardStats & s1 & Hrew & Hrun).
  apply requestCurrentEpochBlockReward_returned in Hrew as (_ & -> & ->).
  apply rt_bind_returned in Hrun as (pwrTotal & s2 & Hpow & Hrun).
  apply requestCurrentTotalPower_returned in Hpow as (_ & -> & ->).
  apply rt_bind_returned in Hrun as (bal & s3 & Hbal & Hrun).
  unfold CurrentBalance in Hbal. injection Hbal as <- <-.
  apply rt_bind_returned in Hrun as (r & s4 & Htx & _).
  apply Transaction_returned in Htx as (st' & Htx & _).
  simpl in Htx.
  destruct (handleProvingDeadline_tx_ok _ _ _ _ _ _ _ Htx)
    as (st1 & nv & st2 & dtb & st3 & result & fv & fb & H1 & H2 & H3 & H4 & ->).
  exists st1, nv, st2, dtb, st3, result, st', fv, fb.
  repeat split; assumption.
Qed.

End CronProperties.

(** ** WithdrawBalance *)

Lemma BitField_Count_pos (b : BitField) :
  b <> ∅ <-> (BitField_Count b >? 0) = true.
Proof.
  unfold BitField_Count. rewrite Z.gtb_gt.
  split.
  - intros Hne.
    assert (size b <> 0%nat); [| lia].
    intros Hz. apply size_empty_iff in Hz. apply Hne.
    now apply leibniz_equiv.
  - intros Hpos Hb. subst b. rewrite size_empty in Hpos. lia.
Qed.

Section WithdrawBalanceProperties.

Context {SM : Smoothing} {NW : Network} {ER : Errors} {PO : Policy}
        {SR : Structures} {SO : StateOps}.

Lemma WithdrawBalance_tx_forbidden rt bal st info :
  GetInfo st = Success info ->
  Caller rt = Owner info ->
  EarlyTerminations st <> ∅ ->
  WithdrawBalance_tx rt bal st = TxAbort ErrForbidden.
Proof.
  intros Hinfo Hcaller Hearly. unfold WithdrawBalance_tx.
  rewrite (tx_bind_eq _ _ _ _ _ (getMinerInfo_eq _ _ Hinfo)).
  unfold ValidateImmediateCallerIs.
  rewrite Hcaller. simpl existsb. rewrite N.eqb_refl. simpl negb.
  rewrite (tx_bind_eq _ _ _ _ _ (tx_abort_if_false _ _)).
  unfold tx_get at 1. unfold tx_bind at 1. cbv zeta.
  apply tx_bind_eq_abort.
  rewrite (proj1 (BitField_Count_pos _) Hearly). reflexivity.
Qed.

Lemma VerifyPledgeRequirementsAndRepayDebts_ok bal st toBurn st' :
  VerifyPledgeRequirementsAndRepayDebts bal st = TxOk toBurn st' ->
  RepayDebt st bal = Success (st', toBurn) /\
  MeetsInitialPledgeCondition st' (bal - toBurn) = true.
Proof.
  unfold VerifyPledgeRequirementsAndRepayDebts.
  destruct (RepayDebt st bal) as [[st1 burn] | e]; [| discriminate].
  unfold big.Sub.
  destruct (MeetsInitialPledgeCondition st1 (bal - burn)) eqn:Hmeets;
    [| discriminate].
  intros [= <- <-]. auto.
Qed.

Lemma WithdrawBalance_tx_ok rt bal st r st' :
  WithdrawBalance_tx rt bal st = TxOk r st' ->
  exists info st1 newlyVested feeToBurn,
    GetInfo st = Success info /\ Caller rt = Owner info /\
    EarlyTerminations st = ∅ /\
    UnlockVestedFunds st (CurrEpoch rt) = Success (st1, newlyVested) /\
    RepayDebt st1 bal = Success (st', feeToBurn) /\
    r = (info, newlyVested, GetAvailableBalance st1 bal, feeToBurn).
Proof.
  unfold WithdrawBalance_tx. intros Hok.
  apply tx_bind_ok in Hok as (info & st0 & Hinfo & Hok).
  apply tx_read_ok in Hinfo as [Hinfo ->].
  apply tx_bind_ok in Hok as (? & st0 & Hcaller & Hok).
  apply ValidateImmediateCallerIs_ok in Hcaller as [Hcaller ->].
  apply tx_bind_ok in Hok as (st0 & ? & Hget & Hok).
  unfold tx_get in Hget. injection Hget as <- <-. cbv zeta in Hok.
  apply tx_bind_ok in Hok as (? & st0 & Hcount & Hok).
  apply tx_abort_if_ok in Hcount as [Hcount ->].
  apply tx_bind_ok in Hok as (newlyVested & st1 & Hvest & Hok).
  destruct (UnlockVestedFunds st (CurrEpoch rt)) as [[st1' nv] | e] eqn:Hv;
    [| discriminate].
  injection Hvest as <- <-.
  apply tx_bind_ok in Hok as (st1'' & ? & Hget & Hok).
  unfold tx_get in Hget. injection Hget as <- <-.
  apply tx_bind_ok in Hok as (feeToBurn & st2 & Hrepay & Hok).
  apply VerifyPledgeRequirementsAndRepayDebts_ok in Hrepay as [Hrepay _].
  unfold tx_ret in Hok. injection Hok as <- <-.
  exists info, st1', nv, feeToBurn. repeat split; try assumption.
  - destruct Hcaller as [E | []]. now symmetry.
  - destruct (decide (EarlyTerminations st = ∅)) as [E | E]; [exact E |].
    apply BitField_Count_pos in E. congruence.
Qed.

(** C6, amended.  For a requested amount that is not negative and a miner
    info that loads: with early terminations pending [WithdrawBalance],
    called by the owner, aborts with [ErrForbidden] and leaves the state
    as it was; and a call that returns had none pending, came from the
    owner, has repaid the fee debt in the state it leaves, and has sent,
    in this order, the minimum of the requested amount and the available
    balance to the owner (when positive), the repaid debt to the
    burnt-funds actor (when positive) and the change of pledge to the
    power actor (when funds vested). *)
Theorem WithdrawBalance_early_terminations rt params s info :
  0 <= AmountRequested params ->
  GetInfo (persisted s) = Success info ->
  (Caller rt = Owner info ->
   EarlyTerminations (persisted s) <> ∅ ->
   WithdrawBalance rt params s = Aborted ErrForbidden s)
  /\ (forall u s',
        WithdrawBalance rt params s = Returned u s' ->
        EarlyTerminations (persisted s) = ∅ /\
        Caller rt = Owner info /\
        exists st1 newlyVested st2 feeToBurn,
          UnlockVestedFunds (persisted s) (CurrEpoch rt)
            = Success (st1, newlyVested) /\
          RepayDebt st1 (balance s) = Success (st2, feeToBurn) /\
          persisted s' = st2 /\
          let amountWithdrawn :=
            Z.min (AmountRequested params)
              (GetAvailableBalance st1 (balance s)) in
          sent s' =
            sent s
            ++ (if 0 <? amountWithdrawn
                then [MethodSend (Owner info) amountWithdrawn] else [])
            ++ (if 0 <? feeToBurn
                then [MethodSend BurntFundsActorAddr feeToBurn] else [])
            ++ (if newlyVested =? 0 then []
                else [Power_UpdatePledgeTotal (- newlyVested)])).
Proof.
  intros Hamount Hinfo. split.
  - intros Hcaller Hearly. unfold WithdrawBalance, big.LessThan, big.Zero.
    destruct (Z.ltb_spec (AmountRequested params) 0); [lia |].
    unfold rt_abort_if, rt_ret. unfold rt_bind at 1.
    unfold CurrentBalance. unfold rt_bind at 1.
    apply rt_bind_eq_abort, Transaction_eq_abort.
    now apply WithdrawBalance_tx_forbidden with info.
  - intros u s'. unfold WithdrawBalance. intros Hrun.
    apply rt_bind_returned in Hrun as (? & s0 & Hchk & Hrun).
    apply rt_abort_if_returned in Hchk as [_ ->].
    apply rt_bind_returned in Hrun as (bal & s0 & Hbal & Hrun).
    unfold CurrentBalance in Hbal. injection Hbal as <- <-.
    apply rt_bind_returned in Hrun as (r & s1 & Htx & Hrun).
    apply Transaction_returned in Htx as (st2 & Htx & ->).
    apply WithdrawBalance_tx_ok in Htx
      as (info' & st1 & nv & fee & Hinfo' & Hcaller & Hearly & Hvest
          & Hrepay & ->).
    rewrite Hinfo in Hinfo'. injection Hinfo' as <-.
    cbv zeta in Hrun. unfold big.Min, big.GreaterThan in Hrun.
    apply rt_bind_returned in Hrun as (? & s2 & Has1 & Hrun).
    apply rt_Assert_returned in Has1 as [_ ->].
    apply rt_bind_returned in Hrun as (? & s2 & Has2 & Hrun).
    apply rt_Assert_returned in Has2 as [_ ->].
    apply rt_bind_returned in Hrun as (? & s2 & Hsend & Hrun).
    apply rt_bind_returned in Hrun as (? & s3 & Hburn & Hrun).
    apply burnFunds_returned in Hburn as [Hp3 Hs3].
    apply rt_bind_returned in Hrun as (? & s4 & Hnot & Hrun).
    apply notifyPledgeChanged_returned in Hnot as [Hp4 Hs4].
    apply rt_bind_returned in Hrun as (st & s5 & Hst & Hrun).
    unfold rt_state in Hst. injection Hst as <- <-.
    apply rt_bind_returned in Hrun as (bal5 & s5 & Hbal & Hrun).
    unfold CurrentBalance in Hbal. injection Hbal as <- <-.
    apply rt_Assert_returned in Hrun as [_ ->].
    split; [exact Hearly |]. split; [exact Hcaller |].
    exists st1, nv, st2, fee. split; [exact Hvest |].
    split; [exact Hrepay |].
    assert (Hmin :
      (if GetAvailableBalance st1 (balance s) <? AmountRequested params
       then GetAvailableBalance st1 (balance s) else AmountRequested params)
      = Z.min (AmountRequested params) (GetAvailableBalance st1 (balance s))).
    { destruct (Z.ltb_spec (GetAvailableBalance st1 (balance s))
                  (AmountRequested params)); lia. }
    rewrite Hmin in Hsend. cbv zeta.
    set (amount := Z.min (AmountRequested params)
                     (GetAvailableBalance st1 (balance s))) in *.
    assert (Hs2 : persisted s2 = st2 /\
                  sent s2 = sent s ++ (if 0 <? amount
                                       then [MethodSend (Owner info) amount]
                                       else [])).
    { rewrite Z.gtb_ltb in Hsend. destruct (0 <? amount).
      - apply send_returned in Hsend as ->. split; reflexivity.
      - unfold rt_ret in Hsend. inversion Hsend; subst. simpl.
        rewrite app_nil_r. split; reflexivity. }
    destruct Hs2 as [Hp2 Hs2].
    split; [congruence |].
    rewrite Hs4, Hs3, Hs2. unfold big.Neg.
    rewrite <- !app_assoc.
    replace (- nv =? 0) with (nv =? 0); [reflexivity |].
    destruct (Z.eqb_spec nv 0), (Z.eqb_spec (- nv) 0); lia.
Qed.

End WithdrawBalanceProperties.

(** ** PreCommitSector *)

Section PreCommitSectorProperties.

Context {SM : Smoothing} {NW : Network} {ER : Errors} {PO : Policy}
        {SR : Structures} {SO : StateOps}.

Lemma validateReplaceSector_ok params st r st' :
  validateReplaceSector params st = TxOk r st' ->
  st' = st /\ GetSector st (ReplaceSectorNumber params) = Success (Some r).
Proof.
  unfold validateReplaceSector. intros Hok.
  apply tx_bind_ok in Hok as (found & st0 & Hget & Hok).
  apply tx_read_ok in Hget as [Hget ->].
  destruct found as [replaceSector |]; [| discriminate].
  apply tx_bind_ok in Hok as (? & st0 & H1 & Hok).
  apply tx_abort_if_ok in H1 as [_ ->].
  apply tx_bind_ok in Hok as (? & st0 & H2 & Hok).
  apply tx_abort_if_ok in H2 as [_ ->].
  apply tx_bind_ok in Hok as (? & st0 & H3 & Hok).
  apply tx_abort_if_ok in H3 as [_ ->].
  apply tx_bind_ok in Hok as (? & st0 & H4 & Hok).
  apply tx_read_ok in H4 as [_ ->].
  unfold tx_ret in Hok. injection Hok as <- <-. auto.
Qed.

(** The deposit step, given the replaced sector when capacity is
    replaced. *)
Lemma PreCommitSector_deposit_eq rt params rewardStats pwrTotal dealWeight
    bal availableBalance info st replaceSector :
  (ReplaceCapacity params = true ->
   validateReplaceSector params st = TxOk replaceSector st) ->
  let depositMinimum :=
    if ReplaceCapacity params then InitialPledge replaceSector else 0 in
  let sectorWeight :=
    QAPowerForWeight (mi_SectorSize info)
      (wrap64 (Expiration params - CurrEpoch rt))
      (vd_DealWeight dealWeight) (vd_VerifiedDealWeight dealWeight) in
  let depositReq :=
    Z.max
      (PreCommitDepositForPower (ThisEpochRewardSmoothed rewardStats)
         (QualityAdjPowerSmoothed pwrTotal) sectorWeight)
      depositMinimum in
  PreCommitSector_deposit rt params rewardStats pwrTotal dealWeight bal
    availableBalance info st
  = if availableBalance <? depositReq then TxAbort ErrInsufficientFunds
    else if AssertBalanceInvariants (AddPreCommitDeposit st depositReq) bal
         then TxOk depositReq (AddPreCommitDeposit st depositReq)
         else TxAbort SysErrPanic.
Proof.
  intros Hreplace. cbv zeta. unfold PreCommitSector_deposit.
  assert (Hmin :
    (if ReplaceCapacity params
     then tx_bind (validateReplaceSector params)
            (fun replaceSector => tx_ret (InitialPledge replaceSector))
     else tx_ret big.Zero) st
    = TxOk (if ReplaceCapacity params then InitialPledge replaceSector
            else 0) st).
  { destruct (ReplaceCapacity params); [| reflexivity].
    now rewrite (tx_bind_eq _ _ _ _ _ (Hreplace eq_refl)). }
  rewrite (tx_bind_eq _ _ _ _ _ Hmin). cbv zeta.
  rewrite big_Max_spec. unfold big.LessThan.
  destruct (availableBalance <? _); [reflexivity |].
  rewrite (tx_bind_eq _ _ _ _ _ (tx_abort_if_false _ _)).
  unfold tx_get, tx_put, tx_bind, tx_abort_if, tx_ret, tx_Abortf.
  destruct (AssertBalanceInvariants _ _); reflexivity.
Qed.

Lemma requestDealWeight_returned rt dealIDs start expiry s r s' :
  requestDealWeight rt dealIDs start expiry s = Returned r s' ->
  SendExit rt (Market_VerifyDealsForActivation dealIDs start expiry) = Ok /\
  r = DealWeightReturn rt dealIDs start expiry /\
  s' = sent_more s [Market_VerifyDealsForActivation dealIDs start expiry].
Proof. apply request_returned. reflexivity. Qed.

(** The handler up to its transaction. *)
Lemma PreCommitSector_enter rt params s :
  PreCommitSector_checks rt params s = Returned tt s ->
  SendExit rt Reward_ThisEpochReward = Ok ->
  SendExit rt Power_CurrentTotalPower = Ok ->
  SendExit rt (Market_VerifyDealsForActivation (DealIDs params)
                 (CurrEpoch rt) (Expiration params)) = Ok ->
  forall c,
  PreCommitSector_tx rt params (RewardReturn rt) (PowerReturn rt)
    (DealWeightReturn rt (DealIDs params) (CurrEpoch rt) (Expiration params))
    (balance s) (persisted s) = TxAbort c ->
  PreCommitSector rt params s =
    Aborted c
      (sent_more s
         [Reward_ThisEpochReward; Power_CurrentTotalPower;
          Market_VerifyDealsForActivation (DealIDs params) (CurrEpoch rt)
            (Expiration params)]).
Proof.
  intros Hchk Hrew Hpow Hdeal c Htx. unfold PreCommitSector.
  rewrite (rt_bind_eq _ _ _ _ _ Hchk).
  unfold requestCurrentEpochBlockReward, requestCurrentTotalPower,
    requestDealWeight.
  unfold rt_bind, Send, RequireSuccess, rt_ret, CurrentBalance, Transaction.
  rewrite Hrew, Hpow, Hdeal. simpl. rewrite !Z.sub_0_r, Htx.
  unfold sent_more. simpl. now rewrite <- !app_assoc.
Qed.

(** The replaced sector passes its validation. *)
Lemma validateReplaceSector_eq params st replaceSector :
  GetSector st (ReplaceSectorNumber params) = Success (Some replaceSector) ->
  so_DealIDs replaceSector = [] ->
  SealProof params = so_SealProof replaceSector ->
  so_Expiration replaceSector <= Expiration params ->
  CheckSectorHealth st (ReplaceSectorDeadline params)
    (ReplaceSectorPartition params) (ReplaceSectorNumber params)
    = Success tt ->
  validateReplaceSector params st = TxOk replaceSector st.
Proof.
  intros Hget Hdeals Hproof Hexp Hhealth. unfold validateReplaceSector.
  assert (H1 : tx_read (fun st => GetSector st (ReplaceSectorNumber params))
                 ErrIllegalState st = TxOk (Some replaceSector) st).
  { unfold tx_read. now rewrite Hget. }
  rewrite (tx_bind_eq _ _ _ _ _ H1).
  rewrite Hdeals. simpl length. simpl Z.of_nat.
  change (0 >? 0) with false.
  rewrite (tx_bind_eq _ _ _ _ _ (tx_abort_if_false _ _)).
  rewrite Hproof, Z.eqb_refl. cbn [negb].
  rewrite (tx_bind_eq _ _ _ _ _ (tx_abort_if_false _ _)).
  destruct (Z.ltb_spec (Expiration params) (so_Expiration replaceSector));
    [lia |].
  rewrite (tx_bind_eq _ _ _ _ _ (tx_abort_if_false _ _)).
  assert (H2 : tx_read
                 (fun st => CheckSectorHealth st
                              (ReplaceSectorDeadline params)
                              (ReplaceSectorPartition params)
                              (ReplaceSectorNumber params))
                 ErrIllegalState st = TxOk tt st).
  { unfold tx_read. now rewrite Hhealth. }
  now rewrite (tx_bind_eq _ _ _ _ _ H2).
Qed.

(** The closure up to the deposit, when every check passes. *)
Lemma PreCommitSector_admit_eq rt params bal st stV newlyVested stD
    feeToBurn info st1 :
  UnlockVestedFunds st (CurrEpoch rt) = Success (stV, newlyVested) ->
  RepayDebt stV bal = Success (stD, feeToBurn) ->
  MeetsInitialPledgeCondition stD (bal - feeToBurn) = true ->
  GetInfo stD = Success info ->
  In (Caller rt) (ControlAddresses info ++ [Owner info; Worker info]) ->
  ConsensusFaultActive info (CurrEpoch rt) = false ->
  SealProof params = SealProofType info ->
  Z.of_nat (length (DealIDs params)) <= SectorDealsMax (mi_SectorSize info) ->
  AllocateSectorNumber stD (SectorNumber_of params) = Success st1 ->
  GetPrecommittedSector st1 (SectorNumber_of params) = Success None ->
  HasSectorNo st1 (SectorNumber_of params) = Success false ->
  PreCommitSector_admit rt params bal st
  = TxOk (newlyVested, GetAvailableBalance stV bal, feeToBurn, info) st1.
Proof.
  intros Hunl Hrepay Hmeets Hinfo Hcaller Hfault Hproof Hdeals Halloc Hpre
    Hhas.
  unfold PreCommitSector_admit.
  assert (H1 : tx_method (fun st => UnlockVestedFunds st (CurrEpoch rt))
                 ErrIllegalState st = TxOk newlyVested stV).
  { unfold tx_method. now rewrite Hunl. }
  rewrite (tx_bind_eq _ _ _ _ _ H1).
  unfold tx_get at 1, tx_bind at 1. cbv zeta.
  assert (H2 : VerifyPledgeRequirementsAndRepayDebts bal stV
               = TxOk feeToBurn stD).
  { unfold VerifyPledgeRequirementsAndRepayDebts. rewrite Hrepay.
    unfold big.Sub. now rewrite Hmeets. }
  rewrite (tx_bind_eq _ _ _ _ _ H2).
  rewrite (tx_bind_eq _ _ _ _ _ (getMinerInfo_eq _ _ Hinfo)).
  assert (H3 : ValidateImmediateCallerIs rt
                 (ControlAddresses info ++ [Owner info; Worker info]) stD
               = TxOk tt stD).
  { unfold ValidateImmediateCallerIs.
    replace (existsb _ _) with true; [reflexivity |].
    symmetry. apply existsb_exists. exists (Caller rt).
    split; [exact Hcaller | apply N.eqb_refl]. }
  rewrite (tx_bind_eq _ _ _ _ _ H3).
  rewrite Hfault, (tx_bind_eq _ _ _ _ _ (tx_abort_if_false _ _)).
  rewrite Hproof, Z.eqb_refl. cbn [negb].
  rewrite (tx_bind_eq _ _ _ _ _ (tx_abort_if_false _ _)).
  destruct (Z.gtb_spec (Z.of_nat (length (DealIDs params)))
              (SectorDealsMax (mi_SectorSize info))); [lia |].
  rewrite (tx_bind_eq _ _ _ _ _ (tx_abort_if_false _ _)).
  assert (H4 : tx_update
                 (fun st => AllocateSectorNumber st (SectorNumber_of params))
                 ErrIllegalState stD = TxOk tt st1).
  { unfold tx_update, tx_method. now rewrite Halloc. }
  rewrite (tx_bind_eq _ _ _ _ _ H4).
  assert (H5 : tx_read
                 (fun st => GetPrecommittedSector st (SectorNumber_of params))
                 ErrIllegalState st1 = TxOk None st1).
  { unfold tx_read. now rewrite Hpre. }
  rewrite (tx_bind_eq _ _ _ _ _ H5).
  assert (H6 : tx_abort_if
                 (bool_decide (is_Some (@None SectorPreCommitOnChainInfo)))
                 ErrIllegalState st1 = TxOk tt st1).
  { rewrite bool_decide_eq_false_2; [reflexivity |].
    intros [x Hx]. discriminate. }
  rewrite (tx_bind_eq _ _ _ _ _ H6).
  assert (H7 : tx_read (fun st => HasSectorNo st (SectorNumber_of params))
                 ErrIllegalState st1 = TxOk false st1).
  { unfold tx_read. now rewrite Hhas. }
  rewrite (tx_bind_eq _ _ _ _ _ H7).
  rewrite (tx_bind_eq _ _ _ _ _ (tx_abort_if_false _ _)).
  reflexivity.
Qed.

(** C8.  In a call of [PreCommitSector] whose parameters pass the checks,
    whose requests are answered and whose closure reaches the deposit
    (vested funds unlocked, fee debt repaid and the pledge still met, the
    caller an address of the miner without an active consensus fault, the
    seal proof and the number of deals in order, the sector number new,
    the replaced sector found healthy, without deals, of the same proof
    and of no later expiration), the deposit required is the maximum of
    the pre-commit deposit for the QA power of the sector, which is its
    expected reward over the pre-commit projection period, and of the
    initial pledge of the replaced sector when capacity is replaced (zero
    otherwise).  The available balance is the one of the state left by
    the unlocking of vested funds.  When it is below the deposit the call
    aborts with [ErrInsufficientFunds] past its three requests, nothing
    persisted.  A call that returns had at least the deposit available and
    persists the state in which the deposit is added to the pre-commit
    deposits, the pre-commitment stored with that deposit and its expiry
    queued. *)
Theorem PreCommitSector_deposit_reserved rt params s stV newlyVested stD
    feeToBurn info st1 replaceSector :
  PreCommitSector_checks rt params s = Returned tt s ->
  SendExit rt Reward_ThisEpochReward = Ok ->
  SendExit rt Power_CurrentTotalPower = Ok ->
  SendExit rt (Market_VerifyDealsForActivation (DealIDs params)
                 (CurrEpoch rt) (Expiration params)) = Ok ->
  UnlockVestedFunds (persisted s) (CurrEpoch rt)
    = Success (stV, newlyVested) ->
  RepayDebt stV (balance s) = Success (stD, feeToBurn) ->
  MeetsInitialPledgeCondition stD (balance s - feeToBurn) = true ->
  GetInfo stD = Success info ->
  In (Caller rt) (ControlAddresses info ++ [Owner info; Worker info]) ->
  ConsensusFaultActive info (CurrEpoch rt) = false ->
  SealProof params = SealProofType info ->
  Z.of_nat (length (DealIDs params)) <= SectorDealsMax (mi_SectorSize info) ->
  AllocateSectorNumber stD (SectorNumber_of params) = Success st1 ->
  GetPrecommittedSector st1 (SectorNumber_of params) = Success None ->
  HasSectorNo st1 (SectorNumber_of params) = Success false ->
  (ReplaceCapacity params = true ->
   GetSector st1 (ReplaceSectorNumber params) = Success (Some replaceSector)
   /\ so_DealIDs replaceSector = []
   /\ SealProof params = so_SealProof replaceSector
   /\ so_Expiration replaceSector <= Expiration params
   /\ CheckSectorHealth st1 (ReplaceSectorDeadline params)
        (ReplaceSectorPartition params) (ReplaceSectorNumber params)
      = Success tt) ->
  let availableBalance := GetAvailableBalance stV (balance s) in
  let dealWeight :=
    DealWeightReturn rt (DealIDs params) (CurrEpoch rt) (Expiration params) in
  let sectorWeight :=
    QAPowerForWeight (mi_SectorSize info)
      (wrap64 (Expiration params - CurrEpoch rt))
      (vd_DealWeight dealWeight) (vd_VerifiedDealWeight dealWeight) in
  let depositReq :=
    Z.max
      (PreCommitDepositForPower
         (ThisEpochRewardSmoothed (RewardReturn rt))
         (QualityAdjPowerSmoothed (PowerReturn rt)) sectorWeight)
      (if ReplaceCapacity params then InitialPledge replaceSector else 0) in
  (availableBalance < depositReq ->
   PreCommitSector rt params s
   = Aborted ErrInsufficientFunds
       (sent_more s
          [Reward_ThisEpochReward; Power_CurrentTotalPower;
           Market_VerifyDealsForActivation (DealIDs params) (CurrEpoch rt)
             (Expiration params)]))
  /\ (forall u s',
        PreCommitSector rt params s = Returned u s' ->
        depositReq <= availableBalance /\
        exists st2 msd,
          PutPrecommittedSector (AddPreCommitDeposit st1 depositReq)
            {| pc_Info := params;
               PreCommitDeposit := depositReq;
               PreCommitEpoch := CurrEpoch rt;
               pc_DealWeight := vd_DealWeight dealWeight;
               pc_VerifiedDealWeight := vd_VerifiedDealWeight dealWeight |}
          = Success st2 /\
          MaxProveCommitDuration (SealProof params) = Some msd /\
          AddPreCommitExpiry st2 (wrap64 (wrap64 (CurrEpoch rt + msd) + 1))
            (SectorNumber_of params)
          = Success (persisted s')).
Proof.
  intros Hchk Hrew Hpow Hdeal Hunl Hrepay Hmeets Hinfo Hcaller Hfault Hproof
    Hdeals Halloc Hpre Hhas Hreplace. cbv zeta.
  pose proof (PreCommitSector_admit_eq rt params (balance s) (persisted s)
                stV newlyVested stD feeToBurn info st1 Hunl Hrepay Hmeets
                Hinfo Hcaller Hfault Hproof Hdeals Halloc Hpre Hhas)
    as Hadmit.
  assert (Hvalid : ReplaceCapacity params = true ->
                   validateReplaceSector params st1
                   = TxOk replaceSector st1).
  { intros Hrep. destruct (Hreplace Hrep) as (Hg & Hd & Hp & He & Hh).
    now apply validateReplaceSector_eq. }
  pose proof (PreCommitSector_deposit_eq rt params (RewardReturn rt)
                (PowerReturn rt)
                (DealWeightReturn rt (DealIDs params) (CurrEpoch rt)
                   (Expiration params))
                (balance s) (GetAvailableBalance stV (balance s)) info st1
                replaceSector Hvalid)
    as Hdep.
  cbv zeta in Hdep.
  set (depositReq := Z.max _ _) in *.
  set (availableBalance := GetAvailableBalance stV (balance s)) in *.
  split.
  - intros Hlow.
    apply PreCommitSector_enter; try assumption.
    unfold PreCommitSector_tx.
    rewrite (tx_bind_eq _ _ _ _ _ Hadmit).
    apply tx_bind_eq_abort. rewrite Hdep.
    destruct (Z.ltb_spec availableBalance depositReq); [reflexivity | lia].
  - intros u s' Hrun. unfold PreCommitSector in Hrun.
    rewrite (rt_bind_eq _ _ _ _ _ Hchk) in Hrun.
    apply rt_bind_returned in Hrun as (rewardStats & s1 & Hr & Hrun).
    apply requestCurrentEpochBlockReward_returned in Hr as (_ & -> & ->).
    apply rt_bind_returned in Hrun as (pwrTotal & s2 & Hp & Hrun).
    apply requestCurrentTotalPower_returned in Hp as (_ & -> & ->).
    apply rt_bind_returned in Hrun as (dealWeight & s3 & Hd & Hrun).
    apply requestDealWeight_returned in Hd as (_ & -> & ->).
    apply rt_bind_returned in Hrun as (bal & s4 & Hbal & Hrun).
    unfold CurrentBalance in Hbal. injection Hbal as <- <-.
    apply rt_bind_returned in Hrun as ([nv fee] & s5 & Htx & Hrun).
    apply Transaction_returned in Htx as (st' & Htx & ->).
    apply rt_bind_returned in Hrun as (? & s6 & Hburn & Hrun).
    apply burnFunds_returned in Hburn as [Hp6 _].
    apply notifyPledgeChanged_returned in Hrun as [Hp7 _].
    assert (Hfinal : persisted s' = st') by (simpl in *; congruence).
    simpl in Htx. unfold PreCommitSector_tx in Htx.
    rewrite (tx_bind_eq _ _ _ _ _ Hadmit) in Htx.
    apply tx_bind_ok in Htx as (dep & st2 & Hdeposit & Htx).
    rewrite Hdep in Hdeposit.
    destruct (Z.ltb_spec availableBalance depositReq) as [? | Hge];
      [discriminate |].
    destruct (AssertBalanceInvariants _ _) eqn:Hassert; [| discriminate].
    injection Hdeposit as <- <-.
    split; [exact Hge |].
    apply tx_bind_ok in Htx as (? & st3 & Hstore & Htx).
    assert (st3 = st') as -> by (unfold tx_ret in Htx; now inversion Htx).
    unfold PreCommitSector_store in Hstore.
    apply tx_bind_ok in Hstore as (st0 & ? & Hget & Hstore).
    unfold tx_get in Hget. injection Hget as <- <-.
    apply tx_bind_ok in Hstore as (? & st4 & Hput & Hstore).
    destruct (PutPrecommittedSector _ _) as [st5 | e] eqn:Hp;
      [| discriminate].
    assert (st4 = st5) as -> by (unfold tx_put in Hput; now inversion Hput).
    destruct (MaxProveCommitDuration (SealProof params)) as [msd |];
      [| discriminate].
    apply tx_update_ok in Hstore.
    exists st5, msd. split; [reflexivity |]. split; [reflexivity |].
    rewrite Hfinal. exact Hstore.
Qed.

End PreCommitSectorProperties.

(** ** Early terminations *)

Section EarlyTerminationProperties.

Context {SM : Smoothing} {NW : Network} {ER : Errors} {PO : Policy}
        {SR : Structures} {SO : StateOps}.

(** Processing early terminations enrolls no cron event. *)
Lemma processEarlyTerminations_enrollments rt s more s' :
  processEarlyTerminations rt s = Returned more s' ->
  enrollments (sent s') = enrollments (sent s).
Proof.
  unfold processEarlyTerminations. intros Hrun.
  apply rt_bind_returned in Hrun as (rewardStats & s1 & H1 & Hrun).
  apply (quiet_request rt Reward_ThisEpochReward) in H1 as [_ He1];
    [| reflexivity].
  apply rt_bind_returned in Hrun as (pwrTotal & s2 & H2 & Hrun).
  apply (quiet_request rt Power_CurrentTotalPower) in H2 as [_ He2];
    [| reflexivity].
  apply rt_bind_returned in Hrun as (bal & s3 & Hbal & Hrun).
  unfold CurrentBalance in Hbal. injection Hbal as <- <-.
  apply rt_bind_returned in Hrun as (r & s4 & Htx & Hrun).
  apply Transaction_returned in Htx as (st' & _ & ->).
  destruct r as [[[[result more'] deals] penalty] pledgeDelta].
  assert (Hq : quiet
    (if TerminationResult_IsEmpty result then rt_ret more'
     else rt_bind (burnFunds rt penalty)
            (fun _ => rt_bind (notifyPledgeChanged rt pledgeDelta)
               (fun _ => rt_bind (requestTerminateDeals_all rt deals)
                  (fun _ => rt_ret more'))))).
  { destruct (TerminationResult_IsEmpty result); [apply quiet_ret |].
    apply quiet_bind; [apply quiet_burnFunds |]. intros _.
    apply quiet_bind; [apply quiet_notifyPledgeChanged |]. intros _.
    apply quiet_bind; [apply quiet_requestTerminateDeals_all |]. intros _.
    apply quiet_ret. }
  apply Hq in Hrun as [_ He]. simpl in He. congruence.
Qed.

Lemma scheduleEarlyTerminationWork_returned rt s u s' :
  in_int64 (CurrEpoch rt + 1) ->
  scheduleEarlyTerminationWork rt s = Returned u s' ->
  enrollments (sent s') =
    enrollments (sent s)
    ++ [Power_EnrollCronEvent (CurrEpoch rt + 1)
          {| EventType := CronEventProcessEarlyTerminations |}].
Proof.
  intros Hnext. unfold scheduleEarlyTerminationWork, enrollCronEvent.
  rewrite (wrap64_id _ Hnext). intros Hrun.
  apply send_returned in Hrun as ->. simpl.
  now rewrite enrollments_app.
Qed.

Lemma TerminateSectors_tx_had rt toProcess st had powerDelta st' :
  TerminateSectors_tx rt toProcess st = TxOk (had, powerDelta) st' ->
  had = havePendingEarlyTerminations st.
Proof.
  unfold TerminateSectors_tx. intros Hok.
  apply tx_bind_ok in Hok as (st0 & ? & Hget & Hok).
  unfold tx_get in Hget. injection Hget as <- <-. cbv zeta in Hok.
  apply tx_bind_ok in Hok as (info & st0 & _ & Hok).
  apply tx_bind_ok in Hok as (? & st1 & _ & Hok).
  apply tx_bind_ok in Hok as (dls & st2 & _ & Hok).
  apply tx_bind_ok in Hok as (sectors & st3 & _ & Hok).
  apply tx_bind_ok in Hok as ([dls' pd] & st4 & _ & Hok).
  apply tx_bind_ok in Hok as (? & st5 & _ & Hok).
  unfold tx_ret in Hok. now injection Hok as <- _ _.
Qed.

Lemma TerminateSectors_collect_returned terms toProcess s r s' :
  TerminateSectors_collect terms toProcess s = Returned r s' -> s' = s.
Proof.
  revert toProcess. induction terms as [| term rest IH]; intros toProcess;
    simpl.
  - unfold rt_ret. now intros [= _ <-].
  - destruct (DeadlineSectorMap_Add _ _ _ _); [apply IH | discriminate].
Qed.

(** C9.  At an epoch whose successor is an [int64]: a call of
    [TerminateSectors] that returns sends one enrollment of the
    early-termination cron event, for the next epoch, when the processing
    leaves work and none was pending before the call, and none otherwise;
    a call of [handleProvingDeadline] that returns sends one when no work
    was pending before the deadline is advanced (in the state left by the
    unlocking of vested funds and the expiry of pre-commitments), work is
    pending in the state the closure leaves and the processing leaves
    some, and none otherwise. *)
Theorem early_termination_enrollment rt :
  in_int64 (CurrEpoch rt + 1) ->
  let enrollment :=
    Power_EnrollCronEvent (CurrEpoch rt + 1)
      {| EventType := CronEventProcessEarlyTerminations |} in
  (forall params s r s',
     TerminateSectors rt params s = Returned r s' ->
     exists toProcess powerDelta st1 s1 more s2,
       TerminateSectors_tx rt toProcess (persisted s)
         = TxOk (havePendingEarlyTerminations (persisted s), powerDelta)
             st1 /\
       persisted s1 = st1 /\
       processEarlyTerminations rt s1 = Returned more s2 /\
       Done r = negb more /\
       enrollments (sent s') =
         enrollments (sent s)
         ++ (if more && negb (havePendingEarlyTerminations (persisted s))
             then [enrollment] else []))
  /\ (forall s u s',
        handleProvingDeadline rt s = Returned u s' ->
        exists stV newlyVested stE depositToBurn stA result
               powerDelta penaltyTotal pledgeDelta st1,
          UnlockVestedFunds (persisted s) (CurrEpoch rt)
            = Success (stV, newlyVested) /\
          ExpirePreCommits stV (CurrEpoch rt)
            = Success (stE, depositToBurn) /\
          AdvanceDeadline stE (CurrEpoch rt) = Success (stA, result) /\
          handleProvingDeadline_tx rt (RewardReturn rt) (PowerReturn rt)
            (balance s) (persisted s)
            = TxOk (havePendingEarlyTerminations stE, powerDelta,
                    penaltyTotal, pledgeDelta) st1 /\
          if negb (havePendingEarlyTerminations stE)
             && havePendingEarlyTerminations st1 then
            exists s1 more s2,
              persisted s1 = st1 /\
              processEarlyTerminations rt s1 = Returned more s2 /\
              enrollments (sent s') =
                enrollments (sent s)
                ++ (if more then [enrollment] else [])
          else enrollments (sent s') = enrollments (sent s)).
Proof.
  intros Hnext enrollment. split.
  - intros params s r s'. unfold TerminateSectors. intros Hrun.
    apply rt_bind_returned in Hrun as (toProcess & s0 & Hcol & Hrun).
    apply TerminateSectors_collect_returned in Hcol as ->.
    apply rt_bind_returned in Hrun as (? & s0 & Hchk & Hrun).
    assert (s0 = s) as ->.
    { destruct (DeadlineSectorMap_Check _ _ _); [| discriminate].
      unfold rt_ret in Hchk. now injection Hchk as <-. }
    clear Hchk.
    apply rt_bind_returned in Hrun as ([had powerDelta] & s1 & Htx & Hrun).
    apply Transaction_returned in Htx as (st1 & Htx & ->).
    pose proof (TerminateSectors_tx_had _ _ _ _ _ _ Htx) as ->.
    apply rt_bind_returned in Hrun as (more & s2 & Hproc & Hrun).
    pose proof (processEarlyTerminations_enrollments _ _ _ _ Hproc) as He2.
    simpl in He2.
    apply rt_bind_returned in Hrun as (? & s3 & Hsched & Hrun).
    apply rt_bind_returned in Hrun as (? & s4 & Hpow & Hrun).
    apply quiet_requestUpdatePower in Hpow as [_ He4].
    unfold rt_ret in Hrun. inversion Hrun; subst.
    exists toProcess, powerDelta, st1,
      {| persisted := st1; balance := balance s; sent := sent s |},
      more, s2.
    split; [exact Htx |]. split; [reflexivity |].
    split; [exact Hproc |]. split; [reflexivity |].
    rewrite He4.
    destruct (more && negb (havePendingEarlyTerminations (persisted s))).
    + apply (scheduleEarlyTerminationWork_returned _ _ _ _ Hnext) in Hsched.
      rewrite Hsched, He2. reflexivity.
    + unfold rt_ret in Hsched. inversion Hsched; subst.
      rewrite He2. now rewrite app_nil_r.
  - intros s u s'. unfold handleProvingDeadline. cbv zeta. intros Hrun.
    apply rt_bind_returned in Hrun as (rewardStats & s1 & Hrew & Hrun).
    apply requestCurrentEpochBlockReward_returned in Hrew as (_ & -> & ->).
    apply rt_bind_returned in Hrun as (pwrTotal & s2 & Hpow & Hrun).
    apply requestCurrentTotalPower_returned in Hpow as (_ & -> & ->).
    apply rt_bind_returned in Hrun as (bal & s3 & Hbal & Hrun).
    unfold CurrentBalance in Hbal. injection Hbal as <- <-.
    apply rt_bind_returned in Hrun
      as ([[[had powerDelta] penaltyTotal] pledgeDelta] & s4 & Htx & Hrun).
    apply Transaction_returned in Htx as (st1 & Htx & ->).
    simpl in Htx.
    destruct (handleProvingDeadline_tx_ok _ _ _ _ _ _ _ Htx)
      as (stV & newlyVested & stE & depositToBurn & stA & result & fv & fb
          & Hunl & Hexp & Hadv & _ & Hres).
    injection Hres as -> _ _ _.
    exists stV, newlyVested, stE, depositToBurn, stA, result,
      powerDelta, penaltyTotal, pledgeDelta, st1.
    split; [exact Hunl |]. split; [exact Hexp |]. split; [exact Hadv |].
    split; [exact Htx |].
    apply rt_bind_returned in Hrun as (? & s5 & H5 & Hrun).
    apply quiet_requestUpdatePower in H5 as [Hp5 He5].
    apply rt_bind_returned in Hrun as (? & s6 & H6 & Hrun).
    apply quiet_burnFunds in H6 as [Hp6 He6].
    apply rt_bind_returned in Hrun as (? & s7 & H7 & Hrun).
    apply quiet_notifyPledgeChanged in H7 as [Hp7 He7].
    apply rt_bind_returned in Hrun as (st & s8 & Hst & Hrun).
    unfold rt_state in Hst. injection Hst as <- <-.
    apply rt_bind_returned in Hrun as (? & s8 & H8 & Hrun).
    apply (quiet_message rt) in H8 as [Hp8 He8]; [| reflexivity].
    assert (Hst : persisted s7 = st1) by (simpl in *; congruence).
    assert (Hen : enrollments (sent s8) = enrollments (sent s)).
    { rewrite He8, He7, He6, He5. simpl. unfold enrollments.
      rewrite !List.filter_app. simpl. now rewrite !app_nil_r. }
    rewrite Hst in Hrun.
    destruct (negb (havePendingEarlyTerminations stE)
              && havePendingEarlyTerminations st1).
    + apply rt_bind_returned in Hrun as (more & s9 & Hproc & Hrun).
      exists s8, more, s9. split; [congruence |].
      split; [exact Hproc |].
      pose proof (processEarlyTerminations_enrollments _ _ _ _ Hproc) as He9.
      destruct more.
      * apply (scheduleEarlyTerminationWork_returned _ _ _ _ Hnext) in Hrun.
        rewrite Hrun, He9, Hen. reflexivity.
      * unfold rt_ret in Hrun. inversion Hrun; subst.
        rewrite He9, Hen. now rewrite app_nil_r.
    + unfold rt_ret in Hrun. inversion Hrun; subst. exact Hen.
Qed.

End EarlyTerminationProperties.

(** ** The proving period *)

(** X1.  At an epoch that is not negative and leaves room for a proving
    period below the largest [int64], and for an offset within the
    period, [nextProvingPeriodStart] passes its assertion and returns the
    one epoch after the current one, at most a period ahead, whose
    remainder modulo the period is the offset. *)
Theorem nextProvingPeriodStart_next currEpoch offset :
  0 <= currEpoch ->
  currEpoch + WPoStProvingPeriod <= max_int64 ->
  0 <= offset < WPoStProvingPeriod ->
  exists periodStart,
    nextProvingPeriodStart currEpoch offset = Some periodStart /\
    currEpoch < periodStart <= currEpoch + WPoStProvingPeriod /\
    periodStart mod WPoStProvingPeriod = offset.
Proof.
  unfold WPoStProvingPeriod, max_int64. intros Hcur Hmax Hoff.
  unfold nextProvingPeriodStart, WPoStProvingPeriod.
  rewrite Z.rem_mod_nonneg by lia.
  pose proof (Z.mod_pos_bound currEpoch 240 ltac:(lia)) as Hm.
  pose proof (Z.div_mod currEpoch 240 ltac:(lia)) as Hdm.
  set (m := currEpoch mod 240) in *.
  set (q := currEpoch / 240) in *.
  destruct (Z.geb_spec m offset) as [Hge | Hlt].
  - rewrite (wrap64_id (m - offset))
      by (unfold in_int64, min_int64, max_int64; lia).
    rewrite (wrap64_id (currEpoch - (m - offset)))
      by (unfold in_int64, min_int64, max_int64; lia).
    rewrite wrap64_id by (unfold in_int64, min_int64, max_int64; lia).
    destruct (Z.gtb_spec (currEpoch - (m - offset) + 240) currEpoch);
      [| lia].
    eexists. split; [reflexivity |]. split; [lia |].
    replace (currEpoch - (m - offset) + 240)
      with (offset + (q + 1) * 240) by lia.
    rewrite Z.mod_add by lia. apply Z.mod_small. lia.
  - rewrite (wrap64_id (offset - m))
      by (unfold in_int64, min_int64, max_int64; lia).
    rewrite (wrap64_id (240 - (offset - m)))
      by (unfold in_int64, min_int64, max_int64; lia).
    rewrite (wrap64_id (currEpoch - (240 - (offset - m))))
      by (unfold in_int64, min_int64, max_int64; lia).
    rewrite wrap64_id by (unfold in_int64, min_int64, max_int64; lia).
    destruct (Z.gtb_spec (currEpoch - (240 - (offset - m)) + 240) currEpoch);
      [| lia].
    eexists. split; [reflexivity |]. split; [lia |].
    replace (currEpoch - (240 - (offset - m)) + 240)
      with (offset + q * 240) by lia.
    rewrite Z.mod_add by lia. apply Z.mod_small. lia.
Qed.

Lemma BigEndian_Uint_nonneg bs : 0 <= BigEndian_Uint bs.
Proof.
  unfold BigEndian_Uint.
  assert (H : forall acc, 0 <= acc ->
            0 <= fold_left (fun acc b => acc * 256 + Z.of_N (Byte.to_N b))
                   bs acc).
  { induction bs as [| b bs IH]; intros acc Hacc; simpl; [exact Hacc |].
    apply IH. lia. }
  apply H. lia.
Qed.

(** X2.  The offset [assignProvingPeriodOffset] assigns lies within the
    proving period, whatever the hash. *)
Theorem assignProvingPeriodOffset_range marshal currEpoch hash offset :
  assignProvingPeriodOffset marshal currEpoch hash = Some offset ->
  0 <= offset < WPoStProvingPeriod.
Proof.
  unfold assignProvingPeriodOffset.
  destruct marshal as [addrBytes |]; [| discriminate].
  destruct (Nat.ltb _ 8); [discriminate |].
  intros [= <-]. apply Z.mod_pos_bound. reflexivity.
Qed.

(** ** Fees and pledges *)

Section FeeProperties.

Context {SM : Smoothing} {NW : Network}.

Lemma ExpectedRewardForPower_nonneg r n qa d :
  0 <= Estimate r ->
  0 <= ExpectedRewardForPower r n qa d.
Proof.
  intros Hr. destruct (Z.eq_dec (Estimate n) 0) as [E | E].
  - now rewrite ExpectedRewardForPower_zero.
  - rewrite ExpectedRewardForPower_nonzero by exact E.
    apply Z.shiftr_nonneg. lia.
Qed.

(** X6.  With a reward estimate that is not negative, the fees of a
    declared and an undeclared fault and the pre-commit deposit are not
    negative, whatever the network power, zero included. *)
Theorem fault_fees_nonneg r n qa :
  0 <= Estimate r ->
  0 <= PledgePenaltyForDeclaredFault r n qa /\
  0 <= PledgePenaltyForUndeclaredFault r n qa /\
  0 <= PreCommitDepositForPower r n qa.
Proof.
  intros Hr. repeat split; now apply ExpectedRewardForPower_nonneg.
Qed.

(** X7.  Once a sector is as old as the termination lifetime cap, its
    termination penalty no longer grows with its age and a replaced
    sector, of an age that is not negative, adds nothing: the penalty is
    the larger of the undeclared-fault fee and the reward of twenty days
    at activation plus the cap's days of day reward. *)
Theorem PledgePenaltyForTermination_lifetime_cap
    dayReward sectorAge twentyDayRewardAtActivation n qa r
    replacedDayReward replacedSectorAge :
  0 < EpochsInDay ->
  TerminationLifetimeCap * EpochsInDay <= sectorAge ->
  0 <= replacedSectorAge ->
  PledgePenaltyForTermination dayReward sectorAge
    twentyDayRewardAtActivation n qa r replacedDayReward replacedSectorAge =
  Z.max (PledgePenaltyForUndeclaredFault r n qa)
    (twentyDayRewardAtActivation + TerminationLifetimeCap * dayReward).
Proof.
  intros HE Hage Hrep. unfold PledgePenaltyForTermination. cbv zeta.
  rewrite !minEpoch_spec.
  rewrite (Z.min_r sectorAge) by lia.
  rewrite Z.sub_diag.
  change (wrap64 0) with 0.
  rewrite (Z.min_r replacedSectorAge 0) by lia.
  rewrite big_Max_spec. unfold big.Add, big.Mul, big.NewInt.
  rewrite big_Div_pos by exact HE.
  rewrite Z.mul_0_r, Z.add_0_r, Z.mul_assoc, Z.div_mul by lia.
  f_equal. lia.
Qed.

(** X8.  For a sector of positive power and a circulating supply that
    is not negative, the initial pledge is defined and covers the
    pre-commit deposit of the same power. *)
Theorem InitialPledgeForPower_covers_deposit qaPower baselinePower r n
    circulatingSupply :
  0 <= circulatingSupply ->
  0 < qaPower ->
  exists pledge,
    InitialPledgeForPower qaPower baselinePower r n circulatingSupply
      = Some pledge /\
    PreCommitDepositForPower r n qaPower <= pledge.
Proof.
  intros Hsupply Hqa. unfold InitialPledgeForPower. cbv zeta.
  rewrite !big_Max_spec. unfold big.IsZero, big.Mul, big.Add.
  unfold InitialPledgeLockTarget, big.NewInt. simpl numerator.
  simpl denominator.
  set (d := Z.max (Z.max (Estimate n) baselinePower) qaPower).
  assert (Hd : 0 < d) by (subst d; lia).
  destruct (Z.eqb_spec (10 * d) 0) as [E | _]; [lia |].
  eexists. split; [reflexivity |].
  unfold PreCommitDepositForPower, PreCommitDepositProjectionPeriod,
    InitialPledgeProjectionPeriod, PreCommitDepositFactor,
    InitialPledgeFactor.
  rewrite big_Div_pos by lia.
  assert (0 <= 3 * circulatingSupply * qaPower / (10 * d)); [| lia].
  apply Z.div_pos; nia.
Qed.

End FeeProperties.

(** ** Power and termination fees of sectors *)

Section PowerProperties.

Context {SM : Smoothing} {NW : Network} {ER : Errors} {PO : Policy}.

Lemma fold_add_shift {A} (f : A -> Z) l acc :
  fold_left (fun a x => big.Add a (f x)) l acc
  = acc + fold_left (fun a x => big.Add a (f x)) l big.Zero.
Proof.
  revert acc. induction l as [| x l IH]; intros acc; simpl.
  - unfold big.Zero. lia.
  - rewrite IH, (IH (big.Add big.Zero (f x))).
    unfold big.Add, big.Zero. lia.
Qed.

(** X3.  The power of a list of sectors is the sum of the powers of its
    sectors. *)
Theorem PowerForSectors_sum ssize sectors :
  PowerForSectors ssize sectors
  = fold_right (fun s total => PowerPair_Add (PowerForSector ssize s) total)
      NewPowerPairZero sectors.
Proof.
  induction sectors as [| s sectors IH].
  - unfold PowerForSectors, NewPowerPairZero, big.Mul, big.Zero. simpl.
    now rewrite Z.mul_0_r.
  - simpl fold_right. rewrite <- IH.
    unfold PowerForSectors, PowerPair_Add, PowerForSector. simpl Raw.
    simpl QA. f_equal.
    + unfold big.Add, big.Mul. simpl length. lia.
    + simpl fold_left. rewrite fold_add_shift.
      unfold big.Add, big.Zero. lia.
Qed.

Lemma terminationPenalty_fold ssize currEpoch r n sectors acc :
  fold_left
    (fun totalFee s =>
       let sectorPower := QAPowerForSector ssize s in
       let fee :=
         PledgePenaltyForTermination (ExpectedDayReward s)
           (wrap64 (currEpoch - Activation s)) (ExpectedStoragePledge s)
           n sectorPower r (ReplacedDayReward s) (ReplacedSectorAge s) in
       big.Add fee totalFee)
    sectors acc
  = acc
    + fold_right Z.add 0
        (map
           (fun s =>
            PledgePenaltyForTermination (ExpectedDayReward s)
              (wrap64 (currEpoch - Activation s)) (ExpectedStoragePledge s)
              n (QAPowerForSector ssize s) r
              (ReplacedDayReward s) (ReplacedSectorAge s))
           sectors).
Proof.
  revert acc. induction sectors as [| s sectors IH]; intros acc; simpl.
  - lia.
  - rewrite IH. unfold big.Add. lia.
Qed.

(** X4.  The termination penalty of two lists of sectors is the sum of
    their penalties. *)
Theorem terminationPenalty_app ssize currEpoch r n l1 l2 :
  terminationPenalty ssize currEpoch r n (l1 ++ l2)
  = terminationPenalty ssize currEpoch r n l1
    + terminationPenalty ssize currEpoch r n l2.
Proof.
  unfold terminationPenalty. rewrite !terminationPenalty_fold.
  rewrite map_app, fold_right_app.
  unfold big.Zero.
  match goal with
  | |- context [map ?f l2] =>
      generalize (map f l2) as fees2; intros fees2;
      induction (map f l1) as [| fee fees1 IH]; simpl; lia
  end.
Qed.

(** X5.  The termination penalty of a list of sectors is at least the
    sum of their undeclared-fault fees. *)
Theorem terminationPenalty_at_least_undeclared ssize currEpoch r n sectors :
  fold_right Z.add 0
    (map (fun s => PledgePenaltyForUndeclaredFault r n
                     (QAPowerForSector ssize s)) sectors)
  <= terminationPenalty ssize currEpoch r n sectors.
Proof.
  unfold terminationPenalty. rewrite terminationPenalty_fold.
  unfold big.Zero. rewrite Z.add_0_l.
  induction sectors as [| s sectors IH]; simpl; [lia |].
  match goal with
  | |- _ <= ?fee + _ =>
      assert (PledgePenaltyForUndeclaredFault r n (QAPowerForSector ssize s)
              <= fee); [| lia]
  end.
  unfold PledgePenaltyForTermination. cbv zeta.
  rewrite big_Max_spec. lia.
Qed.

End PowerProperties.

(** ** Helpers of the handlers *)

Section HelperProperties.

Context {SM : Smoothing} {NW : Network} {ER : Errors} {PO : Policy}
        {SR : Structures} {SO : StateOps} {LI : Limits} {IO : InfoOps}.

Lemma requestTerminateDeals_loop_batches rt epoch rounds dealIDs s :
  (forall deals,
     SendExit rt (Market_OnMinerSectorsTerminate epoch deals) = Ok) ->
  (length dealIDs <= rounds)%nat ->
  exists batches,
    requestTerminateDeals_loop rounds rt epoch dealIDs s
    = Returned tt
        (sent_more s (map (Market_OnMinerSectorsTerminate epoch) batches)) /\
    concat batches = dealIDs /\
    Forall (fun b => (0 < length b)%nat
                     /\ Z.of_nat (length b) <= cbg_MaxLength) batches.
Proof.
  intros Hok. revert dealIDs s.
  induction rounds as [| rounds IH]; intros dealIDs s Hlen.
  - destruct dealIDs; [| simpl in Hlen; lia].
    exists []. simpl. rewrite sent_more_nil. auto.
  - simpl requestTerminateDeals_loop.
    destruct (Z.ltb_spec 0 (Z.of_nat (length dealIDs))) as [Hpos | Hzero].
    + set (size := min64 cbg_MaxLength (Z.of_nat (length dealIDs))).
      assert (Hsize : 0 < size <= cbg_MaxLength
                      /\ size <= Z.of_nat (length dealIDs)).
      { subst size. unfold min64, cbg_MaxLength.
        destruct (Z.ltb_spec 8192 (Z.of_nat (length dealIDs))); lia. }
      set (batch := firstn (Z.to_nat size) dealIDs).
      set (rest := skipn (Z.to_nat size) dealIDs).
      assert (Hbatch : length batch = Z.to_nat size).
      { subst batch. rewrite length_firstn. lia. }
      assert (Hrest : (length rest <= rounds)%nat).
      { subst rest. rewrite length_skipn. lia. }
      destruct (IH rest
                  {| persisted := persisted s;
                     balance := balance s - 0;
                     sent := sent s
                             ++ [Market_OnMinerSectorsTerminate epoch batch] |}
                  Hrest) as (batches & Hrun & Hcat & Hall).
      exists (batch :: batches). split; [| split].
      * unfold rt_bind at 1. rewrite (Send_accepted _ _ _ (Hok batch)).
        unfold RequireSuccess at 1. simpl IsSuccess. cbv iota.
        unfold rt_bind at 1. unfold rt_ret at 1.
        simpl Message_value. rewrite Hrun.
        unfold sent_more. simpl. rewrite Z.sub_0_r, <- app_assoc.
        reflexivity.
      * simpl. rewrite Hcat. apply firstn_skipn.
      * constructor; [| exact Hall]. rewrite Hbatch. lia.
    + destruct dealIDs; [| simpl in Hzero; lia].
      exists []. simpl. rewrite sent_more_nil. auto.
Qed.

(** X9.  When the market accepts every termination message,
    [requestTerminateDeals] returns, changing neither the state nor the
    balance, after sending the deals in their order, in batches that are
    not empty and hold at most [cbg.MaxLength] deals each. *)
Theorem requestTerminateDeals_batches rt epoch dealIDs s :
  (forall deals,
     SendExit rt (Market_OnMinerSectorsTerminate epoch deals) = Ok) ->
  exists batches,
    requestTerminateDeals rt epoch dealIDs s
    = Returned tt
        (sent_more s (map (Market_OnMinerSectorsTerminate epoch) batches)) /\
    concat batches = dealIDs /\
    Forall (fun b => (0 < length b)%nat
                     /\ Z.of_nat (length b) <= cbg_MaxLength) batches.
Proof.
  intros Hok. unfold requestTerminateDeals.
  now apply requestTerminateDeals_loop_batches.
Qed.

Lemma checkPeerInfo_loop_spec multiaddrs total s :
  checkPeerInfo_loop multiaddrs total s =
    if forallb (fun ma => negb (Nat.eqb (length ma) 0)) multiaddrs then
      Returned (total + Z.of_nat (length (concat multiaddrs))) s
    else Aborted ErrIllegalArgument s.
Proof.
  revert total. induction multiaddrs as [| ma rest IH]; intros total.
  - simpl. unfold rt_ret. now rewrite Z.add_0_r.
  - simpl checkPeerInfo_loop. simpl forallb. simpl concat.
    rewrite length_app. destruct ma as [| b ma].
    + reflexivity.
    + simpl length at 1. cbn [Nat.eqb negb andb].
      replace (Z.of_nat (S (length ma)) =? 0) with false
        by (symmetry; apply Z.eqb_neq; lia).
      unfold rt_abort_if, rt_ret, rt_bind at 1. rewrite IH.
      destruct (forallb _ rest); [| reflexivity].
      f_equal. simpl length. lia.
Qed.

Lemma checkPeerInfo_total peerID multiaddrs s :
  checkPeerInfo peerID multiaddrs s =
    if (Z.of_nat (length peerID) <=? MaxPeerIDLength)
       && forallb (fun ma => negb (Nat.eqb (length ma) 0)) multiaddrs
       && (Z.of_nat (length (concat multiaddrs)) <=? MaxMultiaddrData)
    then Returned tt s
    else Aborted ErrIllegalArgument s.
Proof.
  unfold checkPeerInfo. rewrite Z.gtb_ltb, Z.ltb_antisym.
  destruct (Z.of_nat (length peerID) <=? MaxPeerIDLength); [| reflexivity].
  cbn [negb andb]. unfold rt_abort_if at 1, rt_ret at 1, rt_bind at 1.
  unfold rt_bind at 1. rewrite checkPeerInfo_loop_spec.
  destruct (forallb _ multiaddrs); [| reflexivity].
  rewrite Z.add_0_l, Z.gtb_ltb, Z.ltb_antisym.
  destruct (Z.of_nat (length (concat multiaddrs)) <=? MaxMultiaddrData);
    reflexivity.
Qed.

(** X10.  [checkPeerInfo] returns, leaving everything as it is, when the
    peer ID is at most [MaxPeerIDLength] long, no multiaddr is empty and
    the multiaddrs together hold at most [MaxMultiaddrData] bytes;
    otherwise it aborts with [ErrIllegalArgument]. *)
Theorem checkPeerInfo_cases peerID multiaddrs s :
  let fits :=
    Z.of_nat (length peerID) <= MaxPeerIDLength /\
    Forall (fun ma => ma <> []) multiaddrs /\
    Z.of_nat (length (concat multiaddrs)) <= MaxMultiaddrData in
  (fits -> checkPeerInfo peerID multiaddrs s = Returned tt s)
  /\ (~ fits ->
      checkPeerInfo peerID multiaddrs s = Aborted ErrIllegalArgument s).
Proof.
  intros fits. rewrite checkPeerInfo_total.
  assert (Hall : forallb (fun ma => negb (Nat.eqb (length ma) 0)) multiaddrs
                 = true
                 <-> Forall (fun ma : list Byte.byte => ma <> []) multiaddrs).
  { rewrite forallb_forall, List.Forall_forall.
    split; intros H ma Hin; specialize (H ma Hin).
    - intros ->. discriminate H.
    - destruct ma; [contradiction | reflexivity]. }
  destruct (Z.leb_spec (Z.of_nat (length peerID)) MaxPeerIDLength)
    as [Hid | Hid];
    [| split; [intros (? & _); lia | reflexivity]].
  destruct (forallb _ multiaddrs) eqn:Hma; cbn [andb].
  - destruct (Z.leb_spec (Z.of_nat (length (concat multiaddrs)))
                MaxMultiaddrData) as [Hsize | Hsize].
    + split; [reflexivity |]. intros Hn. exfalso. apply Hn.
      split; [exact Hid |]. split; [now apply Hall | exact Hsize].
    + split; [intros (_ & _ & ?); lia | reflexivity].
  - split; [| reflexivity]. intros (_ & Hno & _).
    apply Hall in Hno. congruence.
Qed.

Lemma asMapBySectorNumber_fold sectors (m : gmap Z SectorOnChainInfo) n :
  fold_left (fun m s => <[ so_SectorNumber s := s ]> m) sectors m !! n
  = match last (filter (fun s => so_SectorNumber s = n) sectors) with
    | Some s => Some s
    | None => m !! n
    end.
Proof.
  revert m. induction sectors as [| s sectors IH]; intros m.
  - reflexivity.
  - simpl fold_left. rewrite IH. rewrite filter_cons.
    destruct (decide (so_SectorNumber s = n)) as [E | E].
    + rewrite last_cons.
      destruct (last (filter _ sectors)); [reflexivity |].
      subst n. apply lookup_insert_eq.
    + destruct (last (filter _ sectors)); [reflexivity |].
      now apply lookup_insert_ne.
Qed.

(** X11.  The map of [asMapBySectorNumber] holds, for a sector number,
    the last sector of the list with that number, and nothing for a
    number no sector has. *)
Theorem asMapBySectorNumber_lookup sectors n :
  asMapBySectorNumber sectors !! n
  = last (filter (fun s => so_SectorNumber s = n) sectors).
Proof.
  unfold asMapBySectorNumber. rewrite asMapBySectorNumber_fold.
  destruct (last _); [reflexivity | apply lookup_empty].
Qed.

(** X12.  [replacedSectorParameters] on the map of a list of sectors:
    without a capacity upgrade the age and the day reward are zero, with
    one they are those of the last listed sector with the replaced
    number, the age taken at the current epoch and not below zero, and
    the call aborts with [ErrNotFound] when no sector has that number. *)
Theorem replacedSectorParameters_cases rt precommit sectors st :
  let wanted s :=
    so_SectorNumber s = ReplaceSectorNumber (pc_Info precommit) in
  replacedSectorParameters rt precommit (asMapBySectorNumber sectors) st
  = if ReplaceCapacity (pc_Info precommit) then
      match last (filter wanted sectors) with
      | None => TxAbort ErrNotFound
      | Some replaced =>
          TxOk (Z.max 0 (wrap64 (CurrEpoch rt - Activation replaced)),
                ExpectedDayReward replaced) st
      end
    else TxOk (0, 0) st.
Proof.
  intros wanted. unfold replacedSectorParameters.
  destruct (ReplaceCapacity (pc_Info precommit)); [| reflexivity].
  cbn [negb]. unfold asMapBySectorNumber.
  rewrite asMapBySectorNumber_fold, lookup_empty. fold wanted.
  destruct (last (filter wanted sectors)) as [replaced |]; [| reflexivity].
  unfold tx_ret, maxEpoch. f_equal. f_equal.
  destruct (Z.gtb_spec 0 (wrap64 (CurrEpoch rt - Activation replaced))); lia.
Qed.

End HelperProperties.

(** ** Parameters of a pre-commitment *)

Section ParameterProperties.
Context {SM : Smoothing} {NW : Network} {ER : Errors} {PO : Policy}
        {SR : Structures} {SO : StateOps}.

Lemma validateExpiration_cases rt activation expiration sealProof s :
  in_int64 (expiration - activation) ->
  in_int64 (CurrEpoch rt + MaxSectorExpirationExtension) ->
  (expiration_valid rt activation expiration sealProof /\
   validateExpiration rt activation expiration sealProof s = Returned tt s)
  \/ (~ expiration_valid rt activation expiration sealProof /\
      validateExpiration rt activation expiration sealProof s
      = Aborted ErrIllegalArgument s).
Proof.
  intros Hlife Hext. unfold validateExpiration, expiration_valid.
  rewrite !(wrap64_id _ Hlife), (wrap64_id _ Hext).
  unfold rt_bind, rt_abort_if, rt_ret, rt_Abortf.
  destruct (Z.leb_spec expiration activation); [right; split; [lia | easy] |].
  destruct (Z.ltb_spec (expiration - activation) MinSectorExpiration);
    [right; split; [lia | easy] |].
  destruct (Z.gtb_spec expiration
              (CurrEpoch rt + MaxSectorExpirationExtension));
    [right; split; [lia | easy] |].
  destruct (Z.gtb_spec (expiration - activation)
              (SectorMaximumLifetime sealProof));
    [right; split; [lia | easy] |].
  left. split; [lia | reflexivity].
Qed.

(** X13.  When the lifetime asked for and the furthest expiration allowed
    are [int64], [validateExpiration] returns, leaving everything as it
    is, exactly when the expiration lies after the activation, the
    lifetime is at least [MinSectorExpiration] and at most the maximum of
    the seal proof, and the expiration is at most
    [MaxSectorExpirationExtension] ahead of the current epoch; it aborts
    with [ErrIllegalArgument] exactly when one of these fails. *)
Theorem validateExpiration_returns rt activation expiration sealProof s :
  in_int64 (expiration - activation) ->
  in_int64 (CurrEpoch rt + MaxSectorExpirationExtension) ->
  (validateExpiration rt activation expiration sealProof s = Returned tt s
   <-> expiration_valid rt activation expiration sealProof)
  /\ (validateExpiration rt activation expiration sealProof s
      = Aborted ErrIllegalArgument s
      <-> ~ expiration_valid rt activation expiration sealProof).
Proof.
  intros Hlife Hext.
  destruct (validateExpiration_cases rt activation expiration sealProof s
              Hlife Hext) as [[Hv Hrun] | [Hv Hrun]]; rewrite Hrun.
  - split; split; try tauto; discriminate.
  - split; split; try tauto; discriminate.
Qed.

Lemma rt_abort_if_bind {A} cond c (k : unit -> Rt A) s :
  rt_bind (rt_abort_if cond c) k s
  = if cond then Aborted c s else k tt s.
Proof. destruct cond; reflexivity. Qed.

Lemma PreCommitSector_checks_spec rt params s :
  in_int64 (CurrEpoch rt - MaxPreCommitRandomnessLookback) ->
  in_int64 (CurrEpoch rt
            + default 0 (MaxProveCommitDuration (SealProof params))) ->
  in_int64 (Expiration params
            - (CurrEpoch rt
               + default 0 (MaxProveCommitDuration (SealProof params)))) ->
  in_int64 (CurrEpoch rt + MaxSectorExpirationExtension) ->
  (precommit_valid rt params /\
   PreCommitSector_checks rt params s = Returned tt s)
  \/ (~ precommit_valid rt params /\
      PreCommitSector_checks rt params s = Aborted ErrIllegalArgument s).
Proof.
  intros Hlook Hact Hlife Hext.
  unfold precommit_valid, PreCommitSector_checks. cbv zeta.
  rewrite (wrap64_id _ Hlook), (wrap64_id _ Hact).
  rewrite rt_abort_if_bind.
  destruct (SupportedProofTypes (SealProof params)) eqn:Hsup; cbn [negb];
    [| right; split; [intuition discriminate | reflexivity]].
  rewrite rt_abort_if_bind.
  destruct (Z.gtb_spec (SectorNumber_of params) MaxSectorNumber);
    [right; split; [lia | reflexivity] |].
  rewrite rt_abort_if_bind.
  destruct (cid_Defined (SealedCID params)) eqn:Hdef; cbn [negb];
    [| right; split; [intuition discriminate | reflexivity]].
  rewrite rt_abort_if_bind.
  destruct (Z.eqb_spec (cid_Prefix (SealedCID params)) SealedCIDPrefix);
    cbn [negb]; [| right; split; [tauto | reflexivity]].
  rewrite rt_abort_if_bind.
  destruct (Z.geb_spec (SealRandEpoch params) (CurrEpoch rt));
    [right; split; [lia | reflexivity] |].
  rewrite rt_abort_if_bind.
  destruct (Z.ltb_spec (SealRandEpoch params)
              (CurrEpoch rt - MaxPreCommitRandomnessLookback));
    [right; split; [lia | reflexivity] |].
  destruct (validateExpiration_cases rt
              (CurrEpoch rt
               + default 0 (MaxProveCommitDuration (SealProof params)))
              (Expiration params) (SealProof params) s Hlife Hext)
    as [[Hv Hrun] | [Hv Hrun]].
  2: { right. split; [tauto |]. now rewrite (rt_bind_eq_abort _ _ _ _ _ Hrun). }
  rewrite (rt_bind_eq _ _ _ _ _ Hrun).
  rewrite rt_abort_if_bind.
  assert (Hcase :
    (ReplaceCapacity params
     && (Z.of_nat (length (DealIDs params)) =? 0) = true
     /\ ~ (ReplaceCapacity params = true -> DealIDs params <> []))
    \/ (ReplaceCapacity params
        && (Z.of_nat (length (DealIDs params)) =? 0) = false
        /\ (ReplaceCapacity params = true -> DealIDs params <> []))).
  { destruct (ReplaceCapacity params);
      destruct (DealIDs params) as [| d ds]; cbn [andb length].
    - left. split; [reflexivity | intros H'; now apply H'].
    - right. split; [apply Z.eqb_neq; lia | intros _; discriminate].
    - right. split; [reflexivity | intros H'; discriminate H'].
    - right. split; [reflexivity | intros H'; discriminate H']. }
  destruct Hcase as [[-> Hbad] | [-> Hok]];
    [right; split; [tauto | reflexivity] |].
  rewrite rt_abort_if_bind.
  destruct (Z.geb_spec (ReplaceSectorDeadline params) WPoStPeriodDeadlines);
    [right; split; [lia | reflexivity] |].
  unfold rt_abort_if, rt_ret, rt_Abortf.
  destruct (Z.gtb_spec (ReplaceSectorNumber params) MaxSectorNumber);
    [right; split; [lia | reflexivity] |].
  left. split; [| reflexivity].
  repeat split; try assumption; try lia; apply Hv.
Qed.

(** X14.  At an epoch around which the bounds computed are [int64],
    [PreCommitSector] aborts with [ErrIllegalArgument], before it sends a
    message or touches the state, when its parameters fail one of its
    checks: seal proof supported, sector numbers in range, sealed CID
    defined and of the right prefix, seal randomness epoch before the
    current one and within the lookback, expiration valid counted from
    the latest activation, deals present in a capacity upgrade, replaced
    deadline in range.  A call that returns had parameters that pass
    them all. *)
Theorem PreCommitSector_parameters rt params s :
  in_int64 (CurrEpoch rt - MaxPreCommitRandomnessLookback) ->
  in_int64 (CurrEpoch rt
            + default 0 (MaxProveCommitDuration (SealProof params))) ->
  in_int64 (Expiration params
            - (CurrEpoch rt
               + default 0 (MaxProveCommitDuration (SealProof params)))) ->
  in_int64 (CurrEpoch rt + MaxSectorExpirationExtension) ->
  (~ precommit_valid rt params ->
   PreCommitSector rt params s = Aborted ErrIllegalArgument s)
  /\ (forall u s', PreCommitSector rt params s = Returned u s' ->
                   precommit_valid rt params).
Proof.
  intros Hlook Hact Hlife Hext.
  destruct (PreCommitSector_checks_spec rt params s Hlook Hact Hlife Hext)
    as [[Hv Hrun] | [Hv Hrun]]; split.
  - intros Hn. contradiction.
  - intros _ _ _. exact Hv.
  - intros _. unfold PreCommitSector.
    now rewrite (rt_bind_eq_abort _ _ _ _ _ Hrun).
  - intros u s'. unfold PreCommitSector.
    rewrite (rt_bind_eq_abort _ _ _ _ _ Hrun). discriminate.
Qed.
End ParameterProperties.

(** ** Messages of the handlers *)

Section TraceLemmas.

Context {SM : Smoothing} {NW : Network} {ER : Errors} {PO : Policy}
        {SR : Structures} {SO : StateOps}.

Lemma sent_more_eq s ms :
  {| persisted := persisted s; balance := balance s - 0;
     sent := sent s ++ ms |} = sent_more s ms.
Proof. unfold sent_more. now rewrite Z.sub_0_r. Qed.

Lemma requestUpdatePower_returned rt delta s u s' :
  requestUpdatePower rt delta s = Returned u s' ->
  s' = sent_more s
         (if PowerPair_IsZero delta then []
          else [Power_UpdateClaimedPower (Raw delta) (QA delta)]).
Proof.
  unfold requestUpdatePower. destruct (PowerPair_IsZero delta).
  - unfold rt_ret. intros [= _ <-]. now rewrite sent_more_nil.
  - intros Hs. apply send_returned in Hs as ->. apply sent_more_eq.
Qed.

Lemma burnFunds_state rt amt s u s' :
  burnFunds rt amt s = Returned u s' ->
  s' = {| persisted := persisted s;
          balance := balance s - Z.max 0 amt;
          sent := sent s ++ (if 0 <? amt
                             then [MethodSend BurntFundsActorAddr amt]
                             else []) |}.
Proof.
  unfold burnFunds, big.GreaterThan, big.Zero. rewrite Z.gtb_ltb.
  destruct (Z.ltb_spec 0 amt).
  - intros Hs. apply send_returned in Hs as ->. simpl.
    now rewrite Z.max_r by lia.
  - unfold rt_ret. intros [= _ <-]. destruct s. simpl.
    rewrite Z.max_l by lia. now rewrite Z.sub_0_r, app_nil_r.
Qed.

Lemma notifyPledgeChanged_state rt delta s u s' :
  notifyPledgeChanged rt delta s = Returned u s' ->
  s' = sent_more s (if delta =? 0 then []
                    else [Power_UpdatePledgeTotal delta]).
Proof.
  unfold notifyPledgeChanged, big.IsZero.
  destruct (delta =? 0); cbn [negb].
  - unfold rt_ret. intros [= _ <-]. now rewrite sent_more_nil.
  - intros Hs. apply send_returned in Hs as ->. apply sent_more_eq.
Qed.

End TraceLemmas.

(** ** More of [SubmitWindowedPoSt] *)

Section ProofProperties.

Context {SM : Smoothing} {NW : Network} {ER : Errors} {PO : Policy}
        {SR : Structures} {SO : StateOps}.

(** X15.  A submission that passes the checks and is recorded, over
    sectors to prove and with proofs, but whose proofs the runtime does
    not verify, aborts with [ErrIllegalArgument]: the two requests were
    sent and nothing is persisted. *)
Theorem SubmitWindowedPoSt_invalid_proof rt params s info currDeadline st1
    deadlines deadline postResult sectorInfos st2 minerActorID :
  Deadline params < WPoStPeriodDeadlines ->
  SendExit rt Reward_ThisEpochReward = Ok ->
  SendExit rt Power_CurrentTotalPower = Ok ->
  SubmitWindowedPoSt_validate rt params (persisted s)
    = TxOk (info, currDeadline) st1 ->
  SubmitWindowedPoSt_record params info currDeadline st1
    = TxOk (deadlines, deadline, postResult, sectorInfos) st2 ->
  sectorInfos <> [] ->
  Proofs params <> [] ->
  ReceiverID rt = Some minerActorID ->
  VerifyPoSt rt
    {| pv_Randomness :=
         GetRandomnessFromBeacon rt
           DomainSeparationTag_WindowedPoStChallengeSeed
           (Challenge currDeadline) (ReceiverCBOR rt);
       pv_Proofs := Proofs params;
       ChallengedSectors :=
         map (fun s => {| si_SealProof := so_SealProof s;
                          si_SectorNumber := so_SectorNumber s;
                          si_SealedCID := so_SealedCID s |}) sectorInfos;
       Prover := minerActorID |} = false ->
  SubmitWindowedPoSt rt params s
  = Aborted ErrIllegalArgument
      (sent_more s [Reward_ThisEpochReward; Power_CurrentTotalPower]).
Proof.
  intros Hdl Hrew Hpow Hval Hrec Hsome Hproofs Hid Hbad.
  apply SubmitWindowedPoSt_enter; try assumption.
  unfold SubmitWindowedPoSt_tx.
  rewrite (tx_bind_eq _ _ _ _ _ Hval).
  rewrite (tx_bind_eq _ _ _ _ _ Hrec).
  apply tx_bind_eq_abort.
  unfold SubmitWindowedPoSt_verify.
  destruct sectorInfos as [| i infos]; [contradiction |].
  destruct (Z.gtb_spec (Z.of_nat (length (i :: infos))) 0) as [_ | Hle];
    [| simpl in Hle; lia].
  destruct (Proofs params) as [| p ps] eqn:Hp; [contradiction |].
  simpl length. replace (Z.of_nat (S (length ps)) =? 0) with false
    by (symmetry; apply Z.eqb_neq; lia).
  rewrite (tx_bind_eq _ _ _ _ _ (tx_abort_if_false _ _)).
  unfold verifyWindowedPost. rewrite Hid. cbv zeta.
  rewrite Hbad. reflexivity.
Qed.

(** X16.  A call of [SubmitWindowedPoSt] that returns persists the state
    of its closure, pays from its balance the penalty it burns and sends,
    in this order, the two requests, the power update when the power
    changes, the penalty to the burnt-funds actor when it is positive and
    the pledge update when the pledge changes, and nothing else. *)
Theorem SubmitWindowedPoSt_messages rt params s u s' :
  SubmitWindowedPoSt rt params s = Returned u s' ->
  exists st' postResult penaltyTotal pledgeDelta,
    SubmitWindowedPoSt_tx rt params (RewardReturn rt) (PowerReturn rt)
      (balance s) (persisted s)
    = TxOk (postResult, (penaltyTotal, pledgeDelta)) st' /\
    persisted s' = st' /\
    balance s' = balance s - Z.max 0 penaltyTotal /\
    sent s' =
      sent s
      ++ [Reward_ThisEpochReward; Power_CurrentTotalPower]
      ++ (if PowerPair_IsZero (PowerDelta postResult) then []
          else [Power_UpdateClaimedPower (Raw (PowerDelta postResult))
                  (QA (PowerDelta postResult))])
      ++ (if 0 <? penaltyTotal
          then [MethodSend BurntFundsActorAddr penaltyTotal] else [])
      ++ (if pledgeDelta =? 0 then []
          else [Power_UpdatePledgeTotal pledgeDelta]).
Proof.
  unfold SubmitWindowedPoSt. intros Hrun.
  apply rt_bind_returned in Hrun as (? & s0 & Hchk & Hrun).
  apply rt_abort_if_returned in Hchk as [_ ->].
  apply rt_bind_returned in Hrun as (rewardStats & s1 & Hrew & Hrun).
  apply requestCurrentEpochBlockReward_returned in Hrew as (_ & -> & ->).
  apply rt_bind_returned in Hrun as (pwrTotal & s2 & Hpow & Hrun).
  apply requestCurrentTotalPower_returned in Hpow as (_ & -> & ->).
  apply rt_bind_returned in Hrun as (bal & s3 & Hbal & Hrun).
  unfold CurrentBalance in Hbal. injection Hbal as <- <-.
  apply rt_bind_returned in Hrun as ([postResult [pt pd]] & s4 & Htx & Hrun).
  apply Transaction_returned in Htx as (st' & Htx & ->).
  simpl in Htx.
  apply rt_bind_returned in Hrun as (? & s5 & Hupd & Hrun).
  apply requestUpdatePower_returned in Hupd as ->.
  apply rt_bind_returned in Hrun as (? & s6 & Hburn & Hrun).
  apply burnFunds_state in Hburn as ->.
  apply notifyPledgeChanged_state in Hrun as ->.
  exists st', postResult, pt, pd. simpl.
  repeat split; [exact Htx |]. now rewrite <- !app_assoc.
Qed.

End ProofProperties.

(** ** Enrollments of cron events *)

Section MuteLemmas.
Context {SM : Smoothing} {NW : Network} {ER : Errors} {PO : Policy}
        {SR : Structures} {SO : StateOps}.

Variable P : Message -> bool.

Lemma mute_ret {A} (a : A) : mute P (rt_ret a).
Proof. intros s a' s'. unfold rt_ret. now intros [= _ <-]. Qed.

Lemma mute_bind {A B} (m : Rt A) (k : A -> Rt B) :
  mute P m -> (forall a, mute P (k a)) -> mute P (rt_bind m k).
Proof.
  intros Hm Hk s b s' Hrun.
  apply rt_bind_returned in Hrun as (a & s1 & H1 & H2).
  apply Hm in H1. apply Hk in H2. congruence.
Qed.

Lemma mute_Send rt m : P m = false -> mute P (Send rt m).
Proof.
  intros Hm s c s'. unfold Send. intros [= _ <-]. simpl.
  rewrite List.filter_app. simpl. rewrite Hm. apply app_nil_r.
Qed.

Lemma mute_RequireSuccess code : mute P (RequireSuccess code).
Proof.
  unfold RequireSuccess. destruct (IsSuccess code); [apply mute_ret |].
  intros s a s'. discriminate.
Qed.

Lemma mute_message rt m :
  P m = false -> mute P (rt_bind (Send rt m) RequireSuccess).
Proof.
  intros Hm. apply mute_bind; [now apply mute_Send |].
  intros code. apply mute_RequireSuccess.
Qed.

Lemma mute_request rt m {A} (a : A) :
  P m = false ->
  mute P (rt_bind (Send rt m)
            (fun code => rt_bind (RequireSuccess code) (fun _ => rt_ret a))).
Proof.
  intros Hm. apply mute_bind; [now apply mute_Send |]. intros code.
  apply mute_bind; [apply mute_RequireSuccess |]. intros _.
  apply mute_ret.
Qed.

Lemma mute_Transaction {A} (f : Tx A) : mute P (Transaction f).
Proof.
  intros s a s' Hrun. now apply Transaction_returned in Hrun as (? & _ & ->).
Qed.

Hypothesis Honly : forall m, P m = true -> is_Enrollment m = true.

Lemma mute_outside m : is_Enrollment m = false -> P m = false.
Proof.
  intros Hm. destruct (P m) eqn:E; [| reflexivity].
  apply Honly in E. congruence.
Qed.

Lemma mute_requestUpdatePower rt delta : mute P (requestUpdatePower rt delta).
Proof.
  unfold requestUpdatePower. destruct (PowerPair_IsZero delta);
    [apply mute_ret | now apply mute_message, mute_outside].
Qed.

Lemma mute_burnFunds rt amt : mute P (burnFunds rt amt).
Proof.
  unfold burnFunds. destruct (big.GreaterThan amt big.Zero);
    [now apply mute_message, mute_outside | apply mute_ret].
Qed.

Lemma mute_notifyPledgeChanged rt delta :
  mute P (notifyPledgeChanged rt delta).
Proof.
  unfold notifyPledgeChanged. destruct (negb (big.IsZero delta));
    [now apply mute_message, mute_outside | apply mute_ret].
Qed.

Lemma mute_requestTerminateDeals_loop rounds rt epoch dealIDs :
  mute P (requestTerminateDeals_loop rounds rt epoch dealIDs).
Proof.
  revert dealIDs. induction rounds as [| rounds IH]; intros dealIDs; simpl.
  - apply mute_ret.
  - destruct (0 <? Z.of_nat (length dealIDs)); [| apply mute_ret].
    apply mute_bind; [now apply mute_Send, mute_outside |]. intros code.
    apply mute_bind; [apply mute_RequireSuccess |]. intros _.
    apply IH.
Qed.

Lemma mute_requestTerminateDeals_all rt deals :
  mute P (requestTerminateDeals_all rt deals).
Proof.
  induction deals as [| [epoch dealIDs] rest IH]; simpl.
  - apply mute_ret.
  - apply mute_bind; [apply mute_requestTerminateDeals_loop |].
    intros _. exact IH.
Qed.

Lemma mute_processEarlyTerminations rt :
  mute P (processEarlyTerminations rt).
Proof.
  unfold processEarlyTerminations.
  apply mute_bind; [now apply mute_request, mute_outside |]. intros rewardStats.
  apply mute_bind; [now apply mute_request, mute_outside |]. intros pwrTotal.
  apply mute_bind;
    [intros s a s'; unfold CurrentBalance; now intros [= _ <-] |].
  intros bal.
  apply mute_bind; [apply mute_Transaction |].
  intros [[[[result more] deals] penalty] pledgeDelta].
  destruct (TerminationResult_IsEmpty result); [apply mute_ret |].
  apply mute_bind; [apply mute_burnFunds |]. intros _.
  apply mute_bind; [apply mute_notifyPledgeChanged |]. intros _.
  apply mute_bind; [apply mute_requestTerminateDeals_all |]. intros _.
  apply mute_ret.
Qed.

End MuteLemmas.

Section EnrollmentProperties.
Context {SM : Smoothing} {NW : Network} {ER : Errors} {PO : Policy}
        {SR : Structures} {SO : StateOps}.

Lemma proving_only m :
  is_ProvingDeadlineEnrollment m = true -> is_Enrollment m = true.
Proof. destruct m; try discriminate. reflexivity. Qed.

(** X17.  [processEarlyTerminations] enrolls no cron event: the
    enrollments among the messages sent are those sent before it. *)
Theorem processEarlyTerminations_never_enrolls rt s more s' :
  processEarlyTerminations rt s = Returned more s' ->
  List.filter is_Enrollment (sent s') = List.filter is_Enrollment (sent s).
Proof.
  intros Hrun.
  exact (mute_processEarlyTerminations is_Enrollment (fun _ H => H)
           rt s more s' Hrun).
Qed.

(** X18.  A call of [handleProvingDeadline] that returns enrolls the
    end of a proving deadline once, for the last epoch of the deadline
    that is current in the state the closure leaves. *)
Theorem handleProvingDeadline_reenrolls rt s u s' :
  handleProvingDeadline rt s = Returned u s' ->
  exists r st1,
    handleProvingDeadline_tx rt (RewardReturn rt) (PowerReturn rt)
      (balance s) (persisted s) = TxOk r st1 /\
    List.filter is_ProvingDeadlineEnrollment (sent s') =
      List.filter is_ProvingDeadlineEnrollment (sent s)
      ++ [Power_EnrollCronEvent
            (Last (State_DeadlineInfo st1 (CurrEpoch rt)))
            {| EventType := CronEventProvingDeadline |}].
Proof.
  unfold handleProvingDeadline. cbv zeta. intros Hrun.
  pose proof (mute_outside _ proving_only) as Hout.
  apply rt_bind_returned in Hrun as (epochReward & s1 & Hrew & Hrun).
  apply requestCurrentEpochBlockReward_returned in Hrew as (_ & -> & ->).
  apply rt_bind_returned in Hrun as (pwrTotal & s2 & Hpow & Hrun).
  apply requestCurrentTotalPower_returned in Hpow as (_ & -> & ->).
  apply rt_bind_returned in Hrun as (bal & s3 & Hbal & Hrun).
  unfold CurrentBalance in Hbal. injection Hbal as <- <-.
  apply rt_bind_returned in Hrun as (r & s4 & Htx & Hrun).
  apply Transaction_returned in Htx as (st1 & Htx & ->).
  simpl in Htx. exists r, st1. split; [exact Htx |].
  destruct r as [[[had powerDelta] penaltyTotal] pledgeDelta].
  apply rt_bind_returned in Hrun as (? & s5 & H5 & Hrun).
  pose proof (mute_requestUpdatePower _ proving_only _ _ _ _ _ H5) as E5.
  assert (Hp5 : persisted s5 = st1).
  { apply quiet_requestUpdatePower in H5 as [-> _]. reflexivity. }
  apply rt_bind_returned in Hrun as (? & s6 & H6 & Hrun).
  pose proof (mute_burnFunds _ proving_only _ _ _ _ _ H6) as E6.
  apply quiet_burnFunds in H6 as [Hp6 _].
  apply rt_bind_returned in Hrun as (? & s7 & H7 & Hrun).
  pose proof (mute_notifyPledgeChanged _ proving_only _ _ _ _ _ H7) as E7.
  apply quiet_notifyPledgeChanged in H7 as [Hp7 _].
  apply rt_bind_returned in Hrun as (st & s8 & Hst & Hrun).
  unfold rt_state in Hst. injection Hst as <- <-.
  assert (Hst : persisted s7 = st1) by congruence.
  rewrite Hst in Hrun.
  apply rt_bind_returned in Hrun as (? & s8 & H8 & Hrun).
  unfold enrollCronEvent in H8. apply send_returned in H8 as ->.
  assert (Htail : List.filter is_ProvingDeadlineEnrollment (sent s')
                  = List.filter is_ProvingDeadlineEnrollment
                      (sent s7
                       ++ [Power_EnrollCronEvent
                             (Last (State_DeadlineInfo st1 (CurrEpoch rt)))
                             {| EventType := CronEventProvingDeadline |}])).
  { destruct (negb had && havePendingEarlyTerminations st1).
    - apply rt_bind_returned in Hrun as (more & s9 & H9 & Hrun).
      apply (mute_processEarlyTerminations _ proving_only) in H9.
      simpl in H9. rewrite <- H9.
      destruct more.
      + unfold scheduleEarlyTerminationWork, enrollCronEvent in Hrun.
        apply send_returned in Hrun as ->. simpl.
        rewrite (List.filter_app _ (sent s9)). simpl. apply app_nil_r.
      + unfold rt_ret in Hrun. now inversion Hrun.
    - unfold rt_ret in Hrun. now inversion Hrun. }
  rewrite Htail, List.filter_app. simpl.
  rewrite E7, E6, E5. simpl. rewrite !List.filter_app. simpl.
  now rewrite !app_nil_r.
Qed.

End EnrollmentProperties.

(** ** The remaining handlers *)

Section HandlerProperties.

Context {SM : Smoothing} {NW : Network} {ER : Errors} {PO : Policy}
        {SR : Structures} {SO : StateOps} {LI : Limits} {IO : InfoOps}.

(** X19.  When the two requests are answered and the queue of early
    terminations yields an empty result, [processEarlyTerminations]
    persists the state the queue leaves, burns nothing, sends nothing
    but the two requests and returns whether more work is left. *)
Theorem processEarlyTerminations_nothing_popped rt s st' result more :
  SendExit rt Reward_ThisEpochReward = Ok ->
  SendExit rt Power_CurrentTotalPower = Ok ->
  PopEarlyTerminations (persisted s) AddressedPartitionsMax
    AddressedSectorsMax = Success (st', (result, more)) ->
  TerminationResult_IsEmpty result = true ->
  processEarlyTerminations rt s
  = Returned more
      {| persisted := st'; balance := balance s;
         sent := sent s ++ [Reward_ThisEpochReward; Power_CurrentTotalPower] |}.
Proof.
  intros Hrew Hpow Hpop Hempty. unfold processEarlyTerminations.
  unfold requestCurrentEpochBlockReward, requestCurrentTotalPower.
  unfold rt_bind, Send, RequireSuccess, rt_ret, CurrentBalance, Transaction.
  rewrite Hrew, Hpow. simpl.
  unfold processEarlyTerminations_tx, tx_bind, tx_method. rewrite Hpop.
  rewrite Hempty. unfold tx_ret. rewrite Hempty.
  rewrite !Z.sub_0_r, <- app_assoc. reflexivity.
Qed.

Lemma rt_ValidateImmediateCallerIs_one rt a s :
  rt_ValidateImmediateCallerIs rt [a] s
  = if N.eqb (Caller rt) a then Returned tt s
    else Aborted (CallerRefused rt) s.
Proof.
  unfold rt_ValidateImmediateCallerIs. simpl existsb.
  rewrite orb_false_r. now destruct (N.eqb (Caller rt) a).
Qed.

(** X20.  An early-termination cron event that returns came from the
    power actor; it processes early terminations and enrolls the event
    again, for the next epoch, exactly when work is left, and enrolls no
    other cron event. *)
Theorem OnDeferredCronEvent_early_terminations rt s u s' :
  in_int64 (CurrEpoch rt + 1) ->
  OnDeferredCronEvent rt
    {| EventType := CronEventProcessEarlyTerminations |} s
  = Returned u s' ->
  Caller rt = StoragePowerActorAddr /\
  exists more s1,
    processEarlyTerminations rt s = Returned more s1 /\
    persisted s' = persisted s1 /\
    List.filter is_Enrollment (sent s') =
      List.filter is_Enrollment (sent s)
      ++ (if more
          then [Power_EnrollCronEvent (CurrEpoch rt + 1)
                  {| EventType := CronEventProcessEarlyTerminations |}]
          else []).
Proof.
  intros Hnext. unfold OnDeferredCronEvent. intros Hrun.
  apply rt_bind_returned in Hrun as (? & s0 & Hcaller & Hrun).
  rewrite rt_ValidateImmediateCallerIs_one in Hcaller.
  destruct (N.eqb_spec (Caller rt) StoragePowerActorAddr) as [E | _];
    [| discriminate].
  inversion Hcaller; subst. split; [exact E |]. simpl in Hrun.
  apply rt_bind_returned in Hrun as (more & s1 & Hproc & Hrun).
  exists more, s1. split; [exact Hproc |].
  rewrite <- (mute_processEarlyTerminations is_Enrollment (fun _ H => H)
                rt _ _ _ Hproc).
  destruct more.
  - unfold scheduleEarlyTerminationWork, enrollCronEvent in Hrun.
    rewrite (wrap64_id _ Hnext) in Hrun.
    apply send_returned in Hrun as ->. simpl.
    split; [reflexivity |]. now rewrite List.filter_app.
  - unfold rt_ret in Hrun. inversion Hrun; subst.
    split; [reflexivity |]. now rewrite app_nil_r.
Qed.

(** X21.  A worker-key cron event from the power actor, on a miner with
    no pending key or with one that takes effect after the current
    epoch, returns and changes nothing. *)
Theorem OnDeferredCronEvent_key_not_due rt s info :
  Caller rt = StoragePowerActorAddr ->
  GetFullInfo (persisted s) = Success info ->
  match PendingWorkerKey info with
  | None => True
  | Some key => CurrEpoch rt < EffectiveAt key
  end ->
  OnDeferredCronEvent rt {| EventType := CronEventWorkerKeyChange |} s
  = Returned tt s.
Proof.
  intros Hcaller Hinfo Hkey. unfold OnDeferredCronEvent.
  unfold rt_bind at 1. rewrite rt_ValidateImmediateCallerIs_one.
  rewrite Hcaller, N.eqb_refl. cbn [EventType].
  unfold commitWorkerKeyChange, Transaction.
  assert (Hget : getFullMinerInfo (persisted s) = TxOk info (persisted s)).
  { unfold getFullMinerInfo, tx_read. now rewrite Hinfo. }
  rewrite (tx_bind_eq _ _ _ _ _ Hget).
  destruct (PendingWorkerKey info) as [key |].
  - destruct (Z.gtb_spec (EffectiveAt key) (CurrEpoch rt)); [| lia].
    unfold tx_ret. now destruct s.
  - unfold tx_ret. now destruct s.
Qed.

(** X22.  A worker-key cron event that returns, on a miner whose pending
    key has taken effect, saves the miner info with the new worker, no
    pending key and the same owner and control addresses, and sends
    nothing. *)
Theorem OnDeferredCronEvent_key_due rt s info key u s' :
  GetFullInfo (persisted s) = Success info ->
  PendingWorkerKey info = Some key ->
  EffectiveAt key <= CurrEpoch rt ->
  OnDeferredCronEvent rt {| EventType := CronEventWorkerKeyChange |} s
  = Returned u s' ->
  exists saved,
    SaveInfo (persisted s) saved = Success (persisted s') /\
    Worker (fi_Info saved) = NewWorker key /\
    PendingWorkerKey saved = None /\
    Owner (fi_Info saved) = Owner (fi_Info info) /\
    ControlAddresses (fi_Info saved) = ControlAddresses (fi_Info info) /\
    sent s' = sent s /\ balance s' = balance s.
Proof.
  intros Hinfo Hkey Hdue. unfold OnDeferredCronEvent. intros Hrun.
  apply rt_bind_returned in Hrun as (? & s0 & Hcaller & Hrun).
  rewrite rt_ValidateImmediateCallerIs_one in Hcaller.
  destruct (N.eqb (Caller rt) StoragePowerActorAddr); [| discriminate].
  inversion Hcaller; subst. simpl in Hrun.
  unfold commitWorkerKeyChange in Hrun.
  apply Transaction_returned in Hrun as (st' & Htx & ->).
  apply tx_bind_ok in Htx as (info' & st1 & Hget & Htx).
  apply tx_read_ok in Hget as [Hget ->].
  rewrite Hinfo in Hget. injection Hget as <-.
  rewrite Hkey in Htx.
  destruct (Z.gtb_spec (EffectiveAt key) (CurrEpoch rt)); [lia |].
  apply tx_update_ok in Htx.
  eexists. split; [exact Htx |]. simpl. auto 10.
Qed.

(** X23.  A fault report by a signable caller aborts with
    [ErrIllegalArgument], before it sends a message or touches the state,
    when the fault is not verified or its epoch is not before the
    current one. *)
Theorem ReportConsensusFault_refused rt sys params s :
  CallerTypeSignable sys = true ->
  match VerifyConsensusFault sys (BlockHeader1 params)
          (BlockHeader2 params) (BlockHeaderExtra params) with
  | None => True
  | Some fault =>
      in_int64 (CurrEpoch rt - cf_Epoch fault) /\
      CurrEpoch rt <= cf_Epoch fault
  end ->
  ReportConsensusFault rt sys params s = Aborted ErrIllegalArgument s.
Proof.
  intros Hsig Hfault. unfold ReportConsensusFault. rewrite Hsig.
  cbn [negb]. unfold rt_abort_if at 1, rt_ret at 1, rt_bind at 1.
  destruct (VerifyConsensusFault _ _ _ _) as [fault |]; [| reflexivity].
  destruct Hfault as [Hage Hle]. rewrite (wrap64_id _ Hage).
  unfold rt_bind at 1. unfold rt_abort_if.
  destruct (Z.leb_spec (CurrEpoch rt - cf_Epoch fault) 0); [| lia].
  reflexivity.
Qed.

(** X24.  A fault report that returns was verified; the miner is
    penalized the consensus-fault penalty, out of its unlocked balance
    and vesting funds; what was taken is split between the reporter, who
    gets the slasher reward or all of it if that is less, and the
    burnt-funds actor; the miner info is saved with the ineligibility
    running from the current epoch; the messages are the reward request,
    the reward, the burn when it is positive and the pledge update when
    vesting funds were taken. *)
Theorem ReportConsensusFault_conserves rt sys params s u s' :
  ReportConsensusFault rt sys params s = Returned u s' ->
  exists fault faultPenalty st1 fromVesting fromBalance info,
    VerifyConsensusFault sys (BlockHeader1 params) (BlockHeader2 params)
      (BlockHeaderExtra params) = Some fault /\
    ConsensusFaultPenalty (Estimate (ThisEpochRewardSmoothed (RewardReturn rt)))
      = Some faultPenalty /\
    PenalizeFundsInPriorityOrder (persisted s) (CurrEpoch rt) faultPenalty
      (GetUnlockedBalance (persisted s) (balance s))
      = Success (st1, (fromVesting, fromBalance)) /\
    let slasherReward :=
      RewardForConsensusSlashReport
        (wrap64 (CurrEpoch rt - cf_Epoch fault)) faultPenalty in
    let rewardAmount := Z.min (fromVesting + fromBalance) slasherReward in
    let burnAmount := fromVesting + fromBalance - rewardAmount in
    rewardAmount + burnAmount = fromVesting + fromBalance /\
    GetFullInfo st1 = Success info /\
    SaveInfo st1
      {| fi_Info :=
           {| Owner := Owner (fi_Info info);
              Worker := Worker (fi_Info info);
              ControlAddresses := ControlAddresses (fi_Info info);
              SealProofType := SealProofType (fi_Info info);
              mi_SectorSize := mi_SectorSize (fi_Info info);
              WindowPoStPartitionSectors :=
                WindowPoStPartitionSectors (fi_Info info);
              ConsensusFaultElapsed :=
                wrap64 (CurrEpoch rt
                        + ConsensusFaultIneligibilityDuration) |};
         PendingWorkerKey := PendingWorkerKey info;
         PeerId := PeerId info;
         Multiaddrs := Multiaddrs info |}
      = Success (persisted s') /\
    sent s' =
      sent s
      ++ [Reward_ThisEpochReward; MethodSend (Caller rt) rewardAmount]
      ++ (if 0 <? burnAmount
          then [MethodSend BurntFundsActorAddr burnAmount] else [])
      ++ (if fromVesting =? 0 then []
          else [Power_UpdatePledgeTotal (- fromVesting)]).
Proof.
  unfold ReportConsensusFault. intros Hrun.
  apply rt_bind_returned in Hrun as (? & s0 & Hsig & Hrun).
  apply rt_abort_if_returned in Hsig as [_ ->].
  destruct (VerifyConsensusFault _ _ _ _) as [fault |]; [| discriminate].
  apply rt_bind_returned in Hrun as (? & s0 & Hage & Hrun).
  apply rt_abort_if_returned in Hage as [_ ->].
  apply rt_bind_returned in Hrun as (rewardStats & s1 & Hrew & Hrun).
  apply requestCurrentEpochBlockReward_returned in Hrew as (_ & -> & ->).
  destruct (ConsensusFaultPenalty _) as [faultPenalty |]; [| discriminate].
  apply rt_bind_returned in Hrun as (bal & s2 & Hbal & Hrun).
  unfold CurrentBalance in Hbal. injection Hbal as <- <-.
  apply rt_bind_returned in Hrun as ([[burn reward] delta] & s3 & Htx & Hrun).
  apply Transaction_returned in Htx as (st' & Htx & ->).
  simpl in Htx. unfold ReportConsensusFault_tx in Htx.
  apply tx_bind_ok in Htx as (st0 & ? & Hget & Htx).
  unfold tx_get in Hget. injection Hget as <- <-.
  apply tx_bind_ok in Htx as ([fv fb] & st1 & Hpen & Htx).
  apply tx_method_ok in Hpen.
  apply tx_bind_ok in Htx as (info & ? & Hinfo & Htx).
  apply tx_read_ok in Hinfo as [Hinfo ->].
  apply tx_bind_ok in Htx as (? & st2 & Hsave & Htx).
  apply tx_update_ok in Hsave.
  unfold tx_ret in Htx. injection Htx as <- <- <- <-.
  apply rt_bind_returned in Hrun as (code & s4 & Hsend & Hrun).
  apply rt_bind_returned in Hrun as (? & s5 & Hburn & Hrun).
  apply burnFunds_state in Hburn as ->.
  apply notifyPledgeChanged_state in Hrun as ->.
  unfold Send in Hsend. injection Hsend as _ <-.
  exists fault, faultPenalty, st1, fv, fb, info.
  repeat split; try assumption.
  - cbv zeta. lia.
  - cbv zeta. simpl. rewrite big_Min_spec.
    unfold big.Add, big.Sub, big.Neg, big.Zero. rewrite Z.add_0_l.
    rewrite <- !app_assoc. simpl.
    replace (- fv =? 0) with (fv =? 0); [reflexivity |].
    destruct (Z.eqb_spec fv 0), (Z.eqb_spec (- fv) 0); lia.
Qed.

(** X25.  [AddLockedFund] aborts with [ErrIllegalArgument] on a negative
    amount and, for an allowed caller, with [ErrInsufficientFunds] on an
    amount above the unlocked balance, changing nothing; a call that
    returns locked an amount between zero and the unlocked balance, kept
    the balance and sent the pledge update of the amount less the funds
    newly vested, when that is not zero. *)
Theorem AddLockedFund_outcomes rt amountToLock s :
  (amountToLock < 0 ->
   AddLockedFund rt amountToLock s = Aborted ErrIllegalArgument s)
  /\ (forall info,
        0 <= amountToLock ->
        GetInfo (persisted s) = Success info ->
        In (Caller rt)
          (ControlAddresses info
           ++ [Owner info; Worker info; RewardActorAddr]) ->
        GetUnlockedBalance (persisted s) (balance s) < amountToLock ->
        AddLockedFund rt amountToLock s
        = Aborted ErrInsufficientFunds s)
  /\ (forall u s',
        AddLockedFund rt amountToLock s = Returned u s' ->
        0 <= amountToLock
          <= GetUnlockedBalance (persisted s) (balance s) /\
        exists newlyVested,
          AddLockedFunds (persisted s) (CurrEpoch rt) amountToLock
            = Success (persisted s', newlyVested) /\
          balance s' = balance s /\
          sent s' =
            sent s
            ++ (if amountToLock - newlyVested =? 0 then []
                else [Power_UpdatePledgeTotal
                        (amountToLock - newlyVested)])).
Proof.
  split; [| split].
  - intros Hneg. unfold AddLockedFund.
    replace (Z.sgn amountToLock <? 0) with true; [reflexivity |].
    symmetry. apply Z.ltb_lt. lia.
  - intros info Hpos Hinfo Hcaller Hshort. unfold AddLockedFund.
    replace (Z.sgn amountToLock <? 0) with false
      by (symmetry; apply Z.ltb_ge; lia).
    unfold rt_abort_if at 1, rt_ret at 1, rt_bind at 1.
    unfold CurrentBalance at 1, rt_bind at 1.
    apply rt_bind_eq_abort, Transaction_eq_abort.
    unfold AddLockedFund_tx.
    rewrite (tx_bind_eq _ _ _ _ _ (getMinerInfo_eq _ _ Hinfo)).
    assert (Hval : ValidateImmediateCallerIs rt
                     (ControlAddresses info
                      ++ [Owner info; Worker info; RewardActorAddr])
                     (persisted s) = TxOk tt (persisted s)).
    { unfold ValidateImmediateCallerIs.
      replace (existsb _ _) with true; [reflexivity |].
      symmetry. apply existsb_exists. exists (Caller rt).
      split; [exact Hcaller | apply N.eqb_refl]. }
    rewrite (tx_bind_eq _ _ _ _ _ Hval).
    unfold tx_get at 1, tx_bind at 1. cbv zeta.
    apply tx_bind_eq_abort. unfold big.LessThan.
    destruct (Z.ltb_spec (GetUnlockedBalance (persisted s) (balance s))
                amountToLock); [reflexivity | lia].
  - intros u s'. unfold AddLockedFund. intros Hrun.
    apply rt_bind_returned in Hrun as (? & s0 & Hsgn & Hrun).
    apply rt_abort_if_returned in Hsgn as [Hsgn ->].
    apply Z.ltb_ge in Hsgn.
    apply rt_bind_returned in Hrun as (bal & s0 & Hbal & Hrun).
    unfold CurrentBalance in Hbal. injection Hbal as <- <-.
    apply rt_bind_returned in Hrun as (nv & s1 & Htx & Hrun).
    apply Transaction_returned in Htx as (st' & Htx & ->).
    unfold AddLockedFund_tx in Htx.
    apply tx_bind_ok in Htx as (info & ? & Hinfo & Htx).
    apply tx_read_ok in Hinfo as [_ ->].
    apply tx_bind_ok in Htx as (? & ? & Hval & Htx).
    apply ValidateImmediateCallerIs_ok in Hval as [_ ->].
    apply tx_bind_ok in Htx as (st0 & ? & Hget & Htx).
    unfold tx_get in Hget. injection Hget as <- <-.
    apply tx_bind_ok in Htx as (? & ? & Hif & Htx).
    apply tx_abort_if_ok in Hif as [Hle ->].
    apply Z.ltb_ge in Hle.
    apply tx_method_ok in Htx.
    apply notifyPledgeChanged_state in Hrun as ->.
    split; [lia |]. exists nv. simpl. auto.
Qed.

End HandlerProperties.

(** ** More of [PreCommitSector] *)

Section BarredProperties.

Context {SM : Smoothing} {NW : Network} {ER : Errors} {PO : Policy}
        {SR : Structures} {SO : StateOps} {LI : Limits} {IO : InfoOps}.

(** X26.  A pre-commitment by an allowed caller, on a miner barred by a
    consensus fault at the current epoch, aborts with [ErrForbidden]:
    the three requests were sent and nothing is persisted. *)
Theorem PreCommitSector_consensus_fault rt params s st1 newlyVested st2
    feeToBurn info :
  PreCommitSector_checks rt params s = Returned tt s ->
  SendExit rt Reward_ThisEpochReward = Ok ->
  SendExit rt Power_CurrentTotalPower = Ok ->
  SendExit rt (Market_VerifyDealsForActivation (DealIDs params)
                 (CurrEpoch rt) (Expiration params)) = Ok ->
  UnlockVestedFunds (persisted s) (CurrEpoch rt)
    = Success (st1, newlyVested) ->
  VerifyPledgeRequirementsAndRepayDebts (balance s) st1
    = TxOk feeToBurn st2 ->
  GetInfo st2 = Success info ->
  In (Caller rt) (ControlAddresses info ++ [Owner info; Worker info]) ->
  ConsensusFaultActive info (CurrEpoch rt) = true ->
  PreCommitSector rt params s =
    Aborted ErrForbidden
      (sent_more s
         [Reward_ThisEpochReward; Power_CurrentTotalPower;
          Market_VerifyDealsForActivation (DealIDs params) (CurrEpoch rt)
            (Expiration params)]).
Proof.
  intros Hchk Hrew Hpow Hdeal Hunl Hver Hinfo Hcaller Hfault.
  apply PreCommitSector_enter; try assumption.
  unfold PreCommitSector_tx. apply tx_bind_eq_abort.
  unfold PreCommitSector_admit.
  assert (H1 : tx_method (fun st => UnlockVestedFunds st (CurrEpoch rt))
                 ErrIllegalState (persisted s) = TxOk newlyVested st1).
  { unfold tx_method. now rewrite Hunl. }
  rewrite (tx_bind_eq _ _ _ _ _ H1).
  unfold tx_get at 1, tx_bind at 1. cbv zeta.
  rewrite (tx_bind_eq _ _ _ _ _ Hver).
  rewrite (tx_bind_eq _ _ _ _ _ (getMinerInfo_eq _ _ Hinfo)).
  assert (Hval : ValidateImmediateCallerIs rt
                   (ControlAddresses info ++ [Owner info; Worker info]) st2
                 = TxOk tt st2).
  { unfold ValidateImmediateCallerIs.
    replace (existsb _ _) with true; [reflexivity |].
    symmetry. apply existsb_exists. exists (Caller rt).
    split; [exact Hcaller | apply N.eqb_refl]. }
  rewrite (tx_bind_eq _ _ _ _ _ Hval).
  apply tx_bind_eq_abort. now rewrite Hfault.
Qed.

End BarredProperties.

(** ** Miner info and sector lookups *)

Section InfoProperties.

Context {SM : Smoothing} {NW : Network} {ER : Errors} {PO : Policy}
        {SR : Structures} {SO : StateOps} {LI : Limits} {IO : InfoOps}.

(** X27.  When the leaders expected per epoch are as many as the
    consensus-fault factor, the consensus-fault penalty is the reward of
    the epoch. *)
Theorem ConsensusFaultPenalty_reward thisEpochReward :
  ExpectedLeadersPerEpoch = ConsensusFaultFactor ->
  ConsensusFaultPenalty thisEpochReward = Some thisEpochReward.
Proof.
  intros Hleaders. unfold ConsensusFaultPenalty. rewrite Hleaders.
  unfold big.IsZero, big.NewInt, big.Mul, ConsensusFaultFactor.
  cbn [Z.eqb]. rewrite big_Div_pos by lia.
  f_equal. apply Z.div_mul. lia.
Qed.

(** X28.  [CheckSectorProven] changes nothing and sends nothing: it
    returns only for a sector number in range that the state holds, and
    aborts with one of three exit codes. *)
Theorem CheckSectorProven_readonly rt params s :
  (forall u s',
     CheckSectorProven rt params s = Returned u s' ->
     s' = s /\
     csp_SectorNumber params <= MaxSectorNumber /\
     exists sector,
       GetSector (persisted s) (csp_SectorNumber params)
       = Success (Some sector))
  /\ (forall c s',
        CheckSectorProven rt params s = Aborted c s' ->
        s' = s /\ In c [ErrIllegalArgument; ErrIllegalState; ErrNotFound]).
Proof.
  unfold CheckSectorProven, rt_bind, rt_abort_if, rt_state, rt_Abortf,
    rt_ret.
  destruct (Z.gtb_spec (csp_SectorNumber params) MaxSectorNumber)
    as [Hgt | Hle].
  - split; [discriminate |]. intros c s' H. inversion H; subst.
    split; [reflexivity | simpl; auto].
  - destruct (GetSector (persisted s) (csp_SectorNumber params))
      as [[sector |] | e].
    + split; [| discriminate]. intros u s' H. inversion H; subst.
      split; [reflexivity |]. split; [exact Hle |]. now exists sector.
    + split; [discriminate |]. intros c s' H. inversion H; subst.
      split; [reflexivity | simpl; auto].
    + split; [discriminate |]. intros c s' H. inversion H; subst.
      split; [reflexivity | simpl; auto].
Qed.

(** X29.  A call of [ChangePeerID] that returns came from the owner, the
    worker or a control address, with a peer ID of at most
    [MaxPeerIDLength] bytes; it saves the miner info with the new peer ID
    and every other field as it was, and sends nothing. *)
Theorem ChangePeerID_returned rt params s u s' :
  ChangePeerID rt params s = Returned u s' ->
  exists info,
    GetFullInfo (persisted s) = Success info /\
    In (Caller rt)
      (ControlAddresses (fi_Info info)
       ++ [Owner (fi_Info info); Worker (fi_Info info)]) /\
    Z.of_nat (length (NewID params)) <= MaxPeerIDLength /\
    SaveInfo (persisted s)
      {| fi_Info := fi_Info info;
         PendingWorkerKey := PendingWorkerKey info;
         PeerId := NewID params;
         Multiaddrs := Multiaddrs info |}
    = Success (persisted s') /\
    sent s' = sent s /\ balance s' = balance s.
Proof.
  unfold ChangePeerID. intros Hrun.
  apply rt_bind_returned in Hrun as (? & s0 & Hchk & Hrun).
  rewrite checkPeerInfo_total in Hchk.
  destruct ((Z.of_nat (length (NewID params)) <=? MaxPeerIDLength)
            && forallb (fun ma => negb (Nat.eqb (length ma) 0)) []
            && (Z.of_nat (length (concat (@nil (list Byte.byte))))
                <=? MaxMultiaddrData)) eqn:Hok; [| discriminate].
  inversion Hchk; subst.
  apply andb_true_iff in Hok as [Hok _].
  apply andb_true_iff in Hok as [Hlen _]. apply Z.leb_le in Hlen.
  apply Transaction_returned in Hrun as (st' & Htx & ->).
  apply tx_bind_ok in Htx as (info & st1 & Hget & Htx).
  apply tx_read_ok in Hget as [Hget ->].
  apply tx_bind_ok in Htx as (? & st2 & Hval & Htx).
  apply ValidateImmediateCallerIs_ok in Hval as [Hcaller ->].
  cbv zeta in Htx. apply tx_update_ok in Htx.
  exists info. simpl. auto 10.
Qed.

(** X30.  A call of [ChangeMultiaddrs] that returns came from the owner,
    the worker or a control address, with multiaddrs none of which is
    empty and of at most [MaxMultiaddrData] bytes together; it saves the
    miner info with the new multiaddrs and every other field as it was,
    and sends nothing. *)
Theorem ChangeMultiaddrs_returned rt params s u s' :
  ChangeMultiaddrs rt params s = Returned u s' ->
  exists info,
    GetFullInfo (persisted s) = Success info /\
    In (Caller rt)
      (ControlAddresses (fi_Info info)
       ++ [Owner (fi_Info info); Worker (fi_Info info)]) /\
    Forall (fun ma => ma <> []) (NewMultiaddrs params) /\
    Z.of_nat (length (concat (NewMultiaddrs params))) <= MaxMultiaddrData /\
    SaveInfo (persisted s)
      {| fi_Info := fi_Info info;
         PendingWorkerKey := PendingWorkerKey info;
         PeerId := PeerId info;
         Multiaddrs := NewMultiaddrs params |}
    = Success (persisted s') /\
    sent s' = sent s /\ balance s' = balance s.
Proof.
  unfold ChangeMultiaddrs. intros Hrun.
  apply rt_bind_returned in Hrun as (? & s0 & Hchk & Hrun).
  rewrite checkPeerInfo_total in Hchk.
  destruct ((Z.of_nat (length (@nil Byte.byte)) <=? MaxPeerIDLength)
            && forallb (fun ma => negb (Nat.eqb (length ma) 0))
                 (NewMultiaddrs params)
            && (Z.of_nat (length (concat (NewMultiaddrs params)))
                <=? MaxMultiaddrData)) eqn:Hok; [| discriminate].
  inversion Hchk; subst.
  apply andb_true_iff in Hok as [Hok Hsize]. apply Z.leb_le in Hsize.
  apply andb_true_iff in Hok as [_ Hall].
  assert (Hnonempty : Forall (fun ma => ma <> []) (NewMultiaddrs params)).
  { apply List.Forall_forall. intros ma Hin.
    rewrite forallb_forall in Hall. specialize (Hall ma Hin).
    intros ->. discriminate Hall. }
  apply Transaction_returned in Hrun as (st' & Htx & ->).
  apply tx_bind_ok in Htx as (info & st1 & Hget & Htx).
  apply tx_read_ok in Hget as [Hget ->].
  apply tx_bind_ok in Htx as (? & st2 & Hval & Htx).
  apply ValidateImmediateCallerIs_ok in Hval as [Hcaller ->].
  cbv zeta in Htx. apply tx_update_ok in Htx.
  exists info. simpl. auto 10.
Qed.

End InfoProperties.

(** ** The properties on the executable miner *)

Module Runs.
Import Sim Scenario.
#[local] Existing Instances
  ConstantEstimates network errors policy structures ops.

(** *** Monies *)

(** C3 on a sector of twenty days that replaced an older one: the reward
    of twenty days at activation, twenty days of day reward and fifty days
    of the replaced day reward exceed the undeclared-fault fee. *)
Lemma PledgePenaltyForTermination_max_witness :
  PledgePenaltyForTermination 1474560 57600 29491200 (steady (2 ^ 50)) 2048
    (steady (2 ^ 50)) 100 300000
  = 58987400.
Proof.
  assert (Hday : 0 < EpochsInDay) by reflexivity.
  assert (Hage : TerminationLifetimeCap * EpochsInDay - 57600 <= max_int64)
    by (vm_compute; discriminate).
  pose proof (PledgePenaltyForTermination_max 1474560 57600 29491200
                (steady (2 ^ 50)) 2048 (steady (2 ^ 50)) 100 300000
                Hday Hage) as H.
  cbv zeta in H. rewrite H. vm_compute. reflexivity.
Defined.

(** C4 as stated fails without network power: the reward estimate comes
    back, here 5, where the product with a zero sector power is 0. *)
Lemma ExpectedRewardForPower_no_network_power :
  ExpectedRewardForPower (steady 5) (steady 0) 0 2880 = 5 /\
  Z.shiftr
    (Z.max 0 (0 * ExtrapolatedCumSumOfRatio 2880 0 (steady 5) (steady 0)))
    128 = 0.
Proof. split; reflexivity. Qed.

(** C5 on a sector of 2048 bytes in a network at its baseline. *)
Lemma InitialPledgeForPower_sum_witness :
  InitialPledgeForPower 2048 (2 ^ 50) (steady (2 ^ 50)) (steady (2 ^ 50))
    (10 * 2 ^ 50)
  = Some 117970944.
Proof.
  rewrite (InitialPledgeForPower_sum 2048 (2 ^ 50) (steady (2 ^ 50))
             (steady (2 ^ 50)) (10 * 2 ^ 50)).
  - vm_compute. reflexivity.
  - vm_compute. discriminate.
Defined.

(** *** Window PoSt *)

Lemma post_returns : post_run = Returned tt (outcome post_run).
Proof. vm_compute. reflexivity. Qed.

(** The power gained, the burnt penalty and the pledge given up are the
    messages of the call. *)
Lemma post_messages :
  sent (outcome post_run)
  = [Reward_ThisEpochReward; Power_CurrentTotalPower;
     Power_UpdateClaimedPower 2048 2048;
     MethodSend BurntFundsActorAddr 42113024;
     Power_UpdatePledgeTotal (-42113024)].
Proof. vm_compute. reflexivity. Qed.

(** C1 on a submission that skips one sector and recovers two: the target
    is 29491200 - 12621824 + 25243648. *)
Lemma SubmitWindowedPoSt_penalty_target_witness :
  post_run = Returned tt (outcome post_run) /\
  exists st2 st3 fromVesting fromBalance,
    PenalizeFundsInPriorityOrder st2 102 42113024
      (GetUnlockedBalance st2 100000000)
    = Success (st3, (fromVesting, fromBalance)).
Proof.
  split; [exact post_returns |].
  destruct (SubmitWindowedPoSt_penalty_target post_rt post_params post_start
              tt _ post_returns)
    as (i & dl & st1 & dls & d & res & infos & st2 & st3 & fv & fb
        & Hval & Hrec & Hpen).
  vm_compute in Hval. injection Hval as <- <- <-.
  vm_compute in Hrec. injection Hrec as <- <- <- <- <-.
  cbv zeta in Hpen.
  eexists _, st3, fv, fb. exact Hpen.
Defined.

(** C7, amended, on a submission to the open deadline whose randomness is
    not the chain's. *)
Lemma SubmitWindowedPoSt_illegal_argument_witness :
  exists s',
    SubmitWindowedPoSt post_rt stale_params healthy_start
    = Aborted ErrIllegalArgument s' /\
    persisted s' = persisted healthy_start.
Proof.
  apply (SubmitWindowedPoSt_illegal_argument post_rt stale_params
           healthy_start info 8).
  - reflexivity.
  - reflexivity.
  - reflexivity.
  - simpl. auto.
  - reflexivity.
  - right. unfold validation_failure. cbv zeta.
    right. right. right. split; [reflexivity |].
    right. vm_compute. discriminate.
Defined.

(** C7 as stated fails before the proving period opens: the same
    submission, its randomness still not the chain's, aborts with
    [ErrIllegalState]. *)
Lemma SubmitWindowedPoSt_before_period :
  GetRandomnessFromTickets early_rt DomainSeparationTag_PoStChainCommit
    (Challenge (State_DeadlineInfo (persisted healthy_start) 50)) []
  <> ChainCommitRand stale_params /\
  SubmitWindowedPoSt early_rt stale_params healthy_start
  = Aborted ErrIllegalState
      (sent_more healthy_start
         [Reward_ThisEpochReward; Power_CurrentTotalPower]).
Proof. split; [vm_compute; discriminate | vm_compute; reflexivity]. Qed.

(** Nor does a caller that is no address of the miner get
    [ErrIllegalArgument] for two proofs: the runtime refuses it. *)
Lemma SubmitWindowedPoSt_stranger :
  SubmitWindowedPoSt (runtime 102 stranger)
    (post 0 ∅ [proof; proof] chainCommitment) healthy_start
  = Aborted SysErrForbidden
      (sent_more healthy_start
         [Reward_ThisEpochReward; Power_CurrentTotalPower]).
Proof. vm_compute. reflexivity. Qed.

Lemma skipping_returns : skipping_run = Returned tt (outcome skipping_run).
Proof. vm_compute. reflexivity. Qed.

(** C10 on two submissions without a proof, sector 3 being faulty: the one
    that skips sector 1 alone leaves sector 2 to prove and aborts; the one
    that skips sectors 1 and 2 returns, and its recording leaves no sector
    to prove. *)
Lemma SubmitWindowedPoSt_zero_proofs_witness :
  SubmitWindowedPoSt post_rt (unproven_params {[ 1%N ]}) faulty_start
  = Aborted ErrIllegalArgument
      (sent_more faulty_start
         [Reward_ThisEpochReward; Power_CurrentTotalPower])
  /\ exists deadlines deadline postResult st1 st2,
       SubmitWindowedPoSt_record (unproven_params {[ 1%N; 2%N ]}) info
         (State_DeadlineInfo (persisted faulty_start) 102) st1
       = TxOk (deadlines, deadline, postResult, []) st2.
Proof.
  split.
  - eapply (SubmitWindowedPoSt_zero_proofs post_rt
              (unproven_params {[ 1%N ]}) faulty_start).
    + reflexivity.
    + reflexivity.
    + reflexivity.
    + reflexivity.
    + vm_compute; reflexivity.
    + vm_compute; reflexivity.
    + discriminate.
  - destruct (SubmitWindowedPoSt_record (unproven_params {[ 1%N; 2%N ]})
                info (State_DeadlineInfo (persisted faulty_start) 102)
                (persisted faulty_start))
      as [[[[dls dl] res] infos] st2 | c] eqn:Hrec;
      [| vm_compute in Hrec; discriminate Hrec].
    assert (Hval :
      SubmitWindowedPoSt_validate post_rt (unproven_params {[ 1%N; 2%N ]})
        (persisted faulty_start)
      = TxOk (info, State_DeadlineInfo (persisted faulty_start) 102)
          (persisted faulty_start))
      by (vm_compute; reflexivity).
    assert (Hdl : Deadline (unproven_params {[ 1%N; 2%N ]})
                  < WPoStPeriodDeadlines) by reflexivity.
    pose proof (proj2 (SubmitWindowedPoSt_zero_proofs post_rt
                  (unproven_params {[ 1%N; 2%N ]}) faulty_start
                  _ _ _ _ _ _ _ _
                  eq_refl Hdl eq_refl eq_refl Hval Hrec)
                  tt _ skipping_returns) as Hnone.
    subst infos. exists dls, dl, res, (persisted faulty_start), st2.
    exact Hrec.
Defined.

(** *** End of deadline *)

Lemma cron_returns : cron_run = Returned tt (outcome cron_run).
Proof. vm_compute. reflexivity. Qed.

(** C2 on a deadline that closes with two sectors newly detected faulty
    and one still faulty: the target is 58982400 + 12621824. *)
Lemma handleProvingDeadline_penalty_target_witness :
  cron_run = Returned tt (outcome cron_run) /\
  exists st3 st4 fromVesting fromBalance,
    PenalizeFundsInPriorityOrder st3 104 71604224
      (GetUnlockedBalance st3 100000000)
    = Success (st4, (fromVesting, fromBalance)).
Proof.
  split; [exact cron_returns |].
  destruct (handleProvingDeadline_penalty_target cron_rt cron_start tt _
              cron_returns)
    as (st1 & nv & st2 & dep & st3 & res & st4 & fv & fb
        & Hunl & Hexp & Hadv & Hpen & _).
  vm_compute in Hunl. injection Hunl as <- <-.
  vm_compute in Hexp. injection Hexp as <- <-.
  vm_compute in Hadv. injection Hadv as <- <-.
  cbv zeta in Hpen.
  eexists _, st4, fv, fb. exact Hpen.
Defined.

(** *** Early terminations *)

Lemma expiring_returns : expiring_run = Returned tt (outcome expiring_run).
Proof. vm_compute. reflexivity. Qed.

Lemma expiring_enrolls :
  enrollments (sent (outcome expiring_run)) = [early_enrollment 105].
Proof. vm_compute. reflexivity. Qed.

Lemma terminate_returns :
  terminate_run = Returned {| Done := true |} (outcome terminate_run).
Proof. vm_compute. reflexivity. Qed.

(** C9 on a cron call whose expired faults leave early terminations that
    one round of processing does not exhaust, which enrolls the event for
    epoch 105, and on a termination that is processed at once, which
    enrolls nothing. *)
Lemma early_termination_enrollment_witness :
  in_int64 (104 + 1) /\
  (exists s1 s2,
     processEarlyTerminations cron_rt s1 = Returned true s2 /\
     enrollments (sent (outcome expiring_run)) = [early_enrollment 105]) /\
  enrollments (sent (outcome terminate_run)) = [].
Proof.
  assert (Hcron : in_int64 (CurrEpoch cron_rt + 1)) by (now vm_compute).
  assert (Hpost : in_int64 (CurrEpoch post_rt + 1)) by (now vm_compute).
  split; [exact Hcron |]. split.
  - destruct (proj2 (early_termination_enrollment cron_rt Hcron)
                expiring_start tt _ expiring_returns)
      as (stV & nv & stE & dep & stA & res & pd & pen & pl & st1
          & Hunl & Hexp & _ & Htx & Hif).
    vm_compute in Hunl. injection Hunl as <- <-.
    vm_compute in Hexp. injection Hexp as <- <-.
    vm_compute in Htx. injection Htx as <- <- <- <-.
    match type of Hif with
    | if ?c then _ else _ =>
        assert (Hc : c = true) by (vm_compute; reflexivity);
        rewrite Hc in Hif; clear Hc
    end.
    destruct Hif as (s1 & more & s2 & _ & Hproc & Henr).
    exists s1, s2. rewrite expiring_enrolls in *.
    destruct more; [split; [exact Hproc | reflexivity] |].
    discriminate Henr.
  - destruct (proj1 (early_termination_enrollment post_rt Hpost)
                terminate_params healthy_start _ _ terminate_returns)
      as (toProcess & pd & st1 & s1 & more & s2 & _ & _ & _ & Hdone & Henr).
    rewrite Henr. destruct more; [discriminate Hdone | reflexivity].
Defined.

(** *** Withdrawal *)

Lemma withdraw_returns : withdraw_run = Returned tt (outcome withdraw_run).
Proof. vm_compute. reflexivity. Qed.

(** C6, amended, on a miner in debt of 500 and its owner: with an early
    termination pending the withdrawal of 1000 is forbidden; with none,
    the debt is
    repaid, the owner receives 1000 and 500 are burnt. *)
Lemma WithdrawBalance_early_terminations_witness :
  WithdrawBalance withdraw_rt (withdraw_params 1000) terminating_start
  = Aborted ErrForbidden terminating_start
  /\ FeeDebt (persisted (outcome withdraw_run)) = 0
  /\ sent (outcome withdraw_run)
     = [MethodSend owner 1000; MethodSend BurntFundsActorAddr 500].
Proof.
  split.
  - apply (WithdrawBalance_early_terminations withdraw_rt
             (withdraw_params 1000) terminating_start info).
    + simpl. lia.
    + reflexivity.
    + reflexivity.
    + vm_compute. discriminate.
  - assert (Hinfo : GetInfo (persisted indebted_start) = Success info)
      by reflexivity.
    destruct (proj2 (WithdrawBalance_early_terminations withdraw_rt
                       (withdraw_params 1000) indebted_start info
                       ltac:(simpl; lia) Hinfo)
                tt _ withdraw_returns)
      as (_ & _ & st1 & nv & st2 & fee & Hunl & Hrepay & Hst & Hsent).
    vm_compute in Hunl. injection Hunl as <- <-.
    vm_compute in Hrepay. injection Hrepay as <- <-.
    rewrite Hst, Hsent. split; reflexivity.
Defined.

(** C6 as stated fails on a negative amount: with an early termination
    pending the call aborts with [ErrIllegalArgument]. *)
Lemma WithdrawBalance_negative_amount :
  EarlyTerminations (persisted terminating_start) <> ∅ /\
  WithdrawBalance withdraw_rt (withdraw_params (-1)) terminating_start
  = Aborted ErrIllegalArgument terminating_start.
Proof. split; [vm_compute; discriminate | vm_compute; reflexivity]. Qed.

(** *** Pre-commitment *)

Lemma precommit_returns :
  precommit_run = Returned tt (outcome precommit_run).
Proof. vm_compute. reflexivity. Qed.

(** C8 on the upgrade of sector 1, whose deposit is 117964800: an
    available balance of 49997000 falls short of it and the call aborts
    with [ErrInsufficientFunds]; with 149997000 available the state the
    call persists holds the deposit, the record and its expiry. *)
Lemma PreCommitSector_deposit_reserved_witness :
  (exists s', short_run = Aborted ErrInsufficientFunds s') /\
  117964800 <= 149997000 /\
  exists st2 record,
    PutPrecommittedSector
      (AddPreCommitDeposit (admitted funded_start) 117964800) record
    = Success st2 /\
    PreCommitDeposit record = 117964800 /\
    AddPreCommitExpiry st2 10051 100
    = Success (persisted (outcome precommit_run)).
Proof.
  assert (Hcaller : In (Caller early_rt)
                      (ControlAddresses info ++ [Owner info; Worker info]))
    by (vm_compute; tauto).
  assert (Hdeals : Z.of_nat (length (DealIDs upgrade))
                   <= SectorDealsMax (mi_SectorSize info))
    by (vm_compute; discriminate).
  assert (Hold : so_Expiration (sector 1 1000) <= Expiration upgrade)
    by (vm_compute; discriminate).
  split; [| split; [lia |]].
  - assert (Hchecks : PreCommitSector_checks early_rt upgrade healthy_start
                      = Returned tt healthy_start) by (vm_compute; reflexivity).
    assert (Hdebt : RepayDebt (persisted healthy_start)
                      (balance healthy_start)
                    = Success (persisted healthy_start, 0))
      by (vm_compute; reflexivity).
    assert (Hpledge : MeetsInitialPledgeCondition (persisted healthy_start)
                        (balance healthy_start - 0) = true)
      by (vm_compute; reflexivity).
    assert (Hinfo : GetInfo (persisted healthy_start) = Success info)
      by (vm_compute; reflexivity).
    assert (Halloc : AllocateSectorNumber (persisted healthy_start) 100
                     = Success (admitted healthy_start))
      by (vm_compute; reflexivity).
    assert (Hnew : GetPrecommittedSector (admitted healthy_start) 100
                   = Success None) by (vm_compute; reflexivity).
    assert (Hno : HasSectorNo (admitted healthy_start) 100 = Success false)
      by (vm_compute; reflexivity).
    assert (Hget : GetSector (admitted healthy_start) 1
                   = Success (Some (sector 1 1000)))
      by (vm_compute; reflexivity).
    assert (Hhealth : CheckSectorHealth (admitted healthy_start) 0 0 1
                      = Success tt) by (vm_compute; reflexivity).
    pose proof (PreCommitSector_deposit_reserved early_rt upgrade
                  healthy_start (persisted healthy_start) 0
                  (persisted healthy_start) 0 info (admitted healthy_start)
                  (sector 1 1000) Hchecks eq_refl eq_refl eq_refl eq_refl
                  Hdebt Hpledge Hinfo Hcaller eq_refl eq_refl Hdeals Halloc
                  Hnew Hno
                  (fun _ => conj Hget (conj eq_refl (conj eq_refl
                                (conj Hold Hhealth))))) as H.
    cbv zeta in H. destruct H as [H _].
    eexists. apply H. vm_compute. reflexivity.
  - assert (Hchecks : PreCommitSector_checks early_rt upgrade funded_start
                      = Returned tt funded_start) by (vm_compute; reflexivity).
    assert (Hdebt : RepayDebt (persisted funded_start)
                      (balance funded_start)
                    = Success (persisted funded_start, 0))
      by (vm_compute; reflexivity).
    assert (Hpledge : MeetsInitialPledgeCondition (persisted funded_start)
                        (balance funded_start - 0) = true)
      by (vm_compute; reflexivity).
    assert (Hinfo : GetInfo (persisted funded_start) = Success info)
      by (vm_compute; reflexivity).
    assert (Halloc : AllocateSectorNumber (persisted funded_start) 100
                     = Success (admitted funded_start))
      by (vm_compute; reflexivity).
    assert (Hnew : GetPrecommittedSector (admitted funded_start) 100
                   = Success None) by (vm_compute; reflexivity).
    assert (Hno : HasSectorNo (admitted funded_start) 100 = Success false)
      by (vm_compute; reflexivity).
    assert (Hget : GetSector (admitted funded_start) 1
                   = Success (Some (sector 1 1000)))
      by (vm_compute; reflexivity).
    assert (Hhealth : CheckSectorHealth (admitted funded_start) 0 0 1
                      = Success tt) by (vm_compute; reflexivity).
    pose proof (PreCommitSector_deposit_reserved early_rt upgrade
                  funded_start (persisted funded_start) 0
                  (persisted funded_start) 0 info (admitted funded_start)
                  (sector 1 1000) Hchecks eq_refl eq_refl eq_refl eq_refl
                  Hdebt Hpledge Hinfo Hcaller eq_refl eq_refl Hdeals Halloc
                  Hnew Hno
                  (fun _ => conj Hget (conj eq_refl (conj eq_refl
                                (conj Hold Hhealth))))) as H.
    cbv zeta in H. destruct H as [_ H].
    destruct (H tt _ precommit_returns)
      as (_ & st2 & msd & Hput & Hmsd & Hexp).
    vm_compute in Hmsd. injection Hmsd as <-.
    match type of Hput with
    | context [Z.max ?a ?b] =>
        assert (Hd : Z.max a b = 117964800) by (vm_compute; reflexivity);
        rewrite Hd in Hput
    end.
    eexists st2, _. split; [exact Hput |]. split; [reflexivity |].
    exact Hexp.
Defined.

End Runs.

(** ** The further properties on the executable miner *)
Module Cases.
Import Sim Scenario Bench.
#[local] Existing Instances
  ConstantEstimates network errors policy structures ops.

(** *** The proving period *)

(** X1 at epoch 1000 and offset 7: the next period starts at epoch 1207,
    which is 5 * 240 + 7. *)
Lemma nextProvingPeriodStart_next_witness :
  nextProvingPeriodStart 1000 7 = Some 1207
  /\ 1207 mod WPoStProvingPeriod = 7.
Proof.
  assert (H0 : 0 <= 1000) by lia.
  assert (H1 : 1000 + WPoStProvingPeriod <= max_int64)
    by (vm_compute; discriminate).
  assert (H2 : 0 <= 7 < WPoStProvingPeriod)
    by (unfold WPoStProvingPeriod; lia).
  destruct (nextProvingPeriodStart_next 1000 7 H0 H1 H2)
    as (periodStart & Hstart & _ & Hmod).
  assert (Hps : periodStart = 1207)
    by (vm_compute in Hstart; now injection Hstart).
  subst periodStart. split; [exact Hstart | exact Hmod].
Defined.

(** X2 on the address bytes 01 02 at epoch 1000, hashed by repetition:
    the offset is 48. *)
Lemma assignProvingPeriodOffset_range_witness :
  assignProvingPeriodOffset (Some [Byte.x01; Byte.x02]) 1000 echo = Some 48
  /\ 0 <= 48 < WPoStProvingPeriod.
Proof.
  assert (H : assignProvingPeriodOffset (Some [Byte.x01; Byte.x02]) 1000 echo
              = Some 48) by (vm_compute; reflexivity).
  split; [exact H |].
  exact (assignProvingPeriodOffset_range _ _ _ _ H).
Defined.

(** *** Fees and pledges *)

(** X6 on a reward estimate of 100. *)
Lemma fault_fees_nonneg_witness :
  0 <= PledgePenaltyForDeclaredFault (steady 100) (steady 50) 2048 /\
  0 <= PledgePenaltyForUndeclaredFault (steady 100) (steady 50) 2048 /\
  0 <= PreCommitDepositForPower (steady 100) (steady 50) 2048.
Proof.
  apply (fault_fees_nonneg (steady 100) (steady 50) 2048).
  vm_compute. discriminate.
Defined.

(** X7 on a sector of 300000 epochs, older than the 70 days of the cap:
    the penalty is 1474560 + 70 * 57600. *)
Lemma PledgePenaltyForTermination_lifetime_cap_witness :
  PledgePenaltyForTermination 57600 300000 1474560 (steady (2 ^ 50)) 2048
    (steady 1) 100 5000
  = 1474560 + 70 * 57600.
Proof.
  assert (Hday : 0 < EpochsInDay) by reflexivity.
  assert (Hage : TerminationLifetimeCap * EpochsInDay <= 300000)
    by (vm_compute; discriminate).
  assert (Hrep : 0 <= 5000) by lia.
  rewrite (PledgePenaltyForTermination_lifetime_cap 57600 300000 1474560
             (steady (2 ^ 50)) 2048 (steady 1) 100 5000 Hday Hage Hrep).
  vm_compute. reflexivity.
Defined.

(** X8 on a sector of power 2048 in a network of power 2 ^ 50. *)
Lemma InitialPledgeForPower_covers_deposit_witness :
  exists pledge,
    InitialPledgeForPower 2048 (2 ^ 50) (steady (2 ^ 50)) (steady (2 ^ 50))
      (10 ^ 18) = Some pledge /\
    PreCommitDepositForPower (steady (2 ^ 50)) (steady (2 ^ 50)) 2048
    <= pledge.
Proof.
  apply (InitialPledgeForPower_covers_deposit 2048 (2 ^ 50)
           (steady (2 ^ 50)) (steady (2 ^ 50)) (10 ^ 18)).
  - vm_compute. discriminate.
  - lia.
Defined.

(** *** Helpers *)

(** X9 on three deals, when the market accepts every message. *)
Lemma requestTerminateDeals_batches_witness :
  exists batches,
    requestTerminateDeals post_rt 100 [1; 2; 3] healthy_start
    = Returned tt
        (sent_more healthy_start
           (map (Market_OnMinerSectorsTerminate 100) batches)) /\
    concat batches = [1; 2; 3] /\
    Forall (fun b => (0 < length b)%nat
                     /\ Z.of_nat (length b) <= cbg_MaxLength) batches.
Proof.
  assert (Hok : forall deals,
            SendExit post_rt (Market_OnMinerSectorsTerminate 100 deals) = Ok)
    by reflexivity.
  exact (requestTerminateDeals_batches post_rt 100 [1; 2; 3] healthy_start
           Hok).
Defined.

(** *** Parameters of a pre-commitment *)

(** X13 at epoch 50: an expiration at epoch 600000 is valid for an
    activation at epoch 10050, one at epoch 10000 is not. *)
Lemma validateExpiration_returns_witness :
  validateExpiration early_rt 10050 600000 3 healthy_start
  = Returned tt healthy_start
  /\ validateExpiration early_rt 10050 10000 3 healthy_start
     = Aborted ErrIllegalArgument healthy_start.
Proof.
  assert (Hext : in_int64 (CurrEpoch early_rt + MaxSectorExpirationExtension))
    by (now vm_compute).
  assert (Hlong : in_int64 (600000 - 10050)) by (now vm_compute).
  assert (Hshort : in_int64 (10000 - 10050)) by (now vm_compute).
  split.
  - apply (validateExpiration_returns early_rt 10050 600000 3 healthy_start
             Hlong Hext).
    vm_compute. repeat split; discriminate.
  - apply (validateExpiration_returns early_rt 10050 10000 3 healthy_start
             Hshort Hext).
    intros (Hafter & _). vm_compute in Hafter. discriminate Hafter.
Defined.

(** X14 at epoch 50: the upgrade of sector 1 passes the checks and is
    pre-committed; with a seal randomness epoch of 50 it is refused. *)
Lemma PreCommitSector_parameters_witness :
  precommit_valid early_rt upgrade
  /\ PreCommitSector early_rt late_seal funded_start
     = Aborted ErrIllegalArgument funded_start.
Proof.
  assert (H1 : in_int64 (CurrEpoch early_rt - MaxPreCommitRandomnessLookback))
    by (now vm_compute).
  assert (H2 : in_int64
                 (CurrEpoch early_rt
                  + default 0 (MaxProveCommitDuration 3)))
    by (now vm_compute).
  assert (H3 : in_int64
                 (600000
                  - (CurrEpoch early_rt
                     + default 0 (MaxProveCommitDuration 3))))
    by (now vm_compute).
  assert (H4 : in_int64 (CurrEpoch early_rt + MaxSectorExpirationExtension))
    by (now vm_compute).
  assert (Hrun : PreCommitSector early_rt upgrade funded_start
                 = Returned tt (outcome precommit_run))
    by (vm_compute; reflexivity).
  split.
  - exact (proj2 (PreCommitSector_parameters early_rt upgrade funded_start
                    H1 H2 H3 H4) tt _ Hrun).
  - apply (PreCommitSector_parameters early_rt late_seal funded_start
             H1 H2 H3 H4).
    intros (_ & _ & _ & _ & [_ Hseal] & _).
    vm_compute in Hseal. discriminate Hseal.
Defined.

(** *** Window PoSt *)

(** X15 on the submission of the worker, with a runtime that rejects the
    proof. *)
Lemma SubmitWindowedPoSt_invalid_proof_witness :
  SubmitWindowedPoSt doubting_rt post_params post_start
  = Aborted ErrIllegalArgument
      (sent_more post_start [Reward_ThisEpochReward; Power_CurrentTotalPower]).
Proof.
  assert (Hdl : Deadline post_params < WPoStPeriodDeadlines)
    by (vm_compute; reflexivity).
  lazymatch eval vm_compute in
    (SubmitWindowedPoSt_validate doubting_rt post_params
       (persisted post_start)) with
  | TxOk (?i, ?cd) ?st1 =>
      assert (Hval : SubmitWindowedPoSt_validate doubting_rt post_params
                       (persisted post_start) = TxOk (i, cd) st1)
        by (vm_compute; reflexivity);
      lazymatch eval vm_compute in
        (SubmitWindowedPoSt_record post_params i cd st1) with
      | TxOk (?dls, ?dl, ?res, ?infos) ?st2 =>
          assert (Hrec : SubmitWindowedPoSt_record post_params i cd st1
                         = TxOk (dls, dl, res, infos) st2)
            by (vm_compute; reflexivity);
          apply (SubmitWindowedPoSt_invalid_proof doubting_rt post_params
                   post_start i cd st1 dls dl res infos st2 1000 Hdl
                   eq_refl eq_refl Hval Hrec);
            [discriminate | discriminate | reflexivity | reflexivity]
      end
  end.
Defined.

(** X16 on the submission that recovers sector 2 and 3 and skips sector
    1: the power grows by a sector, and the penalty of 42113024 is burnt
    and leaves the pledge. *)
Lemma SubmitWindowedPoSt_messages_witness :
  sent (outcome post_run)
  = [Reward_ThisEpochReward; Power_CurrentTotalPower;
     Power_UpdateClaimedPower 2048 2048;
     MethodSend BurntFundsActorAddr 42113024;
     Power_UpdatePledgeTotal (-42113024)]
  /\ balance (outcome post_run) = 100000000 - 42113024.
Proof.
  assert (Hrun : SubmitWindowedPoSt post_rt post_params post_start
                 = Returned tt (outcome post_run))
    by (vm_compute; reflexivity).
  destruct (SubmitWindowedPoSt_messages post_rt post_params post_start tt _
              Hrun)
    as (st' & res & pen & pl & Htx & _ & Hbal & Hsent).
  vm_compute in Htx. injection Htx as <- <- <- <-.
  rewrite Hsent, Hbal. split; vm_compute; reflexivity.
Defined.

(** *** Enrollments *)

(** X17 on the miner with pending early terminations: the processing
    returns with work left and enrolls nothing. *)
Lemma processEarlyTerminations_never_enrolls_witness :
  List.filter is_Enrollment
    (sent (outcome (processEarlyTerminations cron_rt pending_start)))
  = [].
Proof.
  assert (Hrun : processEarlyTerminations cron_rt pending_start
                 = Returned true
                     (outcome (processEarlyTerminations cron_rt
                                 pending_start)))
    by (vm_compute; reflexivity).
  rewrite (processEarlyTerminations_never_enrolls cron_rt pending_start
             true _ Hrun).
  reflexivity.
Defined.

(** X18 on the end of deadline 0 at epoch 104: the end of deadline 1, at
    epoch 109, is enrolled. *)
Lemma handleProvingDeadline_reenrolls_witness :
  List.filter is_ProvingDeadlineEnrollment (sent (outcome cron_run))
  = [Power_EnrollCronEvent 109 (payload CronEventProvingDeadline)].
Proof.
  assert (Hrun : handleProvingDeadline cron_rt cron_start
                 = Returned tt (outcome cron_run))
    by (vm_compute; reflexivity).
  destruct (handleProvingDeadline_reenrolls cron_rt cron_start tt _ Hrun)
    as (r & st1 & Htx & Hsent).
  vm_compute in Htx. injection Htx as <- <-.
  rewrite Hsent. vm_compute. reflexivity.
Defined.

(** *** The remaining handlers *)

(** X19 on a miner with no early termination pending. *)
Lemma processEarlyTerminations_nothing_popped_witness :
  processEarlyTerminations post_rt healthy_start
  = Returned false
      (sent_more healthy_start
         [Reward_ThisEpochReward; Power_CurrentTotalPower]).
Proof.
  assert (Hpop : PopEarlyTerminations (persisted healthy_start)
                   AddressedPartitionsMax AddressedSectorsMax
                 = Success (persisted healthy_start, ([], false)))
    by (vm_compute; reflexivity).
  rewrite (processEarlyTerminations_nothing_popped post_rt healthy_start
             (persisted healthy_start) [] false eq_refl eq_refl Hpop
             eq_refl).
  reflexivity.
Defined.

(** X20 on the miner with pending early terminations: a round leaves
    work and the event is enrolled for epoch 105. *)
Lemma OnDeferredCronEvent_early_terminations_witness :
  List.filter is_Enrollment (sent (outcome early_run))
  = [early_enrollment 105].
Proof.
  assert (Hnext : in_int64 (CurrEpoch cron_rt + 1)) by (now vm_compute).
  assert (Hrun : early_run = Returned tt (outcome early_run))
    by (vm_compute; reflexivity).
  destruct (OnDeferredCronEvent_early_terminations (LI := limits)
              (IO := info_ops None) cron_rt pending_start tt _ Hnext Hrun)
    as (_ & more & s1 & Hproc & _ & Hsent).
  assert (Hmore : processEarlyTerminations cron_rt pending_start
                  = Returned true
                      (outcome (processEarlyTerminations cron_rt
                                  pending_start)))
    by (vm_compute; reflexivity).
  destruct more.
  - rewrite Hsent. reflexivity.
  - rewrite Hmore in Hproc. discriminate Hproc.
Defined.

(** X21 at epoch 103, before the pending key takes effect. *)
Lemma OnDeferredCronEvent_key_not_due_witness :
  key_run 103 = Returned tt healthy_start.
Proof.
  apply (OnDeferredCronEvent_key_not_due (LI := limits)
           (IO := info_ops (Some key)) (runtime 103 4%N) healthy_start
           {| fi_Info := info; PendingWorkerKey := Some key;
              PeerId := []; Multiaddrs := [] |}).
  - reflexivity.
  - reflexivity.
  - simpl. lia.
Defined.

(** X22 at epoch 104, when the pending key takes effect: the info saved
    has the new worker. *)
Lemma OnDeferredCronEvent_key_due_witness :
  exists saved,
    SaveInfo (InfoOps := info_ops (Some key)) (persisted healthy_start)
      saved
    = Success (persisted (outcome (key_run 104))) /\
    Worker (fi_Info saved) = 1003%N /\
    PendingWorkerKey saved = None.
Proof.
  assert (Hrun : key_run 104 = Returned tt (outcome (key_run 104)))
    by (vm_compute; reflexivity).
  assert (Hdue : EffectiveAt key <= CurrEpoch (runtime 104 4%N))
    by (simpl; lia).
  destruct (OnDeferredCronEvent_key_due (LI := limits)
              (IO := info_ops (Some key)) (runtime 104 4%N) healthy_start
              {| fi_Info := info; PendingWorkerKey := Some key;
                 PeerId := []; Multiaddrs := [] |}
              key tt _ eq_refl eq_refl Hdue Hrun)
    as (saved & Hsave & Hworker & Hkey & _).
  exists saved. split; [exact Hsave |]. split; [exact Hworker | exact Hkey].
Defined.

(** X23 on two headers of the same length, which are no fault. *)
Lemma ReportConsensusFault_refused_witness :
  ReportConsensusFault (LI := limits) (IO := info_ops None) report_rt
    syscalls (headers [Byte.x01] [Byte.x02]) healthy_start
  = Aborted ErrIllegalArgument healthy_start.
Proof.
  apply (ReportConsensusFault_refused (LI := limits) (IO := info_ops None)
           report_rt syscalls (headers [Byte.x01] [Byte.x02])
           healthy_start).
  - reflexivity.
  - exact I.
Defined.

(** X24 on a fault of epoch 90 reported at epoch 102: of the penalty of
    1000000, taken from the vesting funds, the reporter gets 12000 and
    988000 are burnt. *)
Lemma ReportConsensusFault_conserves_witness :
  sent (outcome report_run)
  = [Reward_ThisEpochReward; MethodSend stranger 12000;
     MethodSend BurntFundsActorAddr 988000;
     Power_UpdatePledgeTotal (-1000000)].
Proof.
  assert (Hrun : ReportConsensusFault (LI := limits) (IO := info_ops None)
                   report_rt syscalls (headers [Byte.x01] []) healthy_start
                 = Returned tt (outcome report_run))
    by (vm_compute; reflexivity).
  destruct (ReportConsensusFault_conserves (LI := limits)
              (IO := info_ops None) report_rt syscalls
              (headers [Byte.x01] []) healthy_start tt _ Hrun)
    as (fault & penalty & st1 & fv & fb & i
        & Hfault & Hpen & Htake & _ & _ & _ & Hsent).
  vm_compute in Hfault. injection Hfault as <-.
  vm_compute in Hpen. injection Hpen as <-.
  vm_compute in Htake. injection Htake as <- <- <-.
  rewrite Hsent. vm_compute. reflexivity.
Defined.

(** X25 on the owner, whose miner has 49997000 unlocked: a negative
    amount and one above the unlocked balance are refused, and 1000 are
    locked. *)
Lemma AddLockedFund_outcomes_witness :
  lock_run (-1) = Aborted ErrIllegalArgument healthy_start
  /\ lock_run 49997001 = Aborted ErrInsufficientFunds healthy_start
  /\ sent (outcome (lock_run 1000)) = [Power_UpdatePledgeTotal 1000].
Proof.
  split; [| split].
  - apply (AddLockedFund_outcomes (LI := limits) (IO := info_ops None)
             lock_rt (-1) healthy_start).
    lia.
  - apply (proj1 (proj2 (AddLockedFund_outcomes (LI := limits)
                           (IO := info_ops None) lock_rt 49997001
                           healthy_start)) info).
    + lia.
    + reflexivity.
    + vm_compute. tauto.
    + vm_compute. reflexivity.
  - assert (Hrun : lock_run 1000 = Returned tt (outcome (lock_run 1000)))
      by (vm_compute; reflexivity).
    destruct (proj2 (proj2 (AddLockedFund_outcomes (LI := limits)
                              (IO := info_ops None) lock_rt 1000
                              healthy_start)) tt _ Hrun)
      as (_ & nv & Hlock & _ & Hsent).
    vm_compute in Hlock. injection Hlock as <-.
    rewrite Hsent. reflexivity.
Defined.

(** *** More of the pre-commitment *)

(** X26 on the barred miner at epoch 50. *)
Lemma PreCommitSector_consensus_fault_witness :
  PreCommitSector early_rt upgrade barred_start
  = Aborted ErrForbidden
      (sent_more barred_start
         [Reward_ThisEpochReward; Power_CurrentTotalPower;
          Market_VerifyDealsForActivation [7] 50 600000]).
Proof.
  assert (Hchecks : PreCommitSector_checks early_rt upgrade barred_start
                    = Returned tt barred_start)
    by (vm_compute; reflexivity).
  assert (Hver : VerifyPledgeRequirementsAndRepayDebts
                   (balance barred_start) (persisted barred_start)
                 = TxOk 0 (persisted barred_start))
    by (vm_compute; reflexivity).
  assert (Hcaller : In (Caller early_rt)
                      (ControlAddresses barred_info
                       ++ [Owner barred_info; Worker barred_info]))
    by (vm_compute; tauto).
  exact (PreCommitSector_consensus_fault early_rt upgrade barred_start
           (persisted barred_start) 0 (persisted barred_start) 0
           barred_info Hchecks eq_refl eq_refl eq_refl eq_refl Hver
           eq_refl Hcaller eq_refl).
Defined.

(** *** Miner info *)

(** X27 with five leaders expected per epoch. *)
Lemma ConsensusFaultPenalty_reward_witness :
  ConsensusFaultPenalty 1000000 = Some 1000000.
Proof. apply ConsensusFaultPenalty_reward. reflexivity. Defined.

(** X29 by the worker, with a peer ID of two bytes. *)
Lemma ChangePeerID_returned_witness :
  Z.of_nat (length [Byte.x01; Byte.x02]) <= @MaxPeerIDLength limits
  /\ sent (outcome peer_run) = [].
Proof.
  assert (Hrun : peer_run = Returned tt (outcome peer_run))
    by (vm_compute; reflexivity).
  destruct (ChangePeerID_returned (LI := limits) (IO := info_ops None)
              post_rt {| NewID := [Byte.x01; Byte.x02] |} healthy_start
              tt _ Hrun)
    as (i & _ & _ & Hlen & _ & Hsent & _).
  split; [exact Hlen | exact Hsent].
Defined.

(** X30 by the worker, with two multiaddrs of three bytes together. *)
Lemma ChangeMultiaddrs_returned_witness :
  Forall (fun ma : list Byte.byte => ma <> [])
    [[Byte.x01]; [Byte.x02; Byte.x03]]
  /\ sent (outcome multiaddrs_run) = [].
Proof.
  assert (Hrun : multiaddrs_run = Returned tt (outcome multiaddrs_run))
    by (vm_compute; reflexivity).
  destruct (ChangeMultiaddrs_returned (LI := limits) (IO := info_ops None)
              post_rt
              {| NewMultiaddrs := [[Byte.x01]; [Byte.x02; Byte.x03]] |}
              healthy_start tt _ Hrun)
    as (i & _ & _ & Hall & _ & _ & Hsent & _).
  split; [exact Hall | exact Hsent].
Defined.

End Cases.
